(** * Asset Repair: a shallow embedding of
      [erpnext/assets/doctype/asset_repair/asset_repair.py]

    The controller [AssetRepair] is translated method by method.  Document
    fields become record fields, the ambient framework (database, clock,
    collaborating modules of the ERP) becomes the interface [Framework], and
    the hooks [validate] and [before_submit] run in a state-and-exception
    monad whose state is the repair document, the loaded Asset document and
    the framework state.

    Numbers.  Python has integers and floats.  Integer fields ([Int]) are [Z].
    Floats are read in two ways.  In the controller they are exact rationals
    ([Qc], canonical fractions with Leibniz equality): the rounding of each
    operation is left out, every other feature (true division never yields
    an integer object, [cint] truncates, [round] rounds half to even) is
    kept.  Where a property depends on the rounding itself (undoing an
    addition, the sign of a rounded difference), the functions concerned are
    given again in the module [Double], over IEEE 754 doubles with each
    operation rounded to the nearest double. *)

From Stdlib Require Import ZArith QArith Qcanon Qround Qabs Qpower Lia Lqa.
From stdpp Require Import base list strings option.

Open Scope Z_scope.

(** ** Python values *)

Module Py.

(** Exceptions that the modelled code can raise. [ValidationError] is what
    [frappe.throw(msg, title=...)] raises. *)
Inductive Exn :=
| ValidationError (msg : string) (title : option string)
| ZeroDivisionError
| IndexError
| TypeError
| AttributeError
| ValueError
| FrameworkError (what : string).

Inductive result (A : Type) :=
| Ok (a : A)
| Throw (e : Exn).
Arguments Ok {A} a.
Arguments Throw {A} e.

#[export] Instance result_ret : MRet result := @Ok.
#[export] Instance result_bind : MBind result :=
  fun A B k r => match r with Ok a => k a | Throw e => Throw e end.

(** A Python number: an [int] or a [float]. *)
Inductive num :=
| PyInt (z : Z)
| PyFloat (q : Qc).

Definition of_Z (z : Z) : Qc := Q2Qc (inject_Z z).

(** The numeric value, as Python's [==] between numbers compares it. *)
Definition val (n : num) : Qc :=
  match n with
  | PyInt z => of_Z z
  | PyFloat q => q
  end.

(** [a + b]: an int only when both operands are ints. *)
Definition add (a b : num) : num :=
  match a, b with
  | PyInt x, PyInt y => PyInt (x + y)
  | _, _ => PyFloat (val a + val b)%Qc
  end.

(** [a - b]. *)
Definition sub (a b : num) : num :=
  match a, b with
  | PyInt x, PyInt y => PyInt (x - y)
  | _, _ => PyFloat (val a - val b)%Qc
  end.

(** [a / b] on two ints: true division, always a float. *)
Definition truediv (a b : Z) : result num :=
  if b =? 0 then Throw ZeroDivisionError
  else Ok (PyFloat (of_Z a / of_Z b)%Qc).

(** [a // b] on two ints: floor division. *)
Definition floordiv (a b : Z) : result Z :=
  if b =? 0 then Throw ZeroDivisionError else Ok (a / b).

(** [a % b] on two ints: the remainder has the sign of the divisor. *)
Definition mod_ (a b : Z) : result Z :=
  if b =? 0 then Throw ZeroDivisionError else Ok (a mod b).

(** [int(x)] on a float truncates toward zero. *)
Definition trunc (q : Qc) : Z := Z.quot (Qnum q) (Z.pos (Qden q)).

(** [frappe.utils.cint]: [int(float(s))]. *)
Definition cint (n : num) : Z :=
  match n with
  | PyInt z => z
  | PyFloat q => trunc q
  end.

(** [frappe.utils.flt] without a precision: [float(s)]. *)
Definition flt (q : Qc) : Qc := q.

Definition leb (a b : Qc) : bool := Qle_bool a b.
Definition ltb (a b : Qc) : bool := negb (Qle_bool b a).

(** Rounding of a rational to the nearest integer, ties to the even one. *)
Definition round_half_even (x : Q) : Z :=
  let f := Qfloor x in
  match Qcompare (x - inject_Z f) (1 # 2) with
  | Lt => f
  | Gt => f + 1
  | Eq => if Z.even f then f else f + 1
  end.

(** [round(x, ndigits)] on an exact value: the decimal with [ndigits]
    digits nearest to [x], ties to even. *)
Definition round (x : Qc) (ndigits : nat) : Qc :=
  let scale := inject_Z (10 ^ Z.of_nat ndigits) in
  Q2Qc (inject_Z (round_half_even (x * scale)) / scale).

(** [l[i]] with Python's negative indices. *)
Definition getitem {A} (l : list A) (i : Z) : result A :=
  let n := Z.of_nat (length l) in
  let j := if i <? 0 then i + n else i in
  if (j <? 0) || (n <=? j) then Throw IndexError
  else match l !! Z.to_nat j with
       | Some x => Ok x
       | None => Throw IndexError
       end.

(** Truthiness of a string-valued field that may be unset. *)
Definition truthy (s : option string) : bool :=
  match s with
  | Some s => negb (String.eqb s "")
  | None => false
  end.

(** [a or b] on such fields. *)
Definition or_ (a b : option string) : option string :=
  if truthy a then a else b.

End Py.

Import Py.

(** ** Calendar dates *)

Module Dates.

Record date := mkDate { year : Z; month : Z; day : Z }.

Definition is_leap (y : Z) : bool :=
  ((y mod 4 =? 0) && negb (y mod 100 =? 0)) || (y mod 400 =? 0).

Definition days_in_month (y m : Z) : Z :=
  if m =? 2 then (if is_leap y then 29 else 28)
  else if (m =? 4) || (m =? 6) || (m =? 9) || (m =? 11) then 30
  else 31.

(** [frappe.utils.add_months(date, months)], that is
    [date + relativedelta(months=months)]: the month count moves, the day is
    clipped to the length of the month reached. *)
Definition add_months (d : date) (months : Z) : date :=
  let total := year d * 12 + (month d - 1) + months in
  let y := total / 12 in
  let m := total mod 12 + 1 in
  mkDate y m (Z.min (day d) (days_in_month y m)).

(** Ordering of [datetime.date] values. *)
Definition ltb (a b : date) : bool :=
  (year a <? year b)
  || ((year a =? year b)
      && ((month a <? month b)
          || ((month a =? month b) && (day a <? day b)))).

Definition gtb (a b : date) : bool := ltb b a.

End Dates.

Import Dates.

(** ** Documents *)

(** A row of the child table [stock_items] (Asset Repair Consumed Item). *)
Record AssetRepairConsumedItem := mkConsumedItem {
  item_code : string;
  valuation_rate : Qc;
  consumed_quantity : Qc;
  serial_no : option string;
  total_value : Qc
}.

(** The Asset Repair document ([self]). *)
Record AssetRepair := mkAssetRepair {
  name : string;
  asset : string;
  company : string;
  repair_status : string;
  repair_cost : Qc;
  total_repair_cost : Qc;
  stock_consumption : bool;
  capitalize_repair_cost : bool;
  stock_items : list AssetRepairConsumedItem;
  warehouse : option string;
  increase_in_asset_life : Z;
  purchase_invoice : option string;
  stock_entry : option string;
  cost_center : option string;
  project : option string;
  (** [self.ignore_linked_doctypes]: not a field of the doctype but an
      attribute of the object, absent until [before_cancel] writes it. *)
  ignore_linked_doctypes : option (list string)
}.

Definition doctype : string := "Asset Repair".

(** [asset_doc.flags]: a bag of signals, each unset until first written. *)
Record AssetFlags := mkFlags {
  increase_in_asset_value_due_to_repair : option bool;
  flag_increase_in_asset_life : option bool;
  ignore_validate_update_after_submit : option bool
}.

(** A row of [asset_doc.finance_books]. *)
Record AssetFinanceBook := mkFinanceBook {
  finance_book : option string;
  depreciation_method : string;
  value_after_depreciation : Qc;
  total_number_of_depreciations : num;
  frequency_of_depreciation : Z;
  depreciation_start_date : date;
  expected_value_after_useful_life : Qc
}.

(** The Asset document, as far as this controller reads or writes it. *)
Record Asset := mkAsset {
  asset_name : string;
  status : string;
  calculate_depreciation : bool;
  number_of_depreciations_booked : Z;
  finance_books : list AssetFinanceBook;
  flags : AssetFlags;
  to_date : option date
}.

Definition asset_doctype : string := "Asset".

(** A row of an asset depreciation schedule. *)
Record DepreciationSchedule := mkDeprRow {
  schedule_date : date;
  accumulated_depreciation_amount : Qc
}.

Record PurchaseInvoiceItem := mkPIItem {
  pi_expense_account : option string
}.

(** A row of a submitted Stock Entry. *)
Record StockEntryDetail := mkSEDetail {
  amount : Qc;
  expense_account : option string
}.

(** A row appended to the Material Issue that [decrease_stock_quantity]
    builds. *)
Record StockEntryItem := mkSEItem {
  s_warehouse : option string;
  se_item_code : string;
  qty : Qc;
  basic_rate : Qc;
  se_serial_no : option string;
  se_cost_center : option string;
  se_project : option string
}.

Record StockEntry := mkStockEntry {
  stock_entry_type : string;
  se_company : string;
  items : list StockEntryItem
}.

(** The dictionary handed to [get_gl_dict]. *)
Record GLArgs := mkGLArgs {
  arg_account : option string;
  arg_debit : option Qc;
  arg_debit_in_account_currency : option Qc;
  arg_credit : option Qc;
  arg_credit_in_account_currency : option Qc;
  arg_against : option string;
  arg_voucher_type : string;
  arg_voucher_no : string;
  arg_cost_center : option string;
  arg_posting_date : date;
  arg_against_voucher_type : option string;
  arg_against_voucher : option string;
  arg_company : string
}.

(** A ledger entry. *)
Record GLEntry := mkGLEntry {
  account : option string;
  debit : Qc;
  debit_in_account_currency : Qc;
  credit : Qc;
  credit_in_account_currency : Qc;
  against : option string;
  voucher_type : string;
  voucher_no : string;
  gl_cost_center : option string;
  posting_date : date;
  against_voucher_type : option string;
  against_voucher : option string;
  gl_company : string
}.

(** Modelled from the spec: [get_gl_dict] of the accounts controller is not
    part of the source file.  A ledger entry carries "account, debit/credit
    amount, cost center, voucher linkage": the entry keeps every field of the
    dictionary it is built from, and an amount the dictionary does not give
    is zero. *)
Definition get_gl_dict (args : GLArgs) : GLEntry :=
  {| account := arg_account args;
     debit := default 0%Qc (arg_debit args);
     debit_in_account_currency := default 0%Qc (arg_debit_in_account_currency args);
     credit := default 0%Qc (arg_credit args);
     credit_in_account_currency := default 0%Qc (arg_credit_in_account_currency args);
     against := arg_against args;
     voucher_type := arg_voucher_type args;
     voucher_no := arg_voucher_no args;
     gl_cost_center := arg_cost_center args;
     posting_date := arg_posting_date args;
     against_voucher_type := arg_against_voucher_type args;
     against_voucher := arg_against_voucher args;
     gl_company := arg_company args |}.

(** ** Field updates *)

Definition set_total_value (v : Qc) (i : AssetRepairConsumedItem) :=
  mkConsumedItem (item_code i) (valuation_rate i) (consumed_quantity i) (serial_no i) v.

Definition set_stock_items (l : list AssetRepairConsumedItem) (d : AssetRepair) :=
  mkAssetRepair (name d) (asset d) (company d) (repair_status d) (repair_cost d)
    (total_repair_cost d) (stock_consumption d) (capitalize_repair_cost d) l
    (warehouse d) (increase_in_asset_life d) (purchase_invoice d) (stock_entry d)
    (cost_center d) (project d) (ignore_linked_doctypes d).

Definition set_total_repair_cost (v : Qc) (d : AssetRepair) :=
  mkAssetRepair (name d) (asset d) (company d) (repair_status d) (repair_cost d)
    v (stock_consumption d) (capitalize_repair_cost d) (stock_items d)
    (warehouse d) (increase_in_asset_life d) (purchase_invoice d) (stock_entry d)
    (cost_center d) (project d) (ignore_linked_doctypes d).

Definition set_stock_entry (v : option string) (d : AssetRepair) :=
  mkAssetRepair (name d) (asset d) (company d) (repair_status d) (repair_cost d)
    (total_repair_cost d) (stock_consumption d) (capitalize_repair_cost d)
    (stock_items d) (warehouse d) (increase_in_asset_life d) (purchase_invoice d) v
    (cost_center d) (project d) (ignore_linked_doctypes d).

Definition set_warehouse (v : option string) (d : AssetRepair) :=
  mkAssetRepair (name d) (asset d) (company d) (repair_status d) (repair_cost d)
    (total_repair_cost d) (stock_consumption d) (capitalize_repair_cost d)
    (stock_items d) v (increase_in_asset_life d) (purchase_invoice d) (stock_entry d)
    (cost_center d) (project d) (ignore_linked_doctypes d).

Definition set_ignore_linked_doctypes (v : option (list string)) (d : AssetRepair) :=
  mkAssetRepair (name d) (asset d) (company d) (repair_status d) (repair_cost d)
    (total_repair_cost d) (stock_consumption d) (capitalize_repair_cost d)
    (stock_items d) (warehouse d) (increase_in_asset_life d) (purchase_invoice d)
    (stock_entry d) (cost_center d) (project d) v.

Definition set_value_after_depreciation (v : Qc) (r : AssetFinanceBook) :=
  mkFinanceBook (finance_book r) (depreciation_method r) v
    (total_number_of_depreciations r) (frequency_of_depreciation r)
    (depreciation_start_date r) (expected_value_after_useful_life r).

Definition set_total_number_of_depreciations (n : num) (r : AssetFinanceBook) :=
  mkFinanceBook (finance_book r) (depreciation_method r) (value_after_depreciation r)
    n (frequency_of_depreciation r) (depreciation_start_date r)
    (expected_value_after_useful_life r).

Definition set_expected_value_after_useful_life (v : Qc) (r : AssetFinanceBook) :=
  mkFinanceBook (finance_book r) (depreciation_method r) (value_after_depreciation r)
    (total_number_of_depreciations r) (frequency_of_depreciation r)
    (depreciation_start_date r) v.

Definition set_status (s : string) (a : Asset) :=
  mkAsset (asset_name a) s (calculate_depreciation a)
    (number_of_depreciations_booked a) (finance_books a) (flags a) (to_date a).

Definition set_finance_books (l : list AssetFinanceBook) (a : Asset) :=
  mkAsset (asset_name a) (status a) (calculate_depreciation a)
    (number_of_depreciations_booked a) l (flags a) (to_date a).

Definition set_flags (f : AssetFlags) (a : Asset) :=
  mkAsset (asset_name a) (status a) (calculate_depreciation a)
    (number_of_depreciations_booked a) (finance_books a) f (to_date a).

Definition set_to_date (d : option date) (a : Asset) :=
  mkAsset (asset_name a) (status a) (calculate_depreciation a)
    (number_of_depreciations_booked a) (finance_books a) (flags a) d.

Definition set_increase_in_asset_value_due_to_repair (b : bool) (f : AssetFlags) :=
  mkFlags (Some b) (flag_increase_in_asset_life f) (ignore_validate_update_after_submit f).

Definition set_flag_increase_in_asset_life (b : bool) (f : AssetFlags) :=
  mkFlags (increase_in_asset_value_due_to_repair f) (Some b)
    (ignore_validate_update_after_submit f).

Definition set_ignore_validate_update_after_submit (b : bool) (f : AssetFlags) :=
  mkFlags (increase_in_asset_value_due_to_repair f) (flag_increase_in_asset_life f) (Some b).

(** ** The framework

    Everything the controller calls outside its own file: the document
    store, the clock, the ledger, the stock module and the depreciation
    schedule module.  [Env] is the state they live in.  A read takes the
    state; a write returns the new state, also when it raises. *)

Class Framework (Env : Type) := {
  (** [frappe.get_doc("Asset", name)] *)
  get_doc_asset : Env -> string -> result Asset;
  (** [frappe.db.set_value("Asset", name, "status", value)] *)
  db_set_value_asset_status : string -> string -> Env -> result unit * Env;
  (** [asset_doc.set_status()] *)
  asset_set_status : Asset -> Env -> result unit * (Asset * Env);
  (** [get_asset_account(fieldname, asset=, company=)] *)
  get_asset_account : Env -> string -> string -> string -> result (option string);
  (** [frappe.get_doc("Purchase Invoice", name).items] *)
  get_doc_purchase_invoice_items :
    Env -> option string -> result (list PurchaseInvoiceItem);
  (** [frappe.get_doc("Stock Entry", name).items] *)
  get_doc_stock_entry_items : Env -> option string -> result (list StockEntryDetail);
  (** [erpnext.is_perpetual_inventory_enabled(company)] *)
  is_perpetual_inventory_enabled : Env -> string -> result bool;
  (** [frappe.get_cached_value("Company", company, "default_expense_account")] *)
  get_cached_default_expense_account : Env -> string -> option string;
  (** [getdate()] *)
  getdate : Env -> date;
  (** [get_depr_schedule(asset_name, status, finance_book)] *)
  get_depr_schedule :
    Env -> string -> string -> option string -> option (list DepreciationSchedule);
  (** [get_asset_depr_schedule_doc(...)], through its rows
      [.get("depreciation_schedule")] *)
  get_asset_depr_schedule_doc :
    Env -> string -> string -> option string -> option (list DepreciationSchedule);
  (** [asset_depr_schedule_doc.db_set("expected_value_after_useful_life", v)] *)
  depr_schedule_doc_db_set :
    string -> option string -> Qc -> Env -> result unit * Env;
  (** [stock_entry.insert(); stock_entry.submit()], giving [stock_entry.name] *)
  stock_entry_insert_and_submit : StockEntry -> Env -> result string * Env;
  (** [erpnext.accounts.general_ledger.make_gl_entries(gl_entries, cancel)] *)
  general_ledger_make_gl_entries : list GLEntry -> bool -> Env -> result unit * Env;
  make_new_active_asset_depr_schedules_and_cancel_current_ones :
    Asset -> string -> Env -> result unit * (Asset * Env);
  (** [asset_doc.save()] *)
  asset_save : Asset -> Env -> result unit * (Asset * Env);
  (** [self.db_set("stock_entry", value)], the database side *)
  db_set_stock_entry : string -> option string -> Env -> result unit * Env;
  get_link_to_form : string -> string -> string;
  (** [_(msg)] and [str.format] *)
  translate : string -> string;
  format : string -> list string -> string;
  (** [row.precision(fieldname)] and [flt(x, precision)] *)
  row_precision : Env -> string -> option nat;
  flt_rounded : Env -> Qc -> option nat -> Qc
}.

(** ** The controller *)

Section Controller.

Context {Env : Type} `{FW : Framework Env}.

(** What a hook runs on: [self], [self.asset_doc] (unset until [validate]
    loads it) and the framework state.  An exception leaves the state as
    it was when raised: objects mutated in place stay mutated. *)
Record World := mkWorld {
  self : AssetRepair;
  asset_doc : option Asset;
  env : Env
}.

Definition M (A : Type) : Type := World -> result A * World.

Definition ret {A} (a : A) : M A := fun w => (Ok a, w).

Definition bind {A B} (m : M A) (k : A -> M B) : M B :=
  fun w =>
    match m w with
    | (Ok a, w') => k a w'
    | (Throw e, w') => (Throw e, w')
    end.

Definition throw {A} (e : Exn) : M A := fun w => (Throw e, w).

#[local] Instance M_ret : MRet M := @ret.
#[local] Instance M_bind : MBind M := fun A B k m => bind m k.

(** [frappe.throw(msg, title=title)] *)
Definition frappe_throw {A} (msg : string) (title : option string) : M A :=
  throw (ValidationError (translate msg) (translate <$> title)).

Definition lift {A} (r : result A) : M A := fun w => (r, w).

Definition get_self : M AssetRepair := fun w => (Ok (self w), w).

Definition modify_self (f : AssetRepair -> AssetRepair) : M unit :=
  fun w => (Ok tt, mkWorld (f (self w)) (asset_doc w) (env w)).

Definition get_env : M Env := fun w => (Ok (env w), w).

(** Reading [self.asset_doc]: an attribute error when it was never set. *)
Definition get_asset_doc : M Asset :=
  fun w =>
    match asset_doc w with
    | Some a => (Ok a, w)
    | None => (Throw AttributeError, w)
    end.

Definition put_asset_doc (a : Asset) : M unit :=
  fun w => (Ok tt, mkWorld (self w) (Some a) (env w)).

Definition modify_asset_doc (f : Asset -> Asset) : M unit :=
  a ← get_asset_doc; put_asset_doc (f a).

(** A framework call that changes the framework state only. *)
Definition call_env {A} (f : Env -> result A * Env) : M A :=
  fun w => let '(r, e) := f (env w) in (r, mkWorld (self w) (asset_doc w) e).

(** A framework call on [self.asset_doc], which it may change. *)
Definition call_asset {A} (f : Asset -> Env -> result A * (Asset * Env)) : M A :=
  fun w =>
    match asset_doc w with
    | Some a =>
        let '(r, (a', e)) := f a (env w) in (r, mkWorld (self w) (Some a') e)
    | None => (Throw AttributeError, w)
    end.

(** The row [self.asset_doc.finance_books[i]], an object shared with the
    list: the index stands for the reference. *)
Definition get_row (i : nat) : M AssetFinanceBook :=
  a ← get_asset_doc;
  match finance_books a !! i with
  | Some r => ret r
  | None => throw IndexError
  end.

Definition modify_row (i : nat) (f : AssetFinanceBook -> AssetFinanceBook) : M unit :=
  modify_asset_doc (fun a => set_finance_books (alter f i (finance_books a)) a).

Fixpoint for_range (n i : nat) (body : nat -> M unit) : M unit :=
  match n with
  | O => ret tt
  | S n' => body i;; for_range n' (S i) body
  end.

(** [for row in self.asset_doc.finance_books: body] *)
Definition for_each_finance_book (body : nat -> M unit) : M unit :=
  a ← get_asset_doc;
  for_range (length (finance_books a)) 0 body.

Definition when (b : bool) (m : M unit) : M unit := if b then m else ret tt.

(** *** Stock consumption value *)

Definition set_stock_items_cost (d : AssetRepair) : AssetRepair :=
  set_stock_items
    (map (fun item =>
            set_total_value
              (flt (valuation_rate item) * flt (consumed_quantity item))%Qc item)
         (stock_items d))
    d.

Definition get_total_value_of_stock_consumed (d : AssetRepair) : Qc :=
  let total_value_of_stock_consumed := 0%Qc in
  if stock_consumption d then
    fold_left (fun acc item => (acc + total_value item)%Qc)
      (stock_items d) total_value_of_stock_consumed
  else total_value_of_stock_consumed.

Definition calculate_total_repair_cost (d : AssetRepair) : AssetRepair :=
  let d := set_total_repair_cost (flt (repair_cost d)) d in
  let total_value_of_stock_consumed := get_total_value_of_stock_consumed d in
  set_total_repair_cost
    (total_repair_cost d + total_value_of_stock_consumed)%Qc d.

(** *** validate *)

Definition update_status : M unit :=
  d ← get_self;
  if String.eqb (repair_status d) "Pending" then
    call_env (db_set_value_asset_status (asset d) "Out of Order")
  else call_asset asset_set_status.

Definition validate : M unit :=
  d ← get_self;
  e ← get_env;
  a ← lift (get_doc_asset e (asset d));
  put_asset_doc a;;
  update_status;;
  d ← get_self;
  when (negb (bool_decide (stock_items d = []))) (modify_self set_stock_items_cost);;
  modify_self calculate_total_repair_cost.

(** *** Checks *)

Definition check_repair_status : M unit :=
  d ← get_self;
  if String.eqb (repair_status d) "Pending" then
    frappe_throw "Please update Repair Status." None
  else ret tt.

Definition check_for_stock_items_and_warehouse : M unit :=
  d ← get_self;
  (if bool_decide (stock_items d = []) then
     frappe_throw "Please enter Stock Items consumed during the Repair."
       (Some "Missing Items")
   else ret tt);;
  if negb (truthy (warehouse d)) then
    frappe_throw
      "Please enter Warehouse from which Stock Items consumed during the Repair were taken."
      (Some "Missing Warehouse")
  else ret tt.

(** *** Asset value *)

Definition increase_asset_value (d : AssetRepair) (a : Asset) : Asset :=
  let total_value_of_stock_consumed := get_total_value_of_stock_consumed d in
  if calculate_depreciation a then
    set_finance_books
      (map (fun row =>
              let row :=
                set_value_after_depreciation
                  (value_after_depreciation row + total_value_of_stock_consumed)%Qc row in
              if capitalize_repair_cost d then
                set_value_after_depreciation
                  (value_after_depreciation row + repair_cost d)%Qc row
              else row)
           (finance_books a))
      a
  else a.

Definition decrease_asset_value (d : AssetRepair) (a : Asset) : Asset :=
  let total_value_of_stock_consumed := get_total_value_of_stock_consumed d in
  if calculate_depreciation a then
    set_finance_books
      (map (fun row =>
              let row :=
                set_value_after_depreciation
                  (value_after_depreciation row - total_value_of_stock_consumed)%Qc row in
              if capitalize_repair_cost d then
                set_value_after_depreciation
                  (value_after_depreciation row - repair_cost d)%Qc row
              else row)
           (finance_books a))
      a
  else a.

(** *** Stock movement *)

Definition decrease_stock_quantity : M unit :=
  d ← get_self;
  let stock_entry_doc :=
    mkStockEntry "Material Issue" (company d)
      (map (fun stock_item =>
              {| s_warehouse := warehouse d;
                 se_item_code := item_code stock_item;
                 qty := consumed_quantity stock_item;
                 basic_rate := valuation_rate stock_item;
                 se_serial_no := serial_no stock_item;
                 se_cost_center := cost_center d;
                 se_project := project d |})
           (stock_items d)) in
  stock_entry_name ← call_env (stock_entry_insert_and_submit stock_entry_doc);
  modify_self (set_stock_entry (Some stock_entry_name));;
  call_env (db_set_stock_entry (name d) (Some stock_entry_name)).

(** *** Ledger entries *)

Definition get_gl_entries_for_repair_cost (e : Env) (d : AssetRepair)
    (gl_entries : list GLEntry) (fixed_asset_account : option string)
    : result (list GLEntry) :=
  if Py.leb (flt (repair_cost d)) 0 then Ok gl_entries
  else
    pi_items ← get_doc_purchase_invoice_items e (purchase_invoice d);
    first_item ← getitem pi_items 0;
    let pi_expense_account := pi_expense_account first_item in
    let gl_entries :=
      gl_entries ++ [get_gl_dict
        {| arg_account := fixed_asset_account;
           arg_debit := Some (repair_cost d);
           arg_debit_in_account_currency := Some (repair_cost d);
           arg_credit := None;
           arg_credit_in_account_currency := None;
           arg_against := pi_expense_account;
           arg_voucher_type := doctype;
           arg_voucher_no := name d;
           arg_cost_center := cost_center d;
           arg_posting_date := getdate e;
           arg_against_voucher_type := Some "Purchase Invoice";
           arg_against_voucher := purchase_invoice d;
           arg_company := company d |}] in
    let gl_entries :=
      gl_entries ++ [get_gl_dict
        {| arg_account := pi_expense_account;
           arg_debit := None;
           arg_debit_in_account_currency := None;
           arg_credit := Some (repair_cost d);
           arg_credit_in_account_currency := Some (repair_cost d);
           arg_against := fixed_asset_account;
           arg_voucher_type := doctype;
           arg_voucher_no := name d;
           arg_cost_center := cost_center d;
           arg_posting_date := getdate e;
           arg_against_voucher_type := None;
           arg_against_voucher := None;
           arg_company := company d |}] in
    Ok gl_entries.

(** The two entries appended for one row of the Stock Entry. *)
Definition consumed_item_entries (e : Env) (d : AssetRepair)
    (fixed_asset_account default_expense_account : option string)
    (gl_entries : list GLEntry) (item : StockEntryDetail) : list GLEntry :=
  if Py.ltb 0 (flt (amount item)) then
    let gl_entries :=
      gl_entries ++ [get_gl_dict
        {| arg_account := or_ (expense_account item) default_expense_account;
           arg_debit := None;
           arg_debit_in_account_currency := None;
           arg_credit := Some (amount item);
           arg_credit_in_account_currency := Some (amount item);
           arg_against := fixed_asset_account;
           arg_voucher_type := doctype;
           arg_voucher_no := name d;
           arg_cost_center := cost_center d;
           arg_posting_date := getdate e;
           arg_against_voucher_type := None;
           arg_against_voucher := None;
           arg_company := company d |}] in
    gl_entries ++ [get_gl_dict
        {| arg_account := fixed_asset_account;
           arg_debit := Some (amount item);
           arg_debit_in_account_currency := Some (amount item);
           arg_credit := None;
           arg_credit_in_account_currency := None;
           arg_against := or_ (expense_account item) default_expense_account;
           arg_voucher_type := doctype;
           arg_voucher_no := name d;
           arg_cost_center := cost_center d;
           arg_posting_date := getdate e;
           arg_against_voucher_type := Some "Stock Entry";
           arg_against_voucher := stock_entry d;
           arg_company := company d |}]
  else gl_entries.

Definition get_gl_entries_for_consumed_items (e : Env) (d : AssetRepair)
    (gl_entries : list GLEntry) (fixed_asset_account : option string)
    : result (list GLEntry) :=
  if negb (stock_consumption d && negb (bool_decide (stock_items d = []))) then
    Ok gl_entries
  else
    stock_entry_items ← get_doc_stock_entry_items e (stock_entry d);
    perpetual ← is_perpetual_inventory_enabled e (company d);
    default_expense_account ←
      (if negb perpetual then
         let default_expense_account :=
           get_cached_default_expense_account e (company d) in
         if negb (truthy default_expense_account) then
           Throw (ValidationError
                    (format
                       (translate "Please set default Expense Account in Company {0}")
                       [company d])
                    None)
         else Ok default_expense_account
       else Ok None);
    Ok (fold_left
          (consumed_item_entries e d fixed_asset_account default_expense_account)
          stock_entry_items gl_entries).

Definition get_gl_entries (e : Env) (d : AssetRepair) : result (list GLEntry) :=
  let gl_entries := [] in
  fixed_asset_account ← get_asset_account e "fixed_asset_account" (asset d) (company d);
  gl_entries ← get_gl_entries_for_repair_cost e d gl_entries fixed_asset_account;
  gl_entries ← get_gl_entries_for_consumed_items e d gl_entries fixed_asset_account;
  Ok gl_entries.

Definition make_gl_entries (cancel : bool) : M unit :=
  d ← get_self;
  if Py.ltb 0 (flt (total_repair_cost d)) then
    e ← get_env;
    gl_entries ← lift (get_gl_entries e d);
    call_env (general_ledger_make_gl_entries gl_entries cancel)
  else ret tt.

(** *** Depreciation schedule *)

Definition set_asset_flag_increase_in_asset_life (b : bool) : M unit :=
  modify_asset_doc (fun a => set_flags (set_flag_increase_in_asset_life b (flags a)) a).

(** The schedule date of [depr_schedule[len(depr_schedule) - 1]]; the
    schedule of a finance book that has none is [None], and [len(None)]
    is a type error. *)
Definition last_schedule_date_of (e : Env) (asset_name : string)
    (finance_book : option string) : result date :=
  match get_depr_schedule e asset_name "Active" finance_book with
  | None => Throw TypeError
  | Some depr_schedule =>
      last ← getitem depr_schedule (Z.of_nat (length depr_schedule) - 1);
      Ok (schedule_date last)
  end.

(** [row] is [asset.finance_books[i]]. *)
Definition calculate_last_schedule_date (i : nat) (extra_months : Z) : M unit :=
  set_asset_flag_increase_in_asset_life true;;
  a ← get_asset_doc;
  row ← get_row i;
  let number_of_pending_depreciations :=
    cint (total_number_of_depreciations row)
    - cint (PyInt (number_of_depreciations_booked a)) in
  e ← get_env;
  last_schedule_date ←
    lift (last_schedule_date_of e (asset_name a) (finance_book row));
  let to_date := add_months last_schedule_date extra_months in
  modify_asset_doc (set_to_date (Some to_date));;
  let schedule_date :=
    add_months (depreciation_start_date row)
      (number_of_pending_depreciations
       * cint (PyInt (frequency_of_depreciation row))) in
  if Dates.gtb to_date schedule_date then
    modify_row i (fun row =>
      set_total_number_of_depreciations
        (add (total_number_of_depreciations row) (PyInt 1)) row)
  else ret tt.

(** The body of the loop of [modify_depreciation_schedule], for the row
    [self.asset_doc.finance_books[i]]. *)
Definition modify_depreciation_schedule_row (i : nat) : M unit :=
  d ← get_self;
  row ← get_row i;
  quotient ← lift (truediv (increase_in_asset_life d) (frequency_of_depreciation row));
  modify_row i (fun row =>
    set_total_number_of_depreciations
      (add (total_number_of_depreciations row) quotient) row);;
  set_asset_flag_increase_in_asset_life false;;
  extra_months ← lift (mod_ (increase_in_asset_life d) (frequency_of_depreciation row));
  if negb (extra_months =? 0) then calculate_last_schedule_date i extra_months
  else ret tt.

Definition modify_depreciation_schedule : M unit :=
  for_each_finance_book modify_depreciation_schedule_row.

Definition calculate_last_schedule_date_before_modification
    (i : nat) (extra_months : Z) : M unit :=
  set_asset_flag_increase_in_asset_life true;;
  a ← get_asset_doc;
  row ← get_row i;
  let number_of_pending_depreciations :=
    cint (total_number_of_depreciations row)
    - cint (PyInt (number_of_depreciations_booked a)) in
  e ← get_env;
  last_schedule_date ←
    lift (last_schedule_date_of e (asset_name a) (finance_book row));
  let to_date := add_months last_schedule_date (- extra_months) in
  modify_asset_doc (set_to_date (Some to_date));;
  let schedule_date :=
    add_months (depreciation_start_date row)
      ((number_of_pending_depreciations - 1)
       * cint (PyInt (frequency_of_depreciation row))) in
  if Dates.ltb to_date schedule_date then
    modify_row i (fun row =>
      set_total_number_of_depreciations
        (sub (total_number_of_depreciations row) (PyInt 1)) row)
  else ret tt.

(** The body of the loop of [revert_depreciation_schedule_on_cancellation]. *)
Definition revert_depreciation_schedule_on_cancellation_row (i : nat) : M unit :=
  d ← get_self;
  row ← get_row i;
  quotient ← lift (truediv (increase_in_asset_life d) (frequency_of_depreciation row));
  modify_row i (fun row =>
    set_total_number_of_depreciations
      (sub (total_number_of_depreciations row) quotient) row);;
  set_asset_flag_increase_in_asset_life false;;
  extra_months ← lift (mod_ (increase_in_asset_life d) (frequency_of_depreciation row));
  if negb (extra_months =? 0) then
    calculate_last_schedule_date_before_modification i extra_months
  else ret tt.

Definition revert_depreciation_schedule_on_cancellation : M unit :=
  for_each_finance_book revert_depreciation_schedule_on_cancellation_row.

(** [max(l)] on a list of amounts; the empty list is a value error. *)
Definition max_amount (l : list Qc) : result Qc :=
  match l with
  | [] => Throw ValueError
  | x :: l => Ok (fold_left (fun m y => if Py.ltb m y then y else m) l x)
  end.

Definition update_asset_expected_value_after_useful_life : M unit :=
  for_each_finance_book (fun i =>
    row ← get_row i;
    if String.eqb (depreciation_method row) "Written Down Value"
       || String.eqb (depreciation_method row) "Double Declining Balance"
    then
      a ← get_asset_doc;
      e ← get_env;
      match get_asset_depr_schedule_doc e (asset_name a) "Active" (finance_book row) with
      | None => throw AttributeError
      | Some depreciation_schedule =>
          accumulated_depreciation_after_full_schedule ←
            lift (max_amount
                    (map accumulated_depreciation_amount depreciation_schedule));
          let asset_value_after_full_schedule :=
            flt_rounded e
              (flt (value_after_depreciation row)
               - flt accumulated_depreciation_after_full_schedule)%Qc
              (row_precision e "expected_value_after_useful_life") in
          modify_row i
            (set_expected_value_after_useful_life asset_value_after_full_schedule);;
          call_env (depr_schedule_doc_db_set (asset_name a) (finance_book row)
                      asset_value_after_full_schedule)
      end
    else ret tt).

(** *** before_submit *)

Definition set_asset_flag_increase_in_asset_value_due_to_repair (b : bool) : M unit :=
  modify_asset_doc
    (fun a => set_flags (set_increase_in_asset_value_due_to_repair b (flags a)) a).

Definition set_asset_flag_ignore_validate_update_after_submit (b : bool) : M unit :=
  modify_asset_doc
    (fun a => set_flags (set_ignore_validate_update_after_submit b (flags a)) a).

Definition before_submit : M unit :=
  check_repair_status;;
  set_asset_flag_increase_in_asset_value_due_to_repair false;;
  d ← get_self;
  if stock_consumption d || capitalize_repair_cost d then
    set_asset_flag_increase_in_asset_value_due_to_repair true;;
    modify_asset_doc (increase_asset_value d);;
    d ← get_self;
    when (stock_consumption d)
      (check_for_stock_items_and_warehouse;;
       decrease_stock_quantity);;
    d ← get_self;
    when (capitalize_repair_cost d)
      (make_gl_entries false;;
       a ← get_asset_doc;
       d ← get_self;
       when (calculate_depreciation a && negb (increase_in_asset_life d =? 0))
         modify_depreciation_schedule);;
    a ← get_asset_doc;
    d ← get_self;
    let notes :=
      format
        (translate
           "This schedule was created when Asset {0} was repaired through Asset Repair {1}.")
        [get_link_to_form asset_doctype (asset_name a);
         get_link_to_form doctype (name d)] in
    set_asset_flag_ignore_validate_update_after_submit true;;
    call_asset (fun a => make_new_active_asset_depr_schedules_and_cancel_current_ones a notes);;
    a ← get_asset_doc;
    when (calculate_depreciation a) update_asset_expected_value_after_useful_life;;
    call_asset asset_save
  else ret tt.

End Controller.

(** ** Downtime *)

(** A [datetime], by its count of microseconds on the calendar's time line:
    the difference of two datetimes is the difference of their counts. *)
Definition datetime := Z.

(** [frappe.utils.time_diff_in_hours(end, start)]:
    [round(float(time_diff(end, start).total_seconds()) / 3600, 6)], on
    exact values. *)
Definition time_diff_in_hours (string_ed_date string_st_date : datetime) : Qc :=
  let total_seconds := (of_Z (string_ed_date - string_st_date) / of_Z 1000000)%Qc in
  round (total_seconds / of_Z 3600)%Qc 6.

Definition get_downtime (failure_date completion_date : datetime) : Qc :=
  let downtime := time_diff_in_hours completion_date failure_date in
  round downtime 2.

(** ** Binary floating point

    Python's floats are IEEE 754 doubles, and each operation on them
    rounds its exact result to the nearest double, ties to the even
    mantissa.  Where a property depends on that rounding, the functions
    concerned are given again in [Double], every operation with its rounding.
    A double is a rational [m * 2^e] with [|m| < 2^53]; the exponent is not
    bounded here (no overflow, no subnormal numbers: amounts and hours are
    far from both), and [-0.0] is [0]. *)

Module Double.

Definition pow2 (k : Z) : Q := Qpower 2 k.

(** The integer part of the binary logarithm of [x > 0]: the [k] with
    [2^k <= x < 2^(k+1)]. *)
Definition ilog2 (x : Q) : Z :=
  let k := Z.log2 (Qnum x) - Z.log2 (Zpos (Qden x)) in
  if Qle_bool (pow2 k) x then k else k - 1.

(** The double nearest to [x]: [x] is scaled to a mantissa between [2^52]
    and [2^53], which is rounded to an integer, ties to even. *)
Definition rnd (x : Q) : Q :=
  if Qeq_bool x 0 then 0%Q
  else
    let e := ilog2 (Qabs x) - 52 in
    (inject_Z (round_half_even (x / pow2 e)) * pow2 e)%Q.

Definition rnd64 (x : Qc) : Qc := Q2Qc (rnd x).

(** [x] is a double. *)
Definition representable (x : Qc) : Prop := rnd64 x = x.

(** Half the gap between 1 and the next double: the largest relative error
    of a rounding. *)
Definition eps : Q := 1 # 9007199254740992.

(** [a + b], [a - b] and [a / b] on floats. *)
Definition add (a b : Qc) : Qc := rnd64 (a + b).
Definition sub (a b : Qc) : Qc := rnd64 (a - b).
Definition truediv (a b : Qc) : Qc := rnd64 (a / b).

(** [round(x, ndigits)] on a float: the decimal nearest to the exact value
    of [x], ties to even, then the double nearest to that decimal. *)
Definition round (x : Qc) (ndigits : nat) : Qc := rnd64 (Py.round x ndigits).

(** *** Asset value, with the rounding of [+=] and [-=] *)

Definition get_total_value_of_stock_consumed (d : AssetRepair) : Qc :=
  let total_value_of_stock_consumed := 0%Qc in
  if stock_consumption d then
    fold_left (fun acc item => add acc (total_value item))
      (stock_items d) total_value_of_stock_consumed
  else total_value_of_stock_consumed.

Definition increase_asset_value (d : AssetRepair) (a : Asset) : Asset :=
  let total_value_of_stock_consumed := get_total_value_of_stock_consumed d in
  if calculate_depreciation a then
    set_finance_books
      (map (fun row =>
              let row :=
                set_value_after_depreciation
                  (add (value_after_depreciation row) total_value_of_stock_consumed) row in
              if capitalize_repair_cost d then
                set_value_after_depreciation
                  (add (value_after_depreciation row) (repair_cost d)) row
              else row)
           (finance_books a))
      a
  else a.

Definition decrease_asset_value (d : AssetRepair) (a : Asset) : Asset :=
  let total_value_of_stock_consumed := get_total_value_of_stock_consumed d in
  if calculate_depreciation a then
    set_finance_books
      (map (fun row =>
              let row :=
                set_value_after_depreciation
                  (sub (value_after_depreciation row) total_value_of_stock_consumed) row in
              if capitalize_repair_cost d then
                set_value_after_depreciation
                  (sub (value_after_depreciation row) (repair_cost d)) row
              else row)
           (finance_books a))
      a
  else a.

(** *** Downtime, with the rounding of each step *)

(** [frappe.utils.time_diff_in_hours(end, start)]:
    [round(float(time_diff(end, start).total_seconds()) / 3600, 6)], where
    [total_seconds()] is the true division of the microseconds by [10**6]. *)
Definition time_diff_in_hours (string_ed_date string_st_date : datetime) : Qc :=
  let total_seconds :=
    truediv (of_Z (string_ed_date - string_st_date)) (of_Z 1000000) in
  round (truediv total_seconds (of_Z 3600)) 6.

Definition get_downtime (failure_date completion_date : datetime) : Qc :=
  let downtime := time_diff_in_hours completion_date failure_date in
  round downtime 2.

(** *** Notions used to state the properties *)

(** No operation of the round trip [increase_asset_value],
    [decrease_asset_value] rounds on [row]: its value and the sums formed
    on the way are doubles. *)
Definition exact_round_trip (d : AssetRepair) (row : AssetFinanceBook) : Prop :=
  let s := get_total_value_of_stock_consumed d in
  let v := value_after_depreciation row in
  representable v
  /\ representable (v + s)
  /\ (capitalize_repair_cost d = true ->
      representable (v + s + repair_cost d) /\ representable (v + repair_cost d)).

(** The other fields of [row'] are those of [row]. *)
Definition same_book (row row' : AssetFinanceBook) : Prop :=
  finance_book row' = finance_book row
  /\ depreciation_method row' = depreciation_method row
  /\ total_number_of_depreciations row' = total_number_of_depreciations row
  /\ frequency_of_depreciation row' = frequency_of_depreciation row
  /\ depreciation_start_date row' = depreciation_start_date row
  /\ expected_value_after_useful_life row' = expected_value_after_useful_life row.

(** The sizes of the amounts at play on [row], added up. *)
Definition amounts (d : AssetRepair) (row : AssetFinanceBook) : Q :=
  Qabs (value_after_depreciation row)
  + Qabs (get_total_value_of_stock_consumed d)
  + Qabs (repair_cost d).

(** [row'] is [row] but for [value_after_depreciation], which is within the
    rounding of four operations of the one of [row]. *)
Definition restored_up_to_rounding (d : AssetRepair) (row row' : AssetFinanceBook)
    : Prop :=
  same_book row row'
  /\ (Qabs (value_after_depreciation row' - value_after_depreciation row)
      <= amounts d row * (1 # 1125899906842624))%Q.

(** [row'] is [row] with [value_after_depreciation] raised by the value of
    the stock consumed, and by [repair_cost] when it is capitalised, within
    the rounding of two additions. *)
Definition raised_up_to_rounding (d : AssetRepair) (row row' : AssetFinanceBook)
    : Prop :=
  same_book row row'
  /\ (Qabs (value_after_depreciation row'
            - (value_after_depreciation row
               + get_total_value_of_stock_consumed d
               + (if capitalize_repair_cost d then repair_cost d else 0%Qc)))
      <= amounts d row * (1 # 2251799813685248))%Q.

End Double.

(** ** Totals used to state the properties *)

Definition sum_amounts (l : list Qc) : Qc := foldr Qcplus 0%Qc l.

Definition total_debit (l : list GLEntry) : Qc := sum_amounts (map debit l).
Definition total_credit (l : list GLEntry) : Qc := sum_amounts (map credit l).

(** ** A small site

    One instance of the framework, used to run the controller on concrete
    documents: a site with a list of assets, one purchase invoice, one
    stock entry, one active depreciation schedule shared by the finance
    books, and a journal of the writes it received. *)

Module Site.

Record site := mkSite {
  assets : list Asset;
  today : date;
  fixed_asset_account : option string;
  purchase_invoice_items : list PurchaseInvoiceItem;
  stock_entry_items : list StockEntryDetail;
  perpetual_inventory : bool;
  default_expense_account : option string;
  active_schedule : option (list DepreciationSchedule);
  journal : list string
}.

Definition record (what : string) (s : site) : site :=
  mkSite (assets s) (today s) (fixed_asset_account s) (purchase_invoice_items s)
    (stock_entry_items s) (perpetual_inventory s) (default_expense_account s)
    (active_schedule s) (what :: journal s).

Definition find_asset (s : site) (n : string) : result Asset :=
  match filter (fun a => asset_name a = n) (assets s) with
  | a :: _ => Ok a
  | [] => Throw (FrameworkError "DoesNotExistError")
  end.

#[global] Instance framework : Framework site := {|
  get_doc_asset := find_asset;
  db_set_value_asset_status := fun n v s => (Ok tt, record "Asset.status" s);
  asset_set_status := fun a s => (Ok tt, (a, record "Asset.set_status" s));
  get_asset_account := fun s _ _ _ => Ok (fixed_asset_account s);
  get_doc_purchase_invoice_items := fun s _ => Ok (purchase_invoice_items s);
  get_doc_stock_entry_items := fun s _ => Ok (stock_entry_items s);
  is_perpetual_inventory_enabled := fun s _ => Ok (perpetual_inventory s);
  get_cached_default_expense_account := fun s _ => default_expense_account s;
  getdate := today;
  get_depr_schedule := fun s _ _ _ => active_schedule s;
  get_asset_depr_schedule_doc := fun s _ _ _ => active_schedule s;
  depr_schedule_doc_db_set := fun _ _ _ s => (Ok tt, record "Schedule.db_set" s);
  stock_entry_insert_and_submit := fun _ s => (Ok "STE-0001", record "Stock Entry" s);
  general_ledger_make_gl_entries := fun _ _ s => (Ok tt, record "GL Entry" s);
  make_new_active_asset_depr_schedules_and_cancel_current_ones :=
    fun a _ s => (Ok tt, (a, record "Schedules" s));
  asset_save := fun a s => (Ok tt, (a, record "Asset.save" s));
  db_set_stock_entry := fun _ _ s => (Ok tt, record "Asset Repair.stock_entry" s);
  get_link_to_form := fun dt n => n;
  translate := fun msg => msg;
  format := fun msg _ => msg;
  row_precision := fun _ _ => Some 2%nat;
  flt_rounded := fun _ x p => match p with Some n => round x n | None => x end
|}.

Definition jan1 (y : Z) : date := mkDate y 1 1.

Definition book (total : num) (freq : Z) (v : Z) : AssetFinanceBook :=
  {| finance_book := None;
     depreciation_method := "Straight Line";
     value_after_depreciation := of_Z v;
     total_number_of_depreciations := total;
     frequency_of_depreciation := freq;
     depreciation_start_date := jan1 2021;
     expected_value_after_useful_life := of_Z 0 |}.

Definition machine (calc : bool) (books : list AssetFinanceBook) : Asset :=
  {| asset_name := "ACC-ASS-0001";
     status := "Submitted";
     calculate_depreciation := calc;
     number_of_depreciations_booked := 0;
     finance_books := books;
     flags := mkFlags None None None;
     to_date := None |}.

Definition line (rate q : Z) : AssetRepairConsumedItem :=
  {| item_code := "Bolt";
     valuation_rate := of_Z rate;
     consumed_quantity := of_Z q;
     serial_no := None;
     total_value := of_Z (rate * q) |}.

Definition repair (st : string) (cost : Z) (stock capitalize : bool)
    (lines : list AssetRepairConsumedItem) (wh : option string) (life : Z)
    : AssetRepair :=
  {| name := "ACC-ASR-0001";
     asset := "ACC-ASS-0001";
     company := "Acme";
     repair_status := st;
     repair_cost := of_Z cost;
     total_repair_cost := of_Z 0;
     stock_consumption := stock;
     capitalize_repair_cost := capitalize;
     stock_items := lines;
     warehouse := wh;
     increase_in_asset_life := life;
     purchase_invoice := Some "ACC-PINV-0001";
     stock_entry := None;
     cost_center := None;
     project := None;
     ignore_linked_doctypes := None |}.

Definition schedule_until (y : Z) : list DepreciationSchedule :=
  [mkDeprRow (jan1 (y - 1)) (of_Z 100); mkDeprRow (jan1 y) (of_Z 200)].

Definition acme (a : Asset) (sched : option (list DepreciationSchedule)) : site :=
  {| assets := [a];
     today := mkDate 2024 3 15;
     fixed_asset_account := Some "Fixed Assets";
     purchase_invoice_items := [mkPIItem (Some "Repairs")];
     stock_entry_items := [mkSEDetail (of_Z 30) (Some "Stock Adjustment");
                           mkSEDetail (of_Z 0) None];
     perpetual_inventory := true;
     default_expense_account := None;
     active_schedule := sched;
     journal := [] |}.

(** A world whose Asset document has been loaded by [validate]. *)
Definition loaded (d : AssetRepair) (a : Asset)
    (sched : option (list DepreciationSchedule)) : @World site :=
  mkWorld d (Some a) (acme a sched).

(** A world before [validate]. *)
Definition fresh (d : AssetRepair) (a : Asset)
    (sched : option (list DepreciationSchedule)) : @World site :=
  mkWorld d None (acme a sched).

(** A machine with one finance book: 3 yearly depreciations from
    1 January 2021, none booked yet. *)
Definition yearly_machine : Asset := machine true [book (PyInt 3) 12 1000].

(** Its repair extends its life by 14 months and is capitalised. *)
Definition fourteen_months (last_year : Z) : @World site :=
  loaded (repair "Completed" 100 false true [] None 14) yearly_machine
    (Some (schedule_until last_year)).

(** A stock line as entered, its value not computed yet. *)
Definition line_without_value (rate q : Z) : AssetRepairConsumedItem :=
  {| item_code := "Bolt";
     valuation_rate := of_Z rate;
     consumed_quantity := of_Z q;
     serial_no := None;
     total_value := of_Z 0 |}.

(** A repair with two stock lines whose values are not computed yet. *)
Definition bolts_and_belts : AssetRepair :=
  repair "Completed" 100 true true
    [line_without_value 5 3; line_without_value 7 2]
    (Some "Stores") 0.

(** The ledger entries of that repair once validated, on a site whose
    stock entry has one row with an amount. *)
Definition ledger : list GLEntry :=
  match get_gl_entries (acme yearly_machine None)
          (calculate_total_repair_cost (set_stock_items_cost bolts_and_belts)) with
  | Ok l => l
  | Throw _ => []
  end.

(** [total_number_of_depreciations] of the first finance book. *)
Definition first_total (w : @World site) : option num :=
  a ← asset_doc w;
  r ← finance_books a !! 0%nat;
  Some (total_number_of_depreciations r).

End Site.

(** ** One row of the depreciation loops, as a function

    What one iteration of [modify_depreciation_schedule] (and of
    [revert_depreciation_schedule_on_cancellation]) makes of its row, given
    the framework state, the repair and the Asset's name and number of
    booked depreciations.  The loops are proved to act row by row as these
    functions do. *)

Section RowSteps.

Context {Env : Type} `{FW : Framework Env}.

Definition row_after_modify (e : Env) (d : AssetRepair) (asset_name : string)
    (booked : Z) (row : AssetFinanceBook) : result AssetFinanceBook :=
  quotient ← truediv (increase_in_asset_life d) (frequency_of_depreciation row);
  let base := add (total_number_of_depreciations row) quotient in
  extra_months ← mod_ (increase_in_asset_life d) (frequency_of_depreciation row);
  if negb (extra_months =? 0) then
    last_schedule_date ← last_schedule_date_of e asset_name (finance_book row);
    let shifted := add_months last_schedule_date extra_months in
    let natural :=
      add_months (depreciation_start_date row)
        ((cint base - booked) * frequency_of_depreciation row) in
    Ok (set_total_number_of_depreciations
          (if Dates.gtb shifted natural then add base (PyInt 1) else base) row)
  else Ok (set_total_number_of_depreciations base row).

Definition row_after_revert (e : Env) (d : AssetRepair) (asset_name : string)
    (booked : Z) (row : AssetFinanceBook) : result AssetFinanceBook :=
  quotient ← truediv (increase_in_asset_life d) (frequency_of_depreciation row);
  let base := sub (total_number_of_depreciations row) quotient in
  extra_months ← mod_ (increase_in_asset_life d) (frequency_of_depreciation row);
  if negb (extra_months =? 0) then
    last_schedule_date ← last_schedule_date_of e asset_name (finance_book row);
    let shifted := add_months last_schedule_date (- extra_months) in
    let natural :=
      add_months (depreciation_start_date row)
        ((cint base - booked - 1) * frequency_of_depreciation row) in
    Ok (set_total_number_of_depreciations
          (if Dates.ltb shifted natural then sub base (PyInt 1) else base) row)
  else Ok (set_total_number_of_depreciations base row).

End RowSteps.

(** ** The same repair with other stock lines

    Used to state that a hook does not look at the stock lines or at the
    warehouse: run on a world where both are replaced, it gives the same
    outcome and the same final state, replaced the same way. *)

Section OtherStockLines.

Context {Env : Type} `{FW : Framework Env}.

Definition with_stock_lines (l : list AssetRepairConsumedItem) (wh : option string)
    (d : AssetRepair) : AssetRepair :=
  set_warehouse wh (set_stock_items l d).

Definition world_with_stock_lines (l : list AssetRepairConsumedItem)
    (wh : option string) (w : @World Env) : @World Env :=
  mkWorld (with_stock_lines l wh (self w)) (asset_doc w) (env w).

Definition blind (l : list AssetRepairConsumedItem) (wh : option string)
    {A} (m : @M Env A) : Prop :=
  forall w, stock_consumption (self w) = false ->
    m (world_with_stock_lines l wh w) = ((m w).1, world_with_stock_lines l wh (m w).2)
    /\ self (m w).2 = self w.

End OtherStockLines.

(** A debit entry followed by the credit entry of the same amount. *)
Definition debit_credit_pair (x : Qc) (p : list GLEntry) : Prop :=
  exists a b, p = [a; b]
    /\ debit a = x /\ credit a = 0%Qc /\ debit b = 0%Qc /\ credit b = x.

(** A credit entry followed by the debit entry of the same amount. *)
Definition credit_debit_pair (x : Qc) (p : list GLEntry) : Prop :=
  exists a b, p = [a; b]
    /\ credit a = x /\ debit a = 0%Qc /\ credit b = 0%Qc /\ debit b = x.

(** ** Cancellation and deletion

    What [before_cancel] and [after_delete] need from the framework beyond
    [Framework]. *)

Class CancelFramework (Env : Type) := {
  (** [stock_entry = frappe.get_doc("Stock Entry", name)],
      [stock_entry.flags.ignore_links = True], [stock_entry.cancel()] *)
  stock_entry_cancel : option string -> Env -> result unit * Env
}.

Section Cancellation.

Context {Env : Type} `{FW : Framework Env} `{CFW : CancelFramework Env}.

#[local] Existing Instance M_bind.

Definition increase_stock_quantity : @M Env unit :=
  d ← get_self;
  if truthy (stock_entry d) then call_env (stock_entry_cancel (stock_entry d))
  else ret tt.

Definition before_cancel : @M Env unit :=
  d ← get_self;
  e ← get_env;
  a ← lift (get_doc_asset e (asset d));
  put_asset_doc a;;
  set_asset_flag_increase_in_asset_value_due_to_repair false;;
  d ← get_self;
  if stock_consumption d || capitalize_repair_cost d then
    set_asset_flag_increase_in_asset_value_due_to_repair true;;
    modify_asset_doc (decrease_asset_value d);;
    d ← get_self;
    when (stock_consumption d) increase_stock_quantity;;
    d ← get_self;
    when (capitalize_repair_cost d)
      (modify_self
         (set_ignore_linked_doctypes (Some ["GL Entry"; "Stock Ledger Entry"]));;
       make_gl_entries true;;
       modify_self (set_stock_entry None);;
       call_env (db_set_stock_entry (name d) None);;
       a ← get_asset_doc;
       d ← get_self;
       when (calculate_depreciation a && negb (increase_in_asset_life d =? 0))
         revert_depreciation_schedule_on_cancellation);;
    a ← get_asset_doc;
    d ← get_self;
    let notes :=
      format
        (translate
           "This schedule was created when Asset {0}'s Asset Repair {1} was cancelled.")
        [get_link_to_form asset_doctype (asset_name a);
         get_link_to_form doctype (name d)] in
    set_asset_flag_ignore_validate_update_after_submit true;;
    call_asset (fun a => make_new_active_asset_depr_schedules_and_cancel_current_ones a notes);;
    a ← get_asset_doc;
    when (calculate_depreciation a) update_asset_expected_value_after_useful_life;;
    call_asset asset_save
  else ret tt.

(** [frappe.get_doc("Asset", self.asset).set_status()]: the document is
    local to the call. *)
Definition after_delete : @M Env unit :=
  d ← get_self;
  e ← get_env;
  a ← lift (get_doc_asset e (asset d));
  call_env (fun e => let '(r, (_, e')) := asset_set_status a e in (r, e')).

End Cancellation.

#[global] Instance site_cancel_framework : CancelFramework Site.site := {|
  stock_entry_cancel := fun _ s => (Ok tt, Site.record "Stock Entry.cancel" s)
|}.

(** Variants of the small site: a purchase invoice without item rows, and
    a company without perpetual inventory nor default expense account. *)
Definition site_without_invoice_items : Site.site :=
  Site.mkSite [Site.yearly_machine] (mkDate 2024 3 15) (Some "Fixed Assets") []
    [mkSEDetail (of_Z 30) (Some "Stock Adjustment")] true None None [].

Definition site_without_expense_account : Site.site :=
  Site.mkSite [Site.yearly_machine] (mkDate 2024 3 15) (Some "Fixed Assets")
    [mkPIItem (Some "Repairs")]
    [mkSEDetail (of_Z 30) (Some "Stock Adjustment")] false None None [].

(** The repair of [Site.bolts_and_belts], validated. *)
Definition validated_repair : AssetRepair :=
  calculate_total_repair_cost (set_stock_items_cost Site.bolts_and_belts).

(** A capitalised repair that adds 24 months to the yearly machine, on a
    site where the machine has no depreciation schedule. *)
Definition two_more_years : @World Site.site :=
  Site.loaded (Site.repair "Completed" 100 false true [] None 24) Site.yearly_machine None.

(** The yearly machine with a second finance book, depreciated by Written
    Down Value. *)
Definition declining_machine : Asset :=
  Site.machine true
    [Site.book (PyInt 3) 12 1000;
     mkFinanceBook (Some "Tax") "Written Down Value" (of_Z 1000) (PyInt 3) 12
       (Site.jan1 2021) (of_Z 0)].

(** A completed, capitalised repair that consumed one stock line from the
    stores, with its Asset loaded. *)
Definition stocked_repair : @World Site.site :=
  Site.loaded (Site.repair "Completed" 100 true true [Site.line 5 3] (Some "Stores") 0)
    Site.yearly_machine (Some (Site.schedule_until 2024)).

(** The same repair without warehouse. *)
Definition stocked_repair_without_warehouse : @World Site.site :=
  Site.loaded (Site.repair "Completed" 100 true true [Site.line 5 3] None 0)
    Site.yearly_machine (Some (Site.schedule_until 2024)).

(** A machine whose book value is the double 0.1, and a repair that
    consumed stock worth the double 0.2 (two units at 0.1), not
    capitalised. *)
Definition tenth : Qc := Double.rnd64 (Q2Qc (1 # 10)).
Definition two_tenths : Qc := Double.rnd64 (Q2Qc (2 # 10)).

Definition small_machine : Asset :=
  Site.machine true
    [{| finance_book := None;
        depreciation_method := "Straight Line";
        value_after_depreciation := tenth;
        total_number_of_depreciations := PyInt 3;
        frequency_of_depreciation := 12;
        depreciation_start_date := Site.jan1 2021;
        expected_value_after_useful_life := of_Z 0 |}].

Definition oil_change : AssetRepair :=
  Site.repair "Completed" 0 true false
    [{| item_code := "Oil";
        valuation_rate := tenth;
        consumed_quantity := of_Z 2;
        serial_no := None;
        total_value := two_tenths |}]
    (Some "Stores") 0.

(** The draft Stock Entry that [decrease_stock_quantity] builds from the
    repair [d] and hands to the framework. *)
Definition material_issue (d : AssetRepair) : StockEntry :=
  mkStockEntry "Material Issue" (company d)
    (map (fun stock_item =>
            {| s_warehouse := warehouse d;
               se_item_code := item_code stock_item;
               qty := consumed_quantity stock_item;
               basic_rate := valuation_rate stock_item;
               se_serial_no := serial_no stock_item;
               se_cost_center := cost_center d;
               se_project := project d |})
         (stock_items d)).

(** ** Notions used to state further properties *)

Section Notions.

Context {Env : Type}.

(** [m] leaves the repair document [d] as it is, whatever the outcome. *)
Definition keeps (d : AssetRepair) {A} (m : @M Env A) : Prop :=
  forall w, self w = d -> self (m w).2 = d.


End Notions.

(** The two depreciation methods whose expected value is recomputed. *)
Definition declining_method (r : AssetFinanceBook) : bool :=
  String.eqb (depreciation_method r) "Written Down Value"
  || String.eqb (depreciation_method r) "Double Declining Balance".

(** [r'] is [r] with, at most, another [expected_value_after_useful_life],
    and is [r] itself unless [r] is depreciated by a declining method. *)
Definition expected_value_only (r r' : AssetFinanceBook) : Prop :=
  r' = set_expected_value_after_useful_life (expected_value_after_useful_life r') r
  /\ (declining_method r = false -> r' = r).

(** The state of the Asset while the loop of
    [update_asset_expected_value_after_useful_life] runs, relative to the
    Asset [a] and the repair [d] it started from. *)
Definition expected_value_frame {Env : Type} (d : AssetRepair) (a : Asset)
    (w : @World Env) : Prop :=
  self w = d
  /\ exists a',
       asset_doc w = Some a'
       /\ a' = set_finance_books (finance_books a') a
       /\ Forall2 expected_value_only (finance_books a) (finance_books a').

(** The amounts of the rows of a Stock Entry that are posted: the positive
    ones. *)
Definition posted_amounts (its : list StockEntryDetail) : list Qc :=
  map amount (List.filter (fun it => Py.ltb 0 (flt (amount it))) its).

(** The rows of the Stock Entry that [get_gl_entries] posts: those of the
    linked Stock Entry when [stock_consumption] is set and there are stock
    lines, none otherwise. *)
Definition posted_rows {Env : Type} `{FW : Framework Env}
    (e : Env) (d : AssetRepair) : list StockEntryDetail :=
  if stock_consumption d && negb (bool_decide (stock_items d = [])) then
    match get_doc_stock_entry_items e (stock_entry d) with
    | Ok its => its
    | Throw _ => []
    end
  else [].

(** The stamp that a ledger entry of the repair [d] carries. *)
Definition stamped (today : date) (d : AssetRepair) (g : GLEntry) : Prop :=
  voucher_type g = doctype /\ voucher_no g = name d /\ gl_company g = company d
  /\ gl_cost_center g = cost_center d /\ posting_date g = today.

(** A ledger entry with one positive side: a debit on [fa], or a credit
    against [fa]. *)
Definition one_sided (fa : option string) (g : GLEntry) : Prop :=
  ((0 < debit g)%Qc /\ credit g = 0%Qc /\ account g = fa)
  \/ ((0 < credit g)%Qc /\ debit g = 0%Qc /\ against g = fa).

(** The exact number of hours from [failure_date] to [completion_date]. *)
Definition exact_hours (failure_date completion_date : datetime) : Q :=
  inject_Z (completion_date - failure_date) * (1 # 3600000000).

(** ** Properties *)

(** Unfolding of the monad's plumbing. *)
Ltac run :=
  repeat progress
    (unfold mbind, M_bind, bind, ret, throw, frappe_throw, lift, get_self, get_env,
       modify_asset_doc, put_asset_doc, get_asset_doc, modify_self, call_env,
       call_asset, when in *;
     simpl in *).

Section Properties.

Context {Env : Type} `{FW : Framework Env}.



Lemma update_status_self (w : World) :
  self (update_status w).2 = self w.
Proof.
  unfold update_status. run.
  destruct (String.eqb _ _).
  - destruct (db_set_value_asset_status _ _ _); reflexivity.
  - destruct (asset_doc w); [|reflexivity].
    destruct (asset_set_status _ _) as [r [a' e']]; reflexivity.
Qed.

Lemma set_stock_items_cost_nil (d : AssetRepair) :
  stock_items d = [] -> set_stock_items_cost d = d.
Proof.
  intros H. unfold set_stock_items_cost. rewrite H. simpl.
  destruct d; simpl in *; subst; reflexivity.
Qed.

(** What [validate] leaves in [self], whatever the framework does. *)
Lemma validate_self (w w' : World) :
  validate w = (Ok tt, w') ->
  self w' = calculate_total_repair_cost (set_stock_items_cost (self w)).
Proof.
  unfold validate. run.
  destruct (get_doc_asset _ _) as [a|x]; [|discriminate].
  pose proof (update_status_self (mkWorld (self w) (Some a) (env w))) as Hs.
  destruct (update_status _) as [[[]|x] w1]; [|discriminate].
  simpl in Hs.
  destruct (bool_decide (stock_items (self w1) = [])) eqn:Hd; simpl;
    intros [= <-]; simpl; rewrite Hs.
  - apply bool_decide_eq_true in Hd. rewrite Hs in Hd.
    now rewrite set_stock_items_cost_nil.
  - reflexivity.
Qed.



(** C9. When the Asset's [calculate_depreciation] flag is off, neither
    [increase_asset_value] nor [decrease_asset_value] changes the Asset:
    [value_after_depreciation] of every finance book row stays as it is,
    for any repair cost, capitalisation flag and stock consumed. *)
Theorem asset_value_untouched_without_depreciation (d : AssetRepair) (a : Asset) :
  calculate_depreciation a = false ->
  increase_asset_value d a = a /\ decrease_asset_value d a = a
  /\ map value_after_depreciation (finance_books (increase_asset_value d a))
     = map value_after_depreciation (finance_books a)
  /\ map value_after_depreciation (finance_books (decrease_asset_value d a))
     = map value_after_depreciation (finance_books a).
Proof.
  intros H. unfold increase_asset_value, decrease_asset_value. rewrite H. auto.
Qed.

(** C4. A repair whose [repair_status] is Pending cannot be submitted:
    [before_submit] raises the validation error of [check_repair_status]
    and leaves the repair, the Asset and the framework state exactly as
    they were, so nothing was changed before the error. *)
Theorem before_submit_pending_fails (w : World) :
  repair_status (self w) = "Pending" ->
  before_submit w
  = (Throw (ValidationError (translate "Please update Repair Status.") None), w).
Proof.
  intros H. unfold before_submit, check_repair_status. run.
  rewrite H. reflexivity.
Qed.

(** C8. With neither [stock_consumption] nor [capitalize_repair_cost] set
    and the repair status check passed, [before_submit] only writes the
    flag [increase_in_asset_value_due_to_repair] of the Asset: the repair
    document and the framework state (stock entries, ledger, schedules,
    saved documents) are the ones it started with, and so is every field
    of every finance book row. *)
Theorem before_submit_without_flags_is_inert (w : World) :
  stock_consumption (self w) = false ->
  capitalize_repair_cost (self w) = false ->
  repair_status (self w) <> "Pending" ->
  before_submit w
  = match asset_doc w with
    | Some a =>
        (Ok tt,
         mkWorld (self w)
           (Some (set_flags (set_increase_in_asset_value_due_to_repair false (flags a)) a))
           (env w))
    | None => (Throw AttributeError, w)
    end
  /\ self (before_submit w).2 = self w
  /\ env (before_submit w).2 = env w
  /\ finance_books <$> asset_doc (before_submit w).2 = finance_books <$> asset_doc w.
Proof.
  intros Hs Hc Hp. apply String.eqb_neq in Hp.
  assert (before_submit w
          = match asset_doc w with
            | Some a =>
                (Ok tt,
                 mkWorld (self w)
                   (Some (set_flags
                            (set_increase_in_asset_value_due_to_repair false (flags a)) a))
                   (env w))
            | None => (Throw AttributeError, w)
            end) as E.
  { unfold before_submit, check_repair_status,
      set_asset_flag_increase_in_asset_value_due_to_repair. run.
    rewrite Hp. simpl. destruct (asset_doc w); simpl; [|reflexivity].
    rewrite Hs, Hc. reflexivity. }
  rewrite E. split; [reflexivity|].
  destruct (asset_doc w) eqn:Ha; simpl; rewrite ?Ha; auto.
Qed.

Lemma sum_amounts_app (l l' : list Qc) :
  sum_amounts (l ++ l') = (sum_amounts l + sum_amounts l')%Qc.
Proof.
  unfold sum_amounts. induction l as [|x l IH]; simpl.
  - ring.
  - rewrite IH. ring.
Qed.

Lemma total_debit_app (l l' : list GLEntry) :
  total_debit (l ++ l') = (total_debit l + total_debit l')%Qc.
Proof. unfold total_debit. rewrite map_app. apply sum_amounts_app. Qed.

Lemma total_credit_app (l l' : list GLEntry) :
  total_credit (l ++ l') = (total_credit l + total_credit l')%Qc.
Proof. unfold total_credit. rewrite map_app. apply sum_amounts_app. Qed.

Lemma debit_credit_pair_balanced (x : Qc) (p : list GLEntry) :
  debit_credit_pair x p -> total_debit p = total_credit p.
Proof.
  intros (a & b & -> & Hda & Hca & Hdb & Hcb).
  unfold total_debit, total_credit, sum_amounts. simpl.
  rewrite Hda, Hca, Hdb, Hcb. ring.
Qed.

Lemma credit_debit_pair_balanced (x : Qc) (p : list GLEntry) :
  credit_debit_pair x p -> total_debit p = total_credit p.
Proof.
  intros (a & b & -> & Hca & Hda & Hcb & Hdb).
  unfold total_debit, total_credit, sum_amounts. simpl.
  rewrite Hda, Hca, Hdb, Hcb. ring.
Qed.

Lemma concat_pairs_balanced (ps : list (list GLEntry)) :
  Forall (fun p => exists x, credit_debit_pair x p) ps ->
  total_debit (concat ps) = total_credit (concat ps).
Proof.
  induction 1 as [|p ps [x Hp] _ IH]; simpl; [reflexivity|].
  rewrite total_debit_app, total_credit_app, IH.
  now rewrite (credit_debit_pair_balanced x p Hp).
Qed.

(** The repair cost contributes nothing or one debit/credit pair. *)
Lemma get_gl_entries_for_repair_cost_pair e d gl_entries account l :
  get_gl_entries_for_repair_cost e d gl_entries account = Ok l ->
  exists rp, l = gl_entries ++ rp
    /\ (rp = [] \/ debit_credit_pair (repair_cost d) rp).
Proof.
  unfold get_gl_entries_for_repair_cost.
  destruct (Py.leb _ _).
  - intros [= <-]. exists []. rewrite app_nil_r. auto.
  - unfold mbind, result_bind.
    destruct (get_doc_purchase_invoice_items _ _) as [its|x]; [|discriminate].
    destruct (getitem its 0) as [it|x]; [|discriminate].
    intros [= <-]. eexists [_; _]. split.
    + rewrite <- app_assoc. reflexivity.
    + right. do 2 eexists. split; [reflexivity|]. simpl. auto.
Qed.

(** One row of the Stock Entry contributes nothing or one credit/debit
    pair of the row's amount. *)
Lemma consumed_item_entries_pair e d account dflt gl_entries item :
  exists ps,
    consumed_item_entries e d account dflt gl_entries item = gl_entries ++ concat ps
    /\ Forall (fun p => credit_debit_pair (amount item) p) ps.
Proof.
  unfold consumed_item_entries. destruct (Py.ltb _ _).
  - eexists [[_; _]]. split.
    + rewrite <- app_assoc. simpl. reflexivity.
    + constructor; [|constructor]. do 2 eexists. split; [reflexivity|]. simpl. auto.
  - exists []. simpl. rewrite app_nil_r. auto.
Qed.

Lemma consumed_items_fold_pairs e d account dflt items gl_entries :
  exists ps,
    fold_left (consumed_item_entries e d account dflt) items gl_entries
    = gl_entries ++ concat ps
    /\ Forall (fun p => exists x, credit_debit_pair x p) ps.
Proof.
  revert gl_entries. induction items as [|item items IH]; intros gl_entries; simpl.
  - exists []. simpl. rewrite app_nil_r. auto.
  - destruct (consumed_item_entries_pair e d account dflt gl_entries item)
      as (ps1 & -> & H1).
    destruct (IH (gl_entries ++ concat ps1)) as (ps2 & -> & H2).
    exists (ps1 ++ ps2). rewrite concat_app, app_assoc. split; [reflexivity|].
    apply Forall_app. split; [|exact H2].
    eapply Forall_impl; [|exact H1]. intros p Hp. eauto.
Qed.

Lemma get_gl_entries_for_consumed_items_pairs e d gl_entries account l :
  get_gl_entries_for_consumed_items e d gl_entries account = Ok l ->
  exists ps, l = gl_entries ++ concat ps
    /\ Forall (fun p => exists x, credit_debit_pair x p) ps.
Proof.
  unfold get_gl_entries_for_consumed_items.
  destruct (negb _).
  - intros [= <-]. exists []. simpl. rewrite app_nil_r. auto.
  - unfold mbind, result_bind.
    destruct (get_doc_stock_entry_items _ _) as [its|x]; [|discriminate].
    destruct (is_perpetual_inventory_enabled _ _) as [pp|x]; [|discriminate].
    match goal with |- context [match ?c with Ok _ => _ | Throw _ => _ end] =>
      destruct c as [dflt|x]; [|discriminate] end.
    intros [= <-]. apply consumed_items_fold_pairs.
Qed.

(** C2. When [get_gl_entries] succeeds, the entries it returns are: nothing
    or one debit/credit pair of [repair_cost], followed by credit/debit
    pairs, one for each consumed item that contributes; their debits and
    their credits have the same total. *)
Theorem get_gl_entries_balanced (e : Env) (d : AssetRepair) (l : list GLEntry) :
  get_gl_entries e d = Ok l ->
  total_debit l = total_credit l
  /\ exists rp ps,
       l = rp ++ concat ps
       /\ (rp = [] \/ debit_credit_pair (repair_cost d) rp)
       /\ Forall (fun p => exists x, credit_debit_pair x p) ps.
Proof.
  unfold get_gl_entries, mbind, result_bind.
  destruct (get_asset_account _ _ _ _) as [account|x]; [|discriminate].
  destruct (get_gl_entries_for_repair_cost _ _ _ _) as [l1|x] eqn:H1; [|discriminate].
  destruct (get_gl_entries_for_consumed_items _ _ _ _) as [l2|x] eqn:H2; [|discriminate].
  intros [= <-].
  apply get_gl_entries_for_repair_cost_pair in H1 as (rp & -> & Hrp).
  apply get_gl_entries_for_consumed_items_pairs in H2 as (ps & -> & Hps).
  simpl. split; [|eauto].
  rewrite total_debit_app, total_credit_app, (concat_pairs_balanced ps Hps).
  destruct Hrp as [->|Hrp]; [reflexivity|].
  now rewrite (debit_credit_pair_balanced _ _ Hrp).
Qed.

(** *** The loops over the finance books *)

Section RowLoop.

Variable body : nat -> @M Env unit.
Variable step :
  Env -> AssetRepair -> string -> Z -> AssetFinanceBook -> result AssetFinanceBook.

(** One iteration replaces its row by what [step] computes, keeps the
    rest, and raises exactly when [step] does. *)
Hypothesis body_run : forall i w a r,
  asset_doc w = Some a ->
  finance_books a !! i = Some r ->
  match step (env w) (self w) (asset_name a) (number_of_depreciations_booked a) r with
  | Ok r' =>
      exists a',
        body i w = (Ok tt, mkWorld (self w) (Some a') (env w))
        /\ asset_name a' = asset_name a
        /\ number_of_depreciations_booked a' = number_of_depreciations_booked a
        /\ finance_books a' = <[i:=r']> (finance_books a)
  | Throw x => exists w', body i w = (Throw x, w')
  end.

Lemma for_range_rows (n : nat) : forall i w w' a,
  asset_doc w = Some a ->
  (i + n <= length (finance_books a))%nat ->
  for_range n i body w = (Ok tt, w') ->
  exists a',
    w' = mkWorld (self w) (Some a') (env w)
    /\ asset_name a' = asset_name a
    /\ number_of_depreciations_booked a' = number_of_depreciations_booked a
    /\ length (finance_books a') = length (finance_books a)
    /\ forall j r, finance_books a !! j = Some r ->
         ((i <= j < i + n)%nat ->
          exists r',
            step (env w) (self w) (asset_name a)
              (number_of_depreciations_booked a) r = Ok r'
            /\ finance_books a' !! j = Some r')
         /\ (~ (i <= j < i + n)%nat -> finance_books a' !! j = Some r).
Proof.
  induction n as [|n IH]; intros i w w' a Ha Hlen; simpl.
  - intros [= <-]. exists a. destruct w; simpl in *; subst.
    repeat split; auto; intros; lia.
  - unfold mbind, M_bind, bind.
    destruct (lookup_lt_is_Some_2 (finance_books a) i) as [r Hr]; [lia|].
    pose proof (body_run i w a r Ha Hr) as Hb.
    destruct (step _ _ _ _ r) as [r'|x] eqn:Hstep.
    + destruct Hb as (a1 & -> & Hn1 & Hb1 & Hf1). intros Hrest.
      apply (IH (S i) _ w' a1) in Hrest; simpl; auto;
        [|rewrite Hf1, length_insert; lia].
      destruct Hrest as (a' & -> & Hn' & Hb' & Hl' & Hrows).
      simpl in *. exists a'. rewrite Hn1, Hb1, Hf1, length_insert in *.
      repeat split; auto.
      * intros Hin. destruct (decide (j = i)) as [->|Hne].
        -- assert (r0 = r) as -> by congruence.
           exists r'. split; [exact Hstep|].
           apply (Hrows i r'); [|lia].
           apply list_lookup_insert_eq. lia.
        -- apply (Hrows j r0); [|lia].
           rewrite list_lookup_insert_ne; auto.
      * intros Hout. apply (Hrows j r0); [|lia].
        rewrite list_lookup_insert_ne; auto. lia.
    + destruct Hb as (w1 & ->). discriminate.
Qed.

Lemma for_range_runs (n : nat) : forall i w a,
  asset_doc w = Some a ->
  (i + n <= length (finance_books a))%nat ->
  (forall j r, (i <= j < i + n)%nat -> finance_books a !! j = Some r ->
     exists r',
       step (env w) (self w) (asset_name a)
         (number_of_depreciations_booked a) r = Ok r') ->
  exists w', for_range n i body w = (Ok tt, w').
Proof.
  induction n as [|n IH]; intros i w a Ha Hlen Hsteps; simpl.
  - eauto.
  - unfold mbind, M_bind, bind.
    destruct (lookup_lt_is_Some_2 (finance_books a) i) as [r Hr]; [lia|].
    pose proof (body_run i w a r Ha Hr) as Hb.
    destruct (Hsteps i r) as [r' Hr']; [lia|auto|]. rewrite Hr' in Hb.
    destruct Hb as (a1 & -> & Hn1 & Hb1 & Hf1).
    apply (IH (S i) _ a1); simpl; auto.
    + rewrite Hf1, length_insert. lia.
    + intros j r0 Hj. rewrite Hn1, Hb1, Hf1.
      rewrite list_lookup_insert_ne; [|lia].
      apply Hsteps. lia.
Qed.

End RowLoop.

Lemma alter_as_insert {A} (f : A -> A) (l : list A) (i : nat) (x y : A) :
  l !! i = Some x -> f x = y -> alter f i l = <[i:=y]> l.
Proof.
  intros Hl Hf. rewrite list_insert_alter.
  apply list_alter_ext; [|reflexivity]. intros z Hz. congruence.
Qed.

(** Both loop bodies are run the same way. *)
Ltac run_row Hr :=
  run; rewrite Hr; simpl;
  unfold truediv, mod_;
  destruct (frequency_of_depreciation _ =? 0); simpl; [eauto|];
  destruct (_ `mod` _ =? 0); simpl;
  [ eexists; split; [reflexivity|]; simpl; repeat split;
    eapply alter_as_insert; eauto
  | rewrite list_lookup_alter, Hr; simpl;
    destruct (decide _) as [_|Hne]; [|congruence]; simpl;
    destruct (last_schedule_date_of _ _ _); simpl; [|eauto];
    match goal with |- context [if ?c then _ else _] => destruct c end; simpl;
    eexists; (split; [reflexivity|]); simpl; repeat split;
    rewrite ?list_alter_alter_eq; eapply alter_as_insert; eauto ].

Lemma modify_row_run i w a r :
  asset_doc w = Some a ->
  finance_books a !! i = Some r ->
  match row_after_modify (env w) (self w) (asset_name a)
          (number_of_depreciations_booked a) r with
  | Ok r' =>
      exists a',
        modify_depreciation_schedule_row i w
        = (Ok tt, mkWorld (self w) (Some a') (env w))
        /\ asset_name a' = asset_name a
        /\ number_of_depreciations_booked a' = number_of_depreciations_booked a
        /\ finance_books a' = <[i:=r']> (finance_books a)
  | Throw x => exists w', modify_depreciation_schedule_row i w = (Throw x, w')
  end.
Proof.
  intros Ha Hr. destruct w as [d ad e]. simpl in Ha. subst ad.
  unfold modify_depreciation_schedule_row, row_after_modify, get_row, modify_row,
    calculate_last_schedule_date, set_asset_flag_increase_in_asset_life,
    get_row, modify_row.
  run_row Hr.
Qed.

Lemma revert_row_run i w a r :
  asset_doc w = Some a ->
  finance_books a !! i = Some r ->
  match row_after_revert (env w) (self w) (asset_name a)
          (number_of_depreciations_booked a) r with
  | Ok r' =>
      exists a',
        revert_depreciation_schedule_on_cancellation_row i w
        = (Ok tt, mkWorld (self w) (Some a') (env w))
        /\ asset_name a' = asset_name a
        /\ number_of_depreciations_booked a' = number_of_depreciations_booked a
        /\ finance_books a' = <[i:=r']> (finance_books a)
  | Throw x =>
      exists w', revert_depreciation_schedule_on_cancellation_row i w = (Throw x, w')
  end.
Proof.
  intros Ha Hr. destruct w as [d ad e]. simpl in Ha. subst ad.
  unfold revert_depreciation_schedule_on_cancellation_row, row_after_revert, get_row,
    modify_row, calculate_last_schedule_date_before_modification,
    set_asset_flag_increase_in_asset_life, get_row, modify_row.
  run_row Hr.
Qed.

(** A successful [modify_depreciation_schedule] has replaced every row by
    [row_after_modify] of it. *)
Lemma modify_depreciation_schedule_rows w w' a i r :
  asset_doc w = Some a ->
  finance_books a !! i = Some r ->
  modify_depreciation_schedule w = (Ok tt, w') ->
  exists a' r',
    asset_doc w' = Some a'
    /\ finance_books a' !! i = Some r'
    /\ row_after_modify (env w) (self w) (asset_name a)
         (number_of_depreciations_booked a) r = Ok r'.
Proof.
  intros Ha Hr. unfold modify_depreciation_schedule, for_each_finance_book.
  run. rewrite Ha. intros H.
  eapply (for_range_rows _ _ modify_row_run) in H as (a' & -> & _ & _ & _ & Hrows);
    eauto.
  destruct (Hrows i r Hr) as [Hin _].
  destruct Hin as (r' & Hstep & Hr'); [apply lookup_lt_Some in Hr; lia|].
  eauto.
Qed.

Lemma revert_depreciation_schedule_rows w w' a i r :
  asset_doc w = Some a ->
  finance_books a !! i = Some r ->
  revert_depreciation_schedule_on_cancellation w = (Ok tt, w') ->
  exists a' r',
    asset_doc w' = Some a'
    /\ finance_books a' !! i = Some r'
    /\ row_after_revert (env w) (self w) (asset_name a)
         (number_of_depreciations_booked a) r = Ok r'.
Proof.
  intros Ha Hr. unfold revert_depreciation_schedule_on_cancellation, for_each_finance_book.
  run. rewrite Ha. intros H.
  eapply (for_range_rows _ _ revert_row_run) in H as (a' & -> & _ & _ & _ & Hrows);
    eauto.
  destruct (Hrows i r Hr) as [Hin _].
  destruct Hin as (r' & Hstep & Hr'); [apply lookup_lt_Some in Hr; lia|].
  eauto.
Qed.

(** The loop goes through when no row has a zero frequency and every row
    that needs the remainder correction has an active schedule with a
    last row. *)
Lemma modify_depreciation_schedule_runs w a :
  asset_doc w = Some a ->
  (forall i r, finance_books a !! i = Some r ->
     frequency_of_depreciation r <> 0
     /\ (increase_in_asset_life (self w) `mod` frequency_of_depreciation r <> 0 ->
         exists d, last_schedule_date_of (env w) (asset_name a) (finance_book r) = Ok d)) ->
  exists w', modify_depreciation_schedule w = (Ok tt, w').
Proof.
  intros Ha Hrows. unfold modify_depreciation_schedule, for_each_finance_book.
  run. rewrite Ha.
  eapply (for_range_runs _ _ modify_row_run); eauto.
  intros j r _ Hr. destruct (Hrows j r Hr) as [Hf Hs].
  unfold row_after_modify, truediv, mod_, mbind, result_bind.
  apply Z.eqb_neq in Hf. rewrite Hf.
  destruct (_ `mod` _ =? 0) eqn:Hm; simpl; [eauto|].
  apply Z.eqb_neq in Hm. destruct (Hs Hm) as [d ->]. eauto.
Qed.


End Properties.

Section StockChecks.

Context {Env : Type} `{FW : Framework Env}.

Lemma before_submit_missing_items (w : World) (a : Asset) :
  repair_status (self w) <> "Pending" ->
  asset_doc w = Some a ->
  stock_consumption (self w) = true ->
  stock_items (self w) = [] ->
  (before_submit w).1
  = Throw (ValidationError
             (translate "Please enter Stock Items consumed during the Repair.")
             (Some (translate "Missing Items"))).
Proof.
  intros Hp Ha Hs Hl. apply String.eqb_neq in Hp.
  destruct w as [d ad e]. simpl in *. subst ad.
  unfold before_submit, check_repair_status, check_for_stock_items_and_warehouse,
    set_asset_flag_increase_in_asset_value_due_to_repair.
  run. repeat (first [rewrite Hp | rewrite Hs | rewrite Hl]; simpl). reflexivity.
Qed.

Lemma before_submit_missing_warehouse (w : World) (a : Asset) :
  repair_status (self w) <> "Pending" ->
  asset_doc w = Some a ->
  stock_consumption (self w) = true ->
  stock_items (self w) <> [] ->
  truthy (warehouse (self w)) = false ->
  (before_submit w).1
  = Throw (ValidationError
             (translate
                "Please enter Warehouse from which Stock Items consumed during the Repair were taken.")
             (Some (translate "Missing Warehouse"))).
Proof.
  intros Hp Ha Hs Hl Hw. apply String.eqb_neq in Hp.
  destruct w as [d ad e]. simpl in *. subst ad.
  unfold before_submit, check_repair_status, check_for_stock_items_and_warehouse,
    set_asset_flag_increase_in_asset_value_due_to_repair.
  run.
  repeat (first [rewrite Hp | rewrite Hs | rewrite Hw
                | rewrite bool_decide_eq_false_2 by exact Hl]; simpl).
  reflexivity.
Qed.

End StockChecks.

(** *** Without stock consumption, stock lines and warehouse are not read *)

Section Blind.

Context {Env : Type} `{FW : Framework Env}.
Variable l : list AssetRepairConsumedItem.
Variable wh : option string.

#[local] Existing Instance M_bind.

Lemma blind_ret {A} (a : A) : blind l wh (@ret Env A a).
Proof. intros w _. split; reflexivity. Qed.

Lemma blind_throw {A} (x : Exn) : blind l wh (@throw Env A x).
Proof. intros w _. split; reflexivity. Qed.

Lemma blind_lift {A} (r : result A) : blind l wh (@lift Env A r).
Proof. intros w _. split; reflexivity. Qed.

Lemma blind_get_env : blind l wh (@get_env Env).
Proof. intros w _. split; reflexivity. Qed.

Lemma blind_get_asset_doc : blind l wh (@get_asset_doc Env).
Proof. intros w _. unfold get_asset_doc. simpl. destruct (asset_doc w); split; reflexivity. Qed.

Lemma blind_modify_asset_doc f : blind l wh (@modify_asset_doc Env f).
Proof. intros w _. run. destruct (asset_doc w); split; reflexivity. Qed.

Lemma blind_call_env {A} (f : Env -> result A * Env) : blind l wh (call_env f).
Proof. intros w _. unfold call_env. simpl. destruct (f (env w)); split; reflexivity. Qed.

Lemma blind_call_asset {A} (f : Asset -> Env -> result A * (Asset * Env)) :
  blind l wh (call_asset f).
Proof.
  intros w _. unfold call_asset. simpl.
  destruct (asset_doc w); [|split; reflexivity].
  destruct (f _ _) as [r [a' e']]; split; reflexivity.
Qed.

Lemma blind_bind {A B} (m : @M Env A) (k : A -> @M Env B) :
  blind l wh m -> (forall a, blind l wh (k a)) -> blind l wh (m ≫= k).
Proof.
  intros Hm Hk w Hs. unfold mbind, M_bind, bind.
  destruct (Hm w Hs) as [-> Hself].
  destruct (m w) as [[a|x] w1]; simpl in *; [|split; [reflexivity|exact Hself]].
  destruct (Hk a w1) as [-> Hself1]; [congruence|].
  split; [reflexivity|congruence].
Qed.

Lemma blind_get_self {B} (k : AssetRepair -> @M Env B) :
  (forall d w, stock_consumption d = false -> k (with_stock_lines l wh d) w = k d w) ->
  (forall d, stock_consumption d = false -> blind l wh (k d)) ->
  blind l wh (get_self ≫= k).
Proof.
  intros Hk Hb w Hs. unfold mbind, M_bind, bind, get_self. simpl.
  rewrite Hk by exact Hs. apply Hb; exact Hs.
Qed.

Lemma blind_when (b : bool) (m : @M Env unit) :
  blind l wh m -> blind l wh (when b m).
Proof. destruct b; simpl; [auto|]. intros _. apply blind_ret. Qed.

Lemma blind_for_range (body : nat -> @M Env unit) (n : nat) : forall i,
  (forall i, blind l wh (body i)) -> blind l wh (for_range n i body).
Proof.
  induction n as [|n IH]; intros i Hb; simpl.
  - apply blind_ret.
  - apply blind_bind; [apply Hb|]. intros _. apply IH, Hb.
Qed.

Ltac blind_step :=
  first
    [ apply blind_ret | apply blind_throw | apply blind_lift | apply blind_get_env
    | apply blind_get_asset_doc | apply blind_modify_asset_doc
    | apply blind_call_env | apply blind_call_asset
    | apply blind_when
    | apply blind_for_range; intros
    | apply blind_get_self; [intros ? ? ?; try reflexivity | intros ? ?]
    | apply blind_bind; [|intros]
    | match goal with |- blind _ _ (if ?c then _ else _) => destruct c end
    | match goal with |- blind _ _ (match ?c with _ => _ end) => destruct c end ].

Lemma blind_check_repair_status : blind l wh (@check_repair_status Env FW).
Proof. unfold check_repair_status, frappe_throw. repeat blind_step. Qed.

Lemma blind_get_row i : blind l wh (@get_row Env i).
Proof. unfold get_row. repeat blind_step. Qed.

Lemma blind_modify_row i f : blind l wh (@modify_row Env i f).
Proof. unfold modify_row. repeat blind_step. Qed.

Lemma blind_calculate_last_schedule_date i extra_months :
  blind l wh (@calculate_last_schedule_date Env FW i extra_months).
Proof.
  unfold calculate_last_schedule_date, set_asset_flag_increase_in_asset_life.
  repeat first [apply blind_get_row | apply blind_modify_row | blind_step].
Qed.

Lemma blind_modify_depreciation_schedule :
  blind l wh (@modify_depreciation_schedule Env FW).
Proof.
  unfold modify_depreciation_schedule, for_each_finance_book,
    modify_depreciation_schedule_row, set_asset_flag_increase_in_asset_life.
  repeat first [apply blind_get_row | apply blind_modify_row
               | apply blind_calculate_last_schedule_date | blind_step].
Qed.

Lemma blind_update_asset_expected_value_after_useful_life :
  blind l wh (@update_asset_expected_value_after_useful_life Env FW).
Proof.
  unfold update_asset_expected_value_after_useful_life, for_each_finance_book.
  repeat first [apply blind_get_row | apply blind_modify_row | blind_step].
Qed.

Lemma blind_make_gl_entries cancel : blind l wh (@make_gl_entries Env FW cancel).
Proof.
  unfold make_gl_entries.
  apply blind_get_self.
  - intros d w Hs.
    unfold get_gl_entries, get_gl_entries_for_consumed_items,
      get_gl_entries_for_repair_cost, with_stock_lines. simpl.
    rewrite Hs. reflexivity.
  - intros d Hs. repeat blind_step.
Qed.

Lemma blind_before_submit : blind l wh (@before_submit Env FW).
Proof.
  unfold before_submit, when, set_asset_flag_increase_in_asset_value_due_to_repair,
    set_asset_flag_ignore_validate_update_after_submit.
  apply blind_bind; [apply blind_check_repair_status|intros _].
  apply blind_bind; [blind_step|intros _].
  apply blind_get_self.
  - intros d w Hs.
    unfold increase_asset_value, get_total_value_of_stock_consumed, with_stock_lines.
    simpl. rewrite Hs. reflexivity.
  - intros d Hs. rewrite Hs. simpl.
    repeat first
      [ apply blind_make_gl_entries
      | apply blind_modify_depreciation_schedule
      | apply blind_update_asset_expected_value_after_useful_life
      | apply blind_get_self;
        [ intros ? ? ?; try reflexivity
        | let H := fresh "Hs" in intros ? H; rewrite ?H; simpl ]
      | blind_step ].
Qed.

End Blind.

Section StockChecksOnSubmit.

Context {Env : Type} `{FW : Framework Env}.

(** C5, as amended. For a repair that is not Pending and whose Asset is
    loaded: with [stock_consumption] set, [before_submit] raises the
    "Missing Items" error when there is no stock line, and the "Missing
    Warehouse" error when there are stock lines and no warehouse; with
    [stock_consumption] not set it does not look at either: whatever the
    stock lines and the warehouse are replaced by, the outcome and the
    final state are the same. *)
Theorem stock_checks_on_submit (w : World) (a : Asset) :
  repair_status (self w) <> "Pending" ->
  asset_doc w = Some a ->
  (stock_consumption (self w) = true ->
   (stock_items (self w) = [] ->
    (before_submit w).1
    = Throw (ValidationError
               (translate "Please enter Stock Items consumed during the Repair.")
               (Some (translate "Missing Items"))))
   /\ (stock_items (self w) <> [] ->
       truthy (warehouse (self w)) = false ->
       (before_submit w).1
       = Throw (ValidationError
                  (translate
                     "Please enter Warehouse from which Stock Items consumed during the Repair were taken.")
                  (Some (translate "Missing Warehouse")))))
  /\ (stock_consumption (self w) = false ->
      forall l wh,
        before_submit (world_with_stock_lines l wh w)
        = ((before_submit w).1, world_with_stock_lines l wh (before_submit w).2)).
Proof.
  intros Hp Ha. split.
  - intros Hs. split.
    + intros Hl. eapply before_submit_missing_items; eauto.
    + intros Hl Hw. eapply before_submit_missing_warehouse; eauto.
  - intros Hs l wh. apply (blind_before_submit l wh w Hs).
Qed.

End StockChecksOnSubmit.

(** ** Rounding and downtime *)

Lemma round_half_even_upper (x : Q) :
  (inject_Z (round_half_even x) <= x + (1 # 2))%Q.
Proof.
  unfold round_half_even.
  pose proof (Qfloor_le x) as Hf.
  destruct (Qcompare_spec (x - inject_Z (Qfloor x)) (1 # 2)) as [H|H|H].
  - destruct (Z.even _); [lra|].
    rewrite inject_Z_plus. change (inject_Z 1) with 1%Q. lra.
  - lra.
  - rewrite inject_Z_plus. change (inject_Z 1) with 1%Q. lra.
Qed.

Lemma round_half_even_below (x : Q) (k : Z) :
  (x < inject_Z k + (1 # 2))%Q -> round_half_even x <= k.
Proof.
  intros H. pose proof (round_half_even_upper x) as Hu.
  assert (inject_Z (round_half_even x) < inject_Z (k + 1))%Q as Hlt.
  { rewrite inject_Z_plus. change (inject_Z 1) with 1%Q. lra. }
  rewrite <- Zlt_Qlt in Hlt. lia.
Qed.

Lemma scale_pos (n : nat) : (0 < inject_Z (10 ^ Z.of_nat n))%Q.
Proof.
  change 0%Q with (inject_Z 0). rewrite <- Zlt_Qlt.
  apply Z.pow_pos_nonneg; lia.
Qed.

(** The hours between two datetimes, before any rounding. *)
Lemma hours_value (d : Z) :
  ((of_Z d / of_Z 1000000 / of_Z 3600)%Qc == inject_Z d * (1 # 3600000000))%Q.
Proof.
  unfold Qcdiv, Qcmult, Qcinv, of_Z, Q2Qc. cbn [this].
  rewrite !Qred_correct.
  change (inject_Z 1000000) with (1000000 # 1)%Q.
  change (inject_Z 3600) with (3600 # 1)%Q.
  field.
Qed.

(** ** Runs on the small site *)


Lemma asset_value_untouched_without_depreciation_witness :
  calculate_depreciation (Site.machine false [Site.book (PyInt 3) 12 1000]) = false
  /\ increase_asset_value Site.bolts_and_belts
       (Site.machine false [Site.book (PyInt 3) 12 1000])
     = Site.machine false [Site.book (PyInt 3) 12 1000].
Proof.
  split; [reflexivity|].
  apply (asset_value_untouched_without_depreciation Site.bolts_and_belts
           (Site.machine false [Site.book (PyInt 3) 12 1000])).
  reflexivity.
Defined.

Lemma before_submit_pending_fails_witness :
  repair_status
    (self (Site.loaded (Site.repair "Pending" 100 true true [] None 14)
             Site.yearly_machine None))
  = "Pending"
  /\ before_submit
       (Site.loaded (Site.repair "Pending" 100 true true [] None 14)
          Site.yearly_machine None)
     = (Throw (ValidationError "Please update Repair Status." None),
        Site.loaded (Site.repair "Pending" 100 true true [] None 14)
          Site.yearly_machine None).
Proof.
  split; [reflexivity|].
  exact (before_submit_pending_fails
           (Site.loaded (Site.repair "Pending" 100 true true [] None 14)
              Site.yearly_machine None) eq_refl).
Defined.

Lemma before_submit_without_flags_is_inert_witness :
  env (before_submit
         (Site.loaded (Site.repair "Completed" 100 false false [] None 14)
            Site.yearly_machine None)).2
  = Site.acme Site.yearly_machine None
  /\ finance_books
     <$> asset_doc
           (before_submit
              (Site.loaded (Site.repair "Completed" 100 false false [] None 14)
                 Site.yearly_machine None)).2
     = Some (finance_books Site.yearly_machine).
Proof.
  destruct (before_submit_without_flags_is_inert
              (Site.loaded (Site.repair "Completed" 100 false false [] None 14)
                 Site.yearly_machine None))
    as (_ & _ & He & Hf); [reflexivity|reflexivity|discriminate|].
  split; [exact He|exact Hf].
Defined.

Lemma get_gl_entries_balanced_witness :
  get_gl_entries (Site.acme Site.yearly_machine None)
    (calculate_total_repair_cost (set_stock_items_cost Site.bolts_and_belts))
  = Ok Site.ledger
  /\ length Site.ledger = 4%nat
  /\ total_debit Site.ledger = total_credit Site.ledger.
Proof.
  assert (get_gl_entries (Site.acme Site.yearly_machine None)
            (calculate_total_repair_cost (set_stock_items_cost Site.bolts_and_belts))
          = Ok Site.ledger) as H by (vm_compute; reflexivity).
  split; [exact H|]. split; [reflexivity|].
  apply (get_gl_entries_balanced _ _ _ H).
Defined.


Lemma stock_checks_on_submit_witness :
  repair_status (Site.repair "Completed" 100 true false [] None 0) <> "Pending"
  /\ (before_submit
        (Site.loaded (Site.repair "Completed" 100 true false [] None 0)
           Site.yearly_machine None)).1
     = Throw (ValidationError "Please enter Stock Items consumed during the Repair."
                (Some "Missing Items")).
Proof.
  split; [discriminate|].
  destruct (stock_checks_on_submit
              (Site.loaded (Site.repair "Completed" 100 true false [] None 0)
                 Site.yearly_machine None)
              Site.yearly_machine) as [Hchecks _];
    [discriminate|reflexivity|].
  destruct Hchecks as [Hitems _]; [reflexivity|].
  apply Hitems. reflexivity.
Defined.

(** C5, as stated, fails: a Pending repair with [stock_consumption] set and
    no stock line is stopped by the repair status check, not by the missing
    items check. *)
Lemma pending_repair_without_stock_lines :
  stock_consumption (Site.repair "Pending" 100 true false [] None 0) = true
  /\ stock_items (Site.repair "Pending" 100 true false [] None 0) = []
  /\ (before_submit
        (Site.loaded (Site.repair "Pending" 100 true false [] None 0)
           Site.yearly_machine None)).1
     = Throw (ValidationError "Please update Repair Status." None)
  /\ (before_submit
        (Site.loaded (Site.repair "Pending" 100 true false [] None 0)
           Site.yearly_machine None)).1
     <> Throw (ValidationError "Please enter Stock Items consumed during the Repair."
                 (Some "Missing Items")).
Proof.
  split; [reflexivity|]. split; [reflexivity|]. split; [reflexivity|].
  vm_compute. discriminate.
Qed.

(** ** Whole periods of added life *)

Lemma of_Z_mult (a b : Z) : of_Z (a * b) = (of_Z a * of_Z b)%Qc.
Proof.
  apply Qc_is_canon. unfold of_Z, Qcmult, Q2Qc. cbn [this].
  rewrite !Qred_correct, inject_Z_mult. reflexivity.
Qed.

Lemma of_Z_inj (a b : Z) : of_Z a = of_Z b -> a = b.
Proof.
  intros H. apply (f_equal this) in H. unfold of_Z, Q2Qc in H. cbn [this] in H.
  assert (inject_Z a == inject_Z b)%Q as E
    by (rewrite <- (Qred_correct (inject_Z a)), <- (Qred_correct (inject_Z b)), H;
        reflexivity).
  unfold Qeq in E. simpl in E. lia.
Qed.

(** The quotient that the loops add to (or take from)
    [total_number_of_depreciations] is the true quotient: it is the floor
    quotient only when the frequency divides the added life. *)
Lemma true_division_is_not_floor (life freq : Z) :
  freq <> 0 ->
  life `mod` freq <> 0 ->
  truediv life freq = Ok (PyFloat (of_Z life / of_Z freq)%Qc)
  /\ floordiv life freq = Ok (life / freq)
  /\ (of_Z life / of_Z freq)%Qc <> of_Z (life / freq).
Proof.
  intros Hf Hm. unfold truediv, floordiv.
  apply Z.eqb_neq in Hf as Hf'. rewrite Hf'. split; [reflexivity|]. split; [reflexivity|].
  intros E.
  assert (of_Z freq <> 0%Qc) as Hq.
  { intros H0. apply Hf. apply of_Z_inj. rewrite H0. apply Qc_is_canon. reflexivity. }
  assert (of_Z life = of_Z (life / freq * freq)) as E'.
  { rewrite of_Z_mult, <- E. field. exact Hq. }
  apply of_Z_inj in E'.
  apply Hm. rewrite E' at 1. apply Z.mod_mul. exact Hf.
Qed.

(** C1 on the code: 14 months of added life on a row depreciated every 12
    months, with 3 depreciations, no remainder correction being due.
    [modify_depreciation_schedule] leaves 3 + 14/12 = 25/6 depreciations in
    the row, and [revert_depreciation_schedule_on_cancellation]
    3 - 14/12 = 11/6: the row moves by 7/6, where [14 // 12] is 1. *)
Theorem fourteen_months_every_twelve :
  (modify_depreciation_schedule (Site.fourteen_months 2024)).1 = Ok tt
  /\ val <$> Site.first_total (Site.fourteen_months 2024) = Some (of_Z 3)
  /\ val <$> Site.first_total (modify_depreciation_schedule (Site.fourteen_months 2024)).2
     = Some (Q2Qc (25 # 6))
  /\ (revert_depreciation_schedule_on_cancellation (Site.fourteen_months 2024)).1 = Ok tt
  /\ val <$> Site.first_total
               (revert_depreciation_schedule_on_cancellation (Site.fourteen_months 2024)).2
     = Some (Q2Qc (11 # 6))
  /\ floordiv 14 12 = Ok 1
  /\ (Q2Qc (25 # 6) - of_Z 3)%Qc <> of_Z 1
  /\ (of_Z 3 - Q2Qc (11 # 6))%Qc <> of_Z 1.
Proof.
  split; [reflexivity|]. split; [reflexivity|].
  split; [vm_compute; f_equal; apply Qc_is_canon; reflexivity|].
  split; [reflexivity|].
  split; [vm_compute; f_equal; apply Qc_is_canon; reflexivity|].
  split; [reflexivity|].
  split; intros H; apply (f_equal this) in H; vm_compute in H; discriminate.
Qed.

(** ** Further properties: validation and asset value *)

Section ValidationAndValue.

Context {Env : Type} `{FW : Framework Env}.

Lemma set_stock_items_cost_twice (d : AssetRepair) :
  set_stock_items_cost (set_stock_items_cost d) = set_stock_items_cost d.
Proof.
  unfold set_stock_items_cost, set_stock_items. simpl. rewrite map_map. reflexivity.
Qed.

Lemma calculate_total_repair_cost_again (d : AssetRepair) :
  calculate_total_repair_cost (set_stock_items_cost (calculate_total_repair_cost d))
  = calculate_total_repair_cost (set_stock_items_cost d).
Proof. reflexivity. Qed.

(** X1. Validating twice changes nothing more than validating once: the
    stock line values and [total_repair_cost] are recomputed from the rates,
    the quantities and [repair_cost], they do not accumulate. *)
Theorem validate_twice (w w1 w2 : @World Env) :
  validate w = (Ok tt, w1) ->
  validate w1 = (Ok tt, w2) ->
  self w2 = self w1.
Proof.
  intros H1 H2. apply validate_self in H1, H2. rewrite H2, H1.
  rewrite calculate_total_repair_cost_again, set_stock_items_cost_twice.
  reflexivity.
Qed.

End ValidationAndValue.

Lemma validate_twice_witness :
  validate (Site.fresh Site.bolts_and_belts Site.yearly_machine None)
  = (Ok tt, (validate (Site.fresh Site.bolts_and_belts Site.yearly_machine None)).2)
  /\ self (validate (validate (Site.fresh Site.bolts_and_belts Site.yearly_machine None)).2).2
     = self (validate (Site.fresh Site.bolts_and_belts Site.yearly_machine None)).2.
Proof.
  assert (validate (Site.fresh Site.bolts_and_belts Site.yearly_machine None)
          = (Ok tt, (validate (Site.fresh Site.bolts_and_belts Site.yearly_machine None)).2))
    as H1 by (vm_compute; reflexivity).
  split; [exact H1|].
  apply (validate_twice _ _ _ H1). vm_compute. reflexivity.
Defined.

(** ** Further properties: ledger entries *)

Section LedgerEntries.

Context {Env : Type} `{FW : Framework Env}.

Lemma ltb_lt (a b : Qc) : Py.ltb a b = true -> (a < b)%Qc.
Proof.
  unfold Py.ltb. intros H. apply negb_true_iff in H.
  apply Qnot_le_lt. intros Hle. apply Qle_bool_iff in Hle. congruence.
Qed.

Lemma leb_false_lt (a b : Qc) : Py.leb a b = false -> (b < a)%Qc.
Proof.
  unfold Py.leb. intros H.
  apply Qnot_le_lt. intros Hle. apply Qle_bool_iff in Hle. congruence.
Qed.

Lemma total_debit_snoc2 (l : list GLEntry) (a b : GLEntry) :
  total_debit ((l ++ [a]) ++ [b]) = (total_debit l + (debit a + debit b))%Qc.
Proof.
  rewrite !total_debit_app. unfold total_debit, sum_amounts. simpl. ring.
Qed.

(** What each of the two appending steps does to a property of all the
    entries, to the total debit and to the length. *)
Lemma repair_cost_entries e d gl_entries fa l :
  get_gl_entries_for_repair_cost e d gl_entries fa = Ok l ->
  (Forall (fun g => stamped (getdate e) d g /\ one_sided fa g) gl_entries ->
   Forall (fun g => stamped (getdate e) d g /\ one_sided fa g) l)
  /\ total_debit l
     = (total_debit gl_entries
        + (if Py.leb (repair_cost d) 0 then 0 else repair_cost d))%Qc
  /\ length l
     = (length gl_entries + (if Py.leb (repair_cost d) 0 then 0 else 2))%nat.
Proof.
  unfold get_gl_entries_for_repair_cost.
  destruct (Py.leb _ _) eqn:Hle.
  - intros [= <-]. split; [auto|]. split; [ring|lia].
  - unfold mbind, result_bind.
    destruct (get_doc_purchase_invoice_items _ _) as [its|x]; [|discriminate].
    destruct (getitem its 0) as [it|x]; [|discriminate].
    intros [= <-]. apply leb_false_lt in Hle. split; [|split].
    + intros Hall.
      apply Forall_app; split; [apply Forall_app; split; [exact Hall|]|];
        (constructor; [|constructor]); (split; [repeat split|]).
      * left. split; [exact Hle|split; reflexivity].
      * right. split; [exact Hle|split; reflexivity].
    + rewrite total_debit_snoc2. simpl. ring.
    + rewrite !length_app. simpl. lia.
Qed.

Lemma consumed_item_entries_props e d fa dflt gl_entries item :
  (Forall (fun g => stamped (getdate e) d g /\ one_sided fa g) gl_entries ->
   Forall (fun g => stamped (getdate e) d g /\ one_sided fa g)
     (consumed_item_entries e d fa dflt gl_entries item))
  /\ total_debit (consumed_item_entries e d fa dflt gl_entries item)
     = (total_debit gl_entries + sum_amounts (posted_amounts [item]))%Qc
  /\ length (consumed_item_entries e d fa dflt gl_entries item)
     = (length gl_entries + 2 * length (posted_amounts [item]))%nat.
Proof.
  unfold consumed_item_entries, posted_amounts. simpl.
  destruct (Py.ltb 0 (flt (amount item))) eqn:Hlt; simpl.
  - apply ltb_lt in Hlt. split; [|split].
    + intros Hall.
      apply Forall_app; split; [apply Forall_app; split; [exact Hall|]|];
        (constructor; [|constructor]); (split; [repeat split|]).
      * right. split; [exact Hlt|split; reflexivity].
      * left. split; [exact Hlt|split; reflexivity].
    + rewrite total_debit_snoc2. unfold sum_amounts. simpl. ring.
    + rewrite !length_app. simpl. lia.
  - split; [auto|]. split; [unfold sum_amounts; simpl; ring|lia].
Qed.

Lemma posted_amounts_cons item its :
  posted_amounts (item :: its) = posted_amounts [item] ++ posted_amounts its.
Proof.
  unfold posted_amounts. simpl.
  destruct (Py.ltb 0 (flt (amount item))); reflexivity.
Qed.

Lemma consumed_items_fold_props e d fa dflt its : forall gl_entries,
  (Forall (fun g => stamped (getdate e) d g /\ one_sided fa g) gl_entries ->
   Forall (fun g => stamped (getdate e) d g /\ one_sided fa g)
     (fold_left (consumed_item_entries e d fa dflt) its gl_entries))
  /\ total_debit (fold_left (consumed_item_entries e d fa dflt) its gl_entries)
     = (total_debit gl_entries + sum_amounts (posted_amounts its))%Qc
  /\ length (fold_left (consumed_item_entries e d fa dflt) its gl_entries)
     = (length gl_entries + 2 * length (posted_amounts its))%nat.
Proof.
  induction its as [|item its IH]; intros gl_entries; simpl.
  - split; [auto|]. split; [unfold posted_amounts, sum_amounts; simpl; ring|].
    unfold posted_amounts. simpl. lia.
  - destruct (consumed_item_entries_props e d fa dflt gl_entries item)
      as (Ha & Hd & Hl).
    destruct (IH (consumed_item_entries e d fa dflt gl_entries item))
      as (Ha' & Hd' & Hl').
    split; [auto|]. rewrite Hd', Hd, Hl', Hl, (posted_amounts_cons item its).
    rewrite sum_amounts_app, length_app. split; [ring|lia].
Qed.

Lemma consumed_items_props e d gl_entries fa l :
  get_gl_entries_for_consumed_items e d gl_entries fa = Ok l ->
  (Forall (fun g => stamped (getdate e) d g /\ one_sided fa g) gl_entries ->
   Forall (fun g => stamped (getdate e) d g /\ one_sided fa g) l)
  /\ total_debit l
     = (total_debit gl_entries + sum_amounts (posted_amounts (posted_rows e d)))%Qc
  /\ length l
     = (length gl_entries + 2 * length (posted_amounts (posted_rows e d)))%nat.
Proof.
  unfold get_gl_entries_for_consumed_items, posted_rows.
  destruct (stock_consumption d && negb (bool_decide (stock_items d = []))); simpl.
  - unfold mbind, result_bind.
    destruct (get_doc_stock_entry_items _ _) as [its|x]; [|discriminate].
    destruct (is_perpetual_inventory_enabled _ _) as [pp|x]; [|discriminate].
    match goal with |- context [match ?c with Ok _ => _ | Throw _ => _ end] =>
      destruct c as [dflt|x]; [|discriminate] end.
    intros [= <-]. apply consumed_items_fold_props.
  - intros [= <-]. split; [auto|].
    split; [unfold posted_amounts, sum_amounts; simpl; ring|].
    unfold posted_amounts. simpl. lia.
Qed.

(** X3. The entries that [get_gl_entries] returns debit, in total,
    [repair_cost] when it is positive plus the positive amounts of the rows
    of the linked Stock Entry (read when [stock_consumption] is set and
    there are stock lines); there are two entries for the repair cost and
    two for each such row. *)
Theorem get_gl_entries_total (e : Env) (d : AssetRepair) (l : list GLEntry) :
  get_gl_entries e d = Ok l ->
  total_debit l
  = ((if Py.leb (repair_cost d) 0 then 0 else repair_cost d)
     + sum_amounts (posted_amounts (posted_rows e d)))%Qc
  /\ length l
     = ((if Py.leb (repair_cost d) 0 then 0 else 2)
        + 2 * length (posted_amounts (posted_rows e d)))%nat.
Proof.
  unfold get_gl_entries, mbind, result_bind.
  destruct (get_asset_account _ _ _ _) as [fa|x]; [|discriminate].
  destruct (get_gl_entries_for_repair_cost _ _ _ _) as [l1|x] eqn:H1; [|discriminate].
  destruct (get_gl_entries_for_consumed_items _ _ _ _) as [l2|x] eqn:H2; [|discriminate].
  intros [= <-].
  apply repair_cost_entries in H1 as (_ & Hd1 & Hl1).
  apply consumed_items_props in H2 as (_ & Hd2 & Hl2).
  rewrite Hd2, Hd1, Hl2, Hl1. unfold total_debit, sum_amounts. simpl.
  split; [ring|lia].
Qed.

(** X4. Every entry that [get_gl_entries] returns carries the repair's
    stamp (voucher type "Asset Repair", the repair's name, company and cost
    center, today's date) and has exactly one positive side: it is a debit
    on the fixed asset account or a credit against it.  No entry of amount
    zero or below is produced. *)
Theorem get_gl_entries_lines (e : Env) (d : AssetRepair) (fa : option string)
    (l : list GLEntry) :
  get_asset_account e "fixed_asset_account" (asset d) (company d) = Ok fa ->
  get_gl_entries e d = Ok l ->
  Forall (fun g => stamped (getdate e) d g /\ one_sided fa g) l.
Proof.
  intros Hfa. unfold get_gl_entries, mbind, result_bind. rewrite Hfa.
  destruct (get_gl_entries_for_repair_cost _ _ _ _) as [l1|x] eqn:H1; [|discriminate].
  destruct (get_gl_entries_for_consumed_items _ _ _ _) as [l2|x] eqn:H2; [|discriminate].
  intros [= <-].
  apply repair_cost_entries in H1 as (Ha1 & _).
  apply consumed_items_props in H2 as (Ha2 & _).
  apply Ha2, Ha1, Forall_nil.
Qed.

(** X5. With a positive [repair_cost], [get_gl_entries] needs the first
    item row of the purchase invoice: when the invoice has no item row it
    raises an index error. *)
Theorem get_gl_entries_invoice_without_items (e : Env) (d : AssetRepair)
    (fa : option string) :
  get_asset_account e "fixed_asset_account" (asset d) (company d) = Ok fa ->
  Py.leb (repair_cost d) 0 = false ->
  get_doc_purchase_invoice_items e (purchase_invoice d) = Ok [] ->
  get_gl_entries e d = Throw IndexError.
Proof.
  intros Hfa Hle Hpi.
  unfold get_gl_entries, get_gl_entries_for_repair_cost, mbind, result_bind, flt.
  rewrite Hfa, Hle, Hpi. reflexivity.
Qed.

(** X6. When the stock entry rows are to be posted and perpetual inventory
    is not enabled for the company, a company without default expense
    account makes [get_gl_entries] raise the validation error that asks for
    one, even if every row has an expense account of its own. *)
Theorem get_gl_entries_without_default_expense_account (e : Env) (d : AssetRepair)
    (fa : option string) (l1 : list GLEntry) (its : list StockEntryDetail) :
  get_asset_account e "fixed_asset_account" (asset d) (company d) = Ok fa ->
  get_gl_entries_for_repair_cost e d [] fa = Ok l1 ->
  stock_consumption d = true ->
  stock_items d <> [] ->
  get_doc_stock_entry_items e (stock_entry d) = Ok its ->
  is_perpetual_inventory_enabled e (company d) = Ok false ->
  truthy (get_cached_default_expense_account e (company d)) = false ->
  get_gl_entries e d
  = Throw (ValidationError
             (format (translate "Please set default Expense Account in Company {0}")
                [company d])
             None).
Proof.
  intros Hfa H1 Hsc Hl Hits Hpp Hdea.
  unfold get_gl_entries, get_gl_entries_for_consumed_items, mbind, result_bind.
  rewrite Hfa, H1, Hsc, Hits, Hpp.
  rewrite bool_decide_eq_false_2 by exact Hl. simpl. rewrite Hdea. reflexivity.
Qed.

End LedgerEntries.

Lemma get_gl_entries_total_witness :
  get_gl_entries (Site.acme Site.yearly_machine None) validated_repair = Ok Site.ledger
  /\ total_debit Site.ledger = (of_Z 100 + sum_amounts [of_Z 30])%Qc
  /\ length Site.ledger = 4%nat.
Proof.
  assert (get_gl_entries (Site.acme Site.yearly_machine None) validated_repair
          = Ok Site.ledger) as H by (vm_compute; reflexivity).
  split; [exact H|].
  exact (get_gl_entries_total _ _ _ H).
Defined.

Lemma get_gl_entries_lines_witness :
  get_gl_entries (Site.acme Site.yearly_machine None) validated_repair = Ok Site.ledger
  /\ Forall (fun g => stamped (mkDate 2024 3 15) validated_repair g
                      /\ one_sided (Some "Fixed Assets") g) Site.ledger.
Proof.
  assert (get_gl_entries (Site.acme Site.yearly_machine None) validated_repair
          = Ok Site.ledger) as H by (vm_compute; reflexivity).
  split; [exact H|].
  exact (get_gl_entries_lines (Site.acme Site.yearly_machine None) validated_repair
           (Some "Fixed Assets") Site.ledger eq_refl H).
Defined.

Lemma get_gl_entries_invoice_without_items_witness :
  Py.leb (repair_cost validated_repair) 0 = false
  /\ get_gl_entries site_without_invoice_items validated_repair = Throw IndexError.
Proof.
  split; [reflexivity|].
  exact (get_gl_entries_invoice_without_items site_without_invoice_items
           validated_repair (Some "Fixed Assets") eq_refl eq_refl eq_refl).
Defined.

Lemma get_gl_entries_without_default_expense_account_witness :
  stock_items validated_repair <> []
  /\ get_gl_entries site_without_expense_account validated_repair
     = Throw (ValidationError "Please set default Expense Account in Company {0}" None).
Proof.
  split; [discriminate|].
  refine (get_gl_entries_without_default_expense_account site_without_expense_account
            validated_repair (Some "Fixed Assets")
            (match get_gl_entries_for_repair_cost site_without_expense_account
                     validated_repair [] (Some "Fixed Assets") with
             | Ok l => l
             | Throw _ => []
             end)
            [mkSEDetail (of_Z 30) (Some "Stock Adjustment")]
            eq_refl _ eq_refl _ eq_refl eq_refl eq_refl).
  - vm_compute. reflexivity.
  - discriminate.
Defined.

(** ** Further properties: the depreciation schedule *)

Section DepreciationSchedule.

Context {Env : Type} `{FW : Framework Env}.


Lemma getitem_last_nil {A} : getitem (@nil A) (Z.of_nat (length (@nil A)) - 1) = Throw IndexError.
Proof. reflexivity. Qed.



(** What a successful [modify_depreciation_schedule] keeps, and what it
    makes of each row. *)
Lemma modify_depreciation_schedule_frame (w w' : @World Env) (a : Asset) :
  asset_doc w = Some a ->
  modify_depreciation_schedule w = (Ok tt, w') ->
  exists a',
    w' = mkWorld (self w) (Some a') (env w)
    /\ asset_name a' = asset_name a
    /\ number_of_depreciations_booked a' = number_of_depreciations_booked a
    /\ forall i r, finance_books a !! i = Some r ->
         exists r',
           finance_books a' !! i = Some r'
           /\ row_after_modify (env w) (self w) (asset_name a)
                (number_of_depreciations_booked a) r = Ok r'.
Proof.
  intros Ha. unfold modify_depreciation_schedule, for_each_finance_book.
  run. rewrite Ha. intros H.
  eapply (for_range_rows _ _ modify_row_run) in H as (a' & -> & Hn & Hb & _ & Hrows);
    eauto.
  exists a'. repeat split; auto.
  intros i r Hr. destruct (Hrows i r Hr) as [Hin _].
  destruct Hin as (r' & Hstep & Hr'); [apply lookup_lt_Some in Hr; lia|].
  eauto.
Qed.

Lemma of_Z_plus (a b : Z) : of_Z (a + b) = (of_Z a + of_Z b)%Qc.
Proof.
  apply Qc_is_canon. unfold of_Z, Qcplus, Q2Qc. cbn [this].
  rewrite !Qred_correct, inject_Z_plus. reflexivity.
Qed.

Lemma of_Z_nonzero (b : Z) : b <> 0 -> of_Z b <> 0%Qc.
Proof.
  intros Hb H0. apply Hb. apply of_Z_inj. rewrite H0.
  apply Qc_is_canon. reflexivity.
Qed.

Lemma of_Z_div_exact (life freq : Z) :
  freq <> 0 -> life `mod` freq = 0 ->
  (of_Z life / of_Z freq)%Qc = of_Z (life / freq).
Proof.
  intros Hf Hm. apply Z.div_exact in Hm; [|exact Hf].
  rewrite Hm at 1. rewrite of_Z_mult. field. apply of_Z_nonzero, Hf.
Qed.

Lemma val_add (a b : num) : val (add a b) = (val a + val b)%Qc.
Proof. destruct a, b; simpl; try reflexivity. apply of_Z_plus. Qed.

Lemma val_sub (a b : num) : val (sub a b) = (val a - val b)%Qc.
Proof.
  destruct a as [x|p], b as [y|q]; simpl; try reflexivity.
  replace (x - y) with (x + - y) by lia. rewrite of_Z_plus.
  replace (of_Z (- y)) with (- of_Z y)%Qc; [ring|].
  apply Qc_is_canon. unfold of_Z, Qcopp, Q2Qc. cbn [this].
  rewrite !Qred_correct. rewrite inject_Z_opp. reflexivity.
Qed.

(** X8. When every row's frequency divides [increase_in_asset_life],
    [modify_depreciation_schedule] succeeds whatever the depreciation
    schedules are, and moves the count of each row by the whole quotient:
    its value becomes the old value plus [increase_in_asset_life //
    frequency_of_depreciation], and no other field of the row changes. *)
Theorem modify_depreciation_schedule_whole_periods (w : @World Env) (a : Asset) :
  asset_doc w = Some a ->
  (forall i r, finance_books a !! i = Some r ->
     frequency_of_depreciation r <> 0
     /\ increase_in_asset_life (self w) `mod` frequency_of_depreciation r = 0) ->
  exists w' a',
    modify_depreciation_schedule w = (Ok tt, w')
    /\ asset_doc w' = Some a'
    /\ forall i r, finance_books a !! i = Some r ->
         exists r',
           finance_books a' !! i = Some r'
           /\ r' = set_total_number_of_depreciations (total_number_of_depreciations r') r
           /\ val (total_number_of_depreciations r')
              = (val (total_number_of_depreciations r)
                 + of_Z (increase_in_asset_life (self w) / frequency_of_depreciation r))%Qc.
Proof.
  intros Ha Hrows.
  destruct (modify_depreciation_schedule_runs w a Ha) as [w' H].
  { intros i r Hr. destruct (Hrows i r Hr) as [Hf Hm]. split; [exact Hf|]. congruence. }
  destruct (modify_depreciation_schedule_frame w w' a Ha H) as (a' & -> & _ & _ & Hall).
  exists (mkWorld (self w) (Some a') (env w)), a'. split; [exact H|]. split; [reflexivity|].
  intros i r Hr. destruct (Hall i r Hr) as (r' & Hr' & Hstep).
  destruct (Hrows i r Hr) as [Hf Hm].
  exists r'. split; [exact Hr'|].
  unfold row_after_modify, truediv, mod_, mbind, result_bind in Hstep.
  apply Z.eqb_neq in Hf as Hf'. rewrite Hf', Hm in Hstep. simpl in Hstep.
  injection Hstep as <-. split; [reflexivity|].
  simpl. rewrite val_add. simpl. rewrite of_Z_div_exact; auto.
Qed.

Lemma trunc_floor (q : Qc) : (0 <= q)%Qc -> trunc q = Qfloor q.
Proof.
  intros Hq. unfold trunc. destruct q as [[n dn] Hc]. simpl in *.
  unfold Qcle, Qle in Hq. simpl in Hq.
  apply Z.quot_div_nonneg; lia.
Qed.

Lemma Qfloor_fraction (a b : Z) : 0 < b -> Qfloor (inject_Z a / inject_Z b) = a / b.
Proof.
  intros Hb. destruct b as [|p|p]; try lia.
  unfold Qdiv, Qinv, Qmult, inject_Z. simpl.
  rewrite Z.mul_1_r. reflexivity.
Qed.

(** Truncating a non-negative fraction of integers is the floor division. *)
Lemma trunc_fraction (a b : Z) :
  0 <= a -> 0 < b -> trunc (of_Z a / of_Z b)%Qc = a / b.
Proof.
  intros Ha Hb.
  assert ((of_Z a / of_Z b)%Qc == inject_Z a / inject_Z b)%Q as E.
  { unfold Qcdiv, Qcmult, Qcinv, of_Z, Q2Qc. cbn [this].
    rewrite !Qred_correct. reflexivity. }
  rewrite trunc_floor.
  - rewrite E. apply Qfloor_fraction, Hb.
  - unfold Qcle. cbn [this Q2Qc]. change (Qred 0) with 0%Q. rewrite E.
    apply Qle_shift_div_l.
    + change 0%Q with (inject_Z 0). rewrite <- Zlt_Qlt. exact Hb.
    + rewrite Qmult_0_l. change 0%Q with (inject_Z 0). rewrite <- Zle_Qle. exact Ha.
Qed.

(** The integer that [cint] reads in the count after the quotient step, and
    after the extra depreciation. *)
Lemma cint_after_quotient (n life freq : Z) :
  0 <= n -> 0 <= life -> 0 < freq ->
  cint (add (PyInt n) (PyFloat (of_Z life / of_Z freq)%Qc)) = n + life / freq
  /\ cint (add (add (PyInt n) (PyFloat (of_Z life / of_Z freq)%Qc)) (PyInt 1))
     = n + life / freq + 1.
Proof.
  intros Hn Hl Hf. simpl.
  assert (of_Z freq <> 0%Qc) as Hq by (apply of_Z_nonzero; lia).
  replace (of_Z n + of_Z life / of_Z freq)%Qc with (of_Z (n * freq + life) / of_Z freq)%Qc
    by (rewrite of_Z_plus, of_Z_mult; field; exact Hq).
  replace (of_Z (n * freq + life) / of_Z freq + of_Z 1)%Qc
    with (of_Z ((n + 1) * freq + life) / of_Z freq)%Qc.
  - rewrite !trunc_fraction by nia.
    rewrite !Z.div_add_l by lia. lia.
  - rewrite !of_Z_plus, !of_Z_mult, of_Z_plus. field. exact Hq.
Qed.

(** X9. Read as an integer, as [cint] reads it, the count that a successful
    [modify_depreciation_schedule] leaves in a row that had [n] depreciations
    (with [n], the added life non-negative and the frequency positive) is
    [n + increase_in_asset_life // frequency_of_depreciation], plus one
    exactly when the remainder is not zero and the last schedule date moved
    by the remainder is later than the start date moved by the pending
    depreciations. *)
Theorem modify_depreciation_schedule_integer_count (w w' : @World Env) (a : Asset)
    (i : nat) (r : AssetFinanceBook) (n : Z) :
  let life := increase_in_asset_life (self w) in
  let freq := frequency_of_depreciation r in
  asset_doc w = Some a ->
  finance_books a !! i = Some r ->
  total_number_of_depreciations r = PyInt n ->
  0 <= n -> 0 <= life -> 0 < freq ->
  modify_depreciation_schedule w = (Ok tt, w') ->
  exists a' r',
    asset_doc w' = Some a' /\ finance_books a' !! i = Some r'
    /\ (life `mod` freq = 0 -> cint (total_number_of_depreciations r') = n + life / freq)
    /\ (forall last_schedule_date,
          life `mod` freq <> 0 ->
          last_schedule_date_of (env w) (asset_name a) (finance_book r)
          = Ok last_schedule_date ->
          cint (total_number_of_depreciations r')
          = n + life / freq
            + (if Dates.gtb
                    (add_months last_schedule_date (life `mod` freq))
                    (add_months (depreciation_start_date r)
                       ((n + life / freq - number_of_depreciations_booked a) * freq))
               then 1 else 0)).
Proof.
  intros life freq Ha Hr Ht Hn Hl Hf H.
  destruct (modify_depreciation_schedule_rows _ _ _ _ _ Ha Hr H)
    as (a' & r' & Ha' & Hr' & Hstep).
  exists a', r'. split; [exact Ha'|]. split; [exact Hr'|].
  destruct (cint_after_quotient n life freq Hn Hl Hf) as [Hc Hc1].
  unfold row_after_modify, truediv, mod_, mbind, result_bind in Hstep.
  fold life freq in Hstep. rewrite Ht in Hstep.
  assert ((freq =? 0) = false) as Hf' by (apply Z.eqb_neq; lia).
  rewrite Hf' in Hstep. split.
  - intros Hm. rewrite Hm in Hstep. simpl in Hstep. injection Hstep as <-. exact Hc.
  - intros lsd Hm Hs. apply Z.eqb_neq in Hm. rewrite Hm, Hs in Hstep.
    cbn [negb] in Hstep. cbv beta iota in Hstep. rewrite Hc in Hstep.
    injection Hstep as <-.
    cbn [total_number_of_depreciations set_total_number_of_depreciations].
    destruct (Dates.gtb _ _); [exact Hc1|rewrite Z.add_0_r; exact Hc].
Qed.

(** X19. When the frequency of a row divides [increase_in_asset_life],
    [revert_depreciation_schedule_on_cancellation] after
    [modify_depreciation_schedule] gives the row its count back (as a
    number), all the other fields being untouched. *)
Theorem revert_after_modify_whole_periods (w w1 w2 : @World Env) (a : Asset)
    (i : nat) (r : AssetFinanceBook) :
  asset_doc w = Some a ->
  finance_books a !! i = Some r ->
  increase_in_asset_life (self w) `mod` frequency_of_depreciation r = 0 ->
  modify_depreciation_schedule w = (Ok tt, w1) ->
  revert_depreciation_schedule_on_cancellation w1 = (Ok tt, w2) ->
  exists a2 r2,
    asset_doc w2 = Some a2 /\ finance_books a2 !! i = Some r2
    /\ r2 = set_total_number_of_depreciations (total_number_of_depreciations r2) r
    /\ val (total_number_of_depreciations r2) = val (total_number_of_depreciations r).
Proof.
  intros Ha Hr Hm H1 H2.
  destruct (modify_depreciation_schedule_frame w w1 a Ha H1) as (a1 & -> & Hn & Hb & Hall).
  destruct (Hall i r Hr) as (r1 & Hr1 & Hstep1).
  destruct (revert_depreciation_schedule_rows
              (mkWorld (self w) (Some a1) (env w)) w2 a1 i r1 eq_refl Hr1 H2)
    as (a2 & r2 & Ha2 & Hr2 & Hstep2).
  exists a2, r2. split; [exact Ha2|]. split; [exact Hr2|].
  simpl in Hstep2.
  unfold row_after_modify, truediv, mod_, mbind, result_bind in Hstep1.
  destruct (frequency_of_depreciation r =? 0) eqn:Hf; [discriminate|].
  rewrite Hm in Hstep1. simpl in Hstep1. injection Hstep1 as <-.
  unfold row_after_revert, truediv, mod_, mbind, result_bind in Hstep2.
  simpl in Hstep2. rewrite Hf, Hm in Hstep2. simpl in Hstep2.
  injection Hstep2 as <-. split; [reflexivity|].
  simpl. rewrite val_sub, val_add. ring.
Qed.

End DepreciationSchedule.

Lemma yearly_machine_rows (P : AssetFinanceBook -> Prop) :
  P (Site.book (PyInt 3) 12 1000) ->
  forall (i : nat) r, finance_books Site.yearly_machine !! i = Some r -> P r.
Proof.
  intros HP [|[|i]] r; simpl; intros H; try discriminate.
  injection H as <-. exact HP.
Qed.


Lemma modify_depreciation_schedule_whole_periods_witness :
  asset_doc two_more_years = Some Site.yearly_machine
  /\ exists w' a',
       modify_depreciation_schedule two_more_years = (Ok tt, w')
       /\ asset_doc w' = Some a'
       /\ exists r',
            finance_books a' !! 0%nat = Some r'
            /\ val (total_number_of_depreciations r') = (of_Z 3 + of_Z 2)%Qc.
Proof.
  split; [reflexivity|].
  destruct (modify_depreciation_schedule_whole_periods two_more_years
              Site.yearly_machine eq_refl) as (w' & a' & H & Ha' & Hrows).
  { apply yearly_machine_rows. split; [simpl; lia|reflexivity]. }
  exists w', a'. split; [exact H|]. split; [exact Ha'|].
  destruct (Hrows 0%nat (Site.book (PyInt 3) 12 1000) eq_refl) as (r' & Hr' & _ & Hv).
  exists r'. split; [exact Hr'|exact Hv].
Defined.

Lemma modify_depreciation_schedule_integer_count_witness :
  modify_depreciation_schedule (Site.fourteen_months 2025)
  = (Ok tt, (modify_depreciation_schedule (Site.fourteen_months 2025)).2)
  /\ exists a' r',
       asset_doc (modify_depreciation_schedule (Site.fourteen_months 2025)).2 = Some a'
       /\ finance_books a' !! 0%nat = Some r'
       /\ cint (total_number_of_depreciations r') = 3 + 14 / 12 + 1.
Proof.
  assert (modify_depreciation_schedule (Site.fourteen_months 2025)
          = (Ok tt, (modify_depreciation_schedule (Site.fourteen_months 2025)).2))
    as H by (vm_compute; reflexivity).
  split; [exact H|].
  destruct (modify_depreciation_schedule_integer_count (Site.fourteen_months 2025)
              (modify_depreciation_schedule (Site.fourteen_months 2025)).2
              Site.yearly_machine 0%nat (Site.book (PyInt 3) 12 1000) 3)
    as (a' & r' & Ha' & Hr' & _ & Hc);
    [reflexivity|reflexivity|reflexivity|lia|simpl; lia|simpl; lia|exact H|].
  exists a', r'. split; [exact Ha'|]. split; [exact Hr'|].
  apply (Hc (Site.jan1 2025)); [vm_compute; discriminate|reflexivity].
Defined.

Lemma revert_after_modify_whole_periods_witness :
  modify_depreciation_schedule two_more_years
  = (Ok tt, (modify_depreciation_schedule two_more_years).2)
  /\ revert_depreciation_schedule_on_cancellation
       (modify_depreciation_schedule two_more_years).2
     = (Ok tt,
        (revert_depreciation_schedule_on_cancellation
           (modify_depreciation_schedule two_more_years).2).2)
  /\ exists a2 r2,
       asset_doc
         (revert_depreciation_schedule_on_cancellation
            (modify_depreciation_schedule two_more_years).2).2 = Some a2
       /\ finance_books a2 !! 0%nat = Some r2
       /\ val (total_number_of_depreciations r2) = of_Z 3.
Proof.
  assert (modify_depreciation_schedule two_more_years
          = (Ok tt, (modify_depreciation_schedule two_more_years).2))
    as H1 by (vm_compute; reflexivity).
  assert (revert_depreciation_schedule_on_cancellation
            (modify_depreciation_schedule two_more_years).2
          = (Ok tt,
             (revert_depreciation_schedule_on_cancellation
                (modify_depreciation_schedule two_more_years).2).2))
    as H2 by (vm_compute; reflexivity).
  split; [exact H1|]. split; [exact H2|].
  destruct (revert_after_modify_whole_periods two_more_years _ _ Site.yearly_machine
              0%nat (Site.book (PyInt 3) 12 1000) eq_refl eq_refl eq_refl H1 H2)
    as (a2 & r2 & Ha2 & Hr2 & _ & Hv).
  exists a2, r2. split; [exact Ha2|]. split; [exact Hr2|exact Hv].
Defined.

(** ** Further properties: the expected value after useful life *)

Section ExpectedValue.

Context {Env : Type} `{FW : Framework Env}.

Lemma for_range_preserves (I : @World Env -> Prop) (body : nat -> @M Env unit) :
  (forall i w, I w -> I (body i w).2) ->
  forall n i w, I w -> I (for_range n i body w).2.
Proof.
  intros Hb. induction n as [|n IH]; intros i w Hw; simpl; [exact Hw|].
  unfold mbind, M_bind, bind. pose proof (Hb i w Hw) as H1.
  destruct (body i w) as [[[]|x] w1]; simpl in *; auto.
Qed.

Lemma for_range_fixed (body : nat -> @M Env unit) (w : @World Env) :
  forall n i,
    (forall j, (i <= j < i + n)%nat -> body j w = (Ok tt, w)) ->
    for_range n i body w = (Ok tt, w).
Proof.
  induction n as [|n IH]; intros i Hb; simpl; [reflexivity|].
  unfold mbind, M_bind, bind. rewrite Hb by lia. apply IH.
  intros j Hj. apply Hb. lia.
Qed.

Lemma expected_value_only_refl (r : AssetFinanceBook) : expected_value_only r r.
Proof. split; [destruct r; reflexivity|auto]. Qed.

Lemma expected_value_only_set (v : Qc) (x y : AssetFinanceBook) :
  declining_method y = true ->
  expected_value_only x y ->
  expected_value_only x (set_expected_value_after_useful_life v y).
Proof.
  intros Hy [Hxy Hx]. split.
  - rewrite Hxy. reflexivity.
  - intros Hd. rewrite (Hx Hd) in Hy. congruence.
Qed.

(** X10. [update_asset_expected_value_after_useful_life] touches nothing but
    [expected_value_after_useful_life], and only in the finance book rows
    depreciated by Written Down Value or Double Declining Balance: whatever
    its outcome, the repair document, the Asset's own fields, the number of
    rows, and every other field of every row are as before. *)
Theorem update_asset_expected_value_frame (w : @World Env) (a : Asset) :
  asset_doc w = Some a ->
  self (update_asset_expected_value_after_useful_life w).2 = self w
  /\ exists a',
       asset_doc (update_asset_expected_value_after_useful_life w).2 = Some a'
       /\ a' = set_finance_books (finance_books a') a
       /\ Forall2 expected_value_only (finance_books a) (finance_books a').
Proof.
  intros Ha.
  assert (expected_value_frame (self w) a w) as Hw.
  { split; [reflexivity|]. exists a. split; [exact Ha|].
    split; [destruct a; reflexivity|].
    apply Forall2_same_length_lookup_2; [reflexivity|].
    intros i x y Hx Hy. assert (x = y) as -> by congruence.
    apply expected_value_only_refl. }
  enough (expected_value_frame (self w) a
            (update_asset_expected_value_after_useful_life w).2) as H by exact H.
  unfold update_asset_expected_value_after_useful_life, for_each_finance_book.
  unfold mbind at 1. unfold M_bind, bind. unfold get_asset_doc at 1. rewrite Ha.
  apply (for_range_preserves (expected_value_frame (self w) a)); [|exact Hw].
  clear Hw Ha. intros i w0 (Hs & a' & Ha & Hh & HF).
  destruct w0 as [d0 ad e]. simpl in *. subst d0 ad.
  assert (expected_value_frame (self w) a (mkWorld (self w) (Some a') e)) as Hsame
    by (split; [reflexivity|]; exists a'; auto).
  unfold get_row, modify_row. run.
  destruct (finance_books a' !! i) as [row|] eqn:Hr; simpl; [|exact Hsame].
  destruct (String.eqb _ _ || String.eqb _ _) eqn:Hd; simpl; [|exact Hsame].
  destruct (get_asset_depr_schedule_doc _ _ _ _) as [sched|]; simpl; [|exact Hsame].
  destruct (max_amount _) as [m|x]; simpl; [|exact Hsame].
  destruct (depr_schedule_doc_db_set _ _ _ _) as [res e']; simpl.
  assert (expected_value_frame (self w) a
            (mkWorld (self w)
               (Some (set_finance_books
                        (alter (set_expected_value_after_useful_life
                                  (flt_rounded e (flt (value_after_depreciation row) - flt m)%Qc
                                     (row_precision e "expected_value_after_useful_life")))
                           i (finance_books a')) a')) e')) as Hnew.
  { split; [reflexivity|]. eexists. split; [reflexivity|]. simpl. split.
    - rewrite Hh. reflexivity.
    - apply Forall2_alter_r; [exact HF|].
      intros x y _ Hy Hxy. apply expected_value_only_set; [|exact Hxy].
      assert (y = row) as -> by congruence. exact Hd. }
  destruct res; exact Hnew.
Qed.

(** X11. On an Asset none of whose finance books is depreciated by Written
    Down Value or Double Declining Balance,
    [update_asset_expected_value_after_useful_life] does nothing: it returns
    without reading a schedule or writing anything. *)
Theorem update_asset_expected_value_other_methods (w : @World Env) (a : Asset) :
  asset_doc w = Some a ->
  (forall i r, finance_books a !! i = Some r -> declining_method r = false) ->
  update_asset_expected_value_after_useful_life w = (Ok tt, w).
Proof.
  intros Ha Hrows.
  unfold update_asset_expected_value_after_useful_life, for_each_finance_book.
  unfold mbind at 1. unfold M_bind, bind, get_asset_doc. rewrite Ha.
  apply for_range_fixed. intros j Hj.
  destruct (lookup_lt_is_Some_2 (finance_books a) j) as [r Hr]; [lia|].
  unfold get_row. run. rewrite Ha. simpl. rewrite Hr. simpl.
  pose proof (Hrows j r Hr) as Hd. unfold declining_method in Hd. rewrite Hd.
  reflexivity.
Qed.

End ExpectedValue.

Lemma update_asset_expected_value_frame_witness :
  asset_doc (Site.loaded validated_repair declining_machine (Some (Site.schedule_until 2024)))
  = Some declining_machine
  /\ exists a',
       asset_doc
         (update_asset_expected_value_after_useful_life
            (Site.loaded validated_repair declining_machine
               (Some (Site.schedule_until 2024)))).2 = Some a'
       /\ Forall2 expected_value_only (finance_books declining_machine) (finance_books a').
Proof.
  split; [reflexivity|].
  destruct (update_asset_expected_value_frame
              (Site.loaded validated_repair declining_machine
                 (Some (Site.schedule_until 2024)))
              declining_machine eq_refl) as (_ & a' & Ha' & _ & HF).
  exists a'. split; [exact Ha'|exact HF].
Defined.

Lemma update_asset_expected_value_other_methods_witness :
  asset_doc (Site.loaded validated_repair Site.yearly_machine None)
  = Some Site.yearly_machine
  /\ update_asset_expected_value_after_useful_life
       (Site.loaded validated_repair Site.yearly_machine None)
     = (Ok tt, Site.loaded validated_repair Site.yearly_machine None).
Proof.
  split; [reflexivity|].
  apply (update_asset_expected_value_other_methods
           (Site.loaded validated_repair Site.yearly_machine None)
           Site.yearly_machine eq_refl).
  apply yearly_machine_rows. reflexivity.
Defined.

(** ** Further properties: what the hooks do to the repair document *)

Section RepairDocument.

Context {Env : Type} `{FW : Framework Env} `{CFW : CancelFramework Env}.

#[local] Existing Instance M_bind.

Lemma keeps_ret d {A} (a : A) : keeps d (@ret Env A a).
Proof. intros w H. exact H. Qed.

Lemma keeps_throw d {A} (x : Exn) : keeps d (@throw Env A x).
Proof. intros w H. exact H. Qed.

Lemma keeps_lift d {A} (r : result A) : keeps d (@lift Env A r).
Proof. intros w H. exact H. Qed.

Lemma keeps_get_env d : keeps d (@get_env Env).
Proof. intros w H. exact H. Qed.

Lemma keeps_get_asset_doc d : keeps d (@get_asset_doc Env).
Proof. intros w H. unfold get_asset_doc. destruct (asset_doc w); exact H. Qed.

Lemma keeps_put_asset_doc d a : keeps d (@put_asset_doc Env a).
Proof. intros w H. exact H. Qed.

Lemma keeps_modify_asset_doc d f : keeps d (@modify_asset_doc Env f).
Proof. intros w H. run. destruct (asset_doc w); exact H. Qed.

Lemma keeps_call_env d {A} (f : Env -> result A * Env) : keeps d (call_env f).
Proof. intros w H. unfold call_env. destruct (f (env w)); exact H. Qed.

Lemma keeps_call_asset d {A} (f : Asset -> Env -> result A * (Asset * Env)) :
  keeps d (call_asset f).
Proof.
  intros w H. unfold call_asset. destruct (asset_doc w); [|exact H].
  destruct (f _ _) as [r [a' e']]; exact H.
Qed.

Lemma keeps_bind d {A B} (m : @M Env A) (k : A -> @M Env B) :
  keeps d m -> (forall a, keeps d (k a)) -> keeps d (m ≫= k).
Proof.
  intros Hm Hk w H. unfold mbind, M_bind, bind.
  pose proof (Hm w H) as H1. destruct (m w) as [[a|x] w1]; simpl in *; [|exact H1].
  apply Hk, H1.
Qed.

Lemma keeps_get_self d {B} (k : AssetRepair -> @M Env B) :
  keeps d (k d) -> keeps d (get_self ≫= k).
Proof.
  intros Hk w H. unfold mbind, M_bind, bind, get_self. rewrite H. apply Hk, H.
Qed.

Lemma keeps_when d (b : bool) (m : @M Env unit) : keeps d m -> keeps d (when b m).
Proof. destruct b; simpl; [auto|]. intros _. apply keeps_ret. Qed.

Lemma keeps_for_range d (body : nat -> @M Env unit) (n : nat) : forall i,
  (forall i, keeps d (body i)) -> keeps d (for_range n i body).
Proof.
  induction n as [|n IH]; intros i Hb; simpl.
  - apply keeps_ret.
  - apply keeps_bind; [apply Hb|]. intros _. apply IH, Hb.
Qed.

Ltac keeps_step :=
  first
    [ apply keeps_ret | apply keeps_throw | apply keeps_lift | apply keeps_get_env
    | apply keeps_get_asset_doc | apply keeps_put_asset_doc
    | apply keeps_modify_asset_doc | apply keeps_call_env | apply keeps_call_asset
    | apply keeps_when
    | apply keeps_for_range; intros
    | apply keeps_get_self
    | apply keeps_bind; [|intros]
    | match goal with |- keeps _ (if ?c then _ else _) => destruct c end
    | match goal with |- keeps _ (match ?c with _ => _ end) => destruct c end ].

Ltac keeps_all :=
  unfold check_repair_status, frappe_throw, make_gl_entries,
    modify_depreciation_schedule, modify_depreciation_schedule_row,
    revert_depreciation_schedule_on_cancellation,
    revert_depreciation_schedule_on_cancellation_row,
    calculate_last_schedule_date, calculate_last_schedule_date_before_modification,
    update_asset_expected_value_after_useful_life, for_each_finance_book,
    increase_stock_quantity, check_for_stock_items_and_warehouse,
    set_asset_flag_increase_in_asset_life,
    set_asset_flag_increase_in_asset_value_due_to_repair,
    set_asset_flag_ignore_validate_update_after_submit, get_row, modify_row;
  repeat keeps_step.






Lemma bind_Ok_inv {A B} (m : @M Env A) (k : A -> @M Env B) w b w' :
  (m ≫= k) w = (Ok b, w') -> exists a w1, m w = (Ok a, w1) /\ k a w1 = (Ok b, w').
Proof.
  unfold mbind, M_bind, bind. destruct (m w) as [[a|x] w1]; [eauto|discriminate].
Qed.

Lemma check_repair_status_Ok w u w1 :
  @check_repair_status Env FW w = (Ok u, w1) -> w1 = w.
Proof.
  unfold check_repair_status. run.
  destruct (String.eqb _ _); intros H; inversion H; reflexivity.
Qed.

Lemma check_for_stock_items_and_warehouse_Ok w u w1 :
  @check_for_stock_items_and_warehouse Env FW w = (Ok u, w1) -> w1 = w.
Proof.
  unfold check_for_stock_items_and_warehouse. run.
  destruct (bool_decide _); simpl; [discriminate|].
  destruct (negb _); intros H; inversion H; reflexivity.
Qed.

Lemma modify_asset_doc_Ok f w u w1 :
  @modify_asset_doc Env f w = (Ok u, w1) -> self w1 = self w /\ env w1 = env w.
Proof. run. destruct (asset_doc w); intros H; inversion H; auto. Qed.

Lemma decrease_stock_quantity_Ok w u w1 :
  @decrease_stock_quantity Env FW w = (Ok u, w1) ->
  exists stock_entry_name,
    (stock_entry_insert_and_submit (material_issue (self w)) (env w)).1
    = Ok stock_entry_name
    /\ self w1 = set_stock_entry (Some stock_entry_name) (self w).
Proof.
  unfold decrease_stock_quantity, material_issue. run.
  destruct (stock_entry_insert_and_submit _ _) as [[n|x] e1]; simpl; [|discriminate].
  destruct (db_set_stock_entry _ _ _) as [[[]|x] e2]; simpl; [|discriminate].
  intros H. inversion H; subst. simpl. eauto.
Qed.

(** X12. A successful [before_submit] leaves the repair document as it
    was, except for [stock_entry]: with [stock_consumption] set it holds the
    name that the framework returned when it inserted and submitted the
    Material Issue built from the repair (and nothing had been written to
    the framework before that call); without it nothing at all changes. *)
Theorem before_submit_repair_document (w w' : @World Env) :
  before_submit w = (Ok tt, w') ->
  if stock_consumption (self w)
  then exists stock_entry_name,
         (stock_entry_insert_and_submit (material_issue (self w)) (env w)).1
         = Ok stock_entry_name
         /\ self w' = set_stock_entry (Some stock_entry_name) (self w)
  else self w' = self w.
Proof.
  intros H. destruct (stock_consumption (self w)) eqn:Hsc.
  - unfold before_submit in H.
    apply bind_Ok_inv in H as (? & w1 & H1 & H).
    apply check_repair_status_Ok in H1. subst w1.
    apply bind_Ok_inv in H as (? & w2 & H2 & H).
    apply modify_asset_doc_Ok in H2 as [Hs2 He2].
    apply bind_Ok_inv in H as (d2 & ? & Hg & H). inversion Hg; subst; clear Hg.
    rewrite Hs2, Hsc in H. simpl in H.
    apply bind_Ok_inv in H as (? & w3 & H3 & H).
    apply modify_asset_doc_Ok in H3 as [Hs3 He3].
    apply bind_Ok_inv in H as (? & w4 & H4 & H).
    apply modify_asset_doc_Ok in H4 as [Hs4 He4].
    apply bind_Ok_inv in H as (d4 & ? & Hg & H). inversion Hg; subst; clear Hg.
    rewrite Hs4, Hs3, Hs2, Hsc in H. unfold when at 1 in H.
    apply bind_Ok_inv in H as (? & w5 & H5 & H).
    apply bind_Ok_inv in H5 as (? & w4' & Hc & H5).
    apply check_for_stock_items_and_warehouse_Ok in Hc. subst w4'.
    apply decrease_stock_quantity_Ok in H5 as (n & Hn & Hs5).
    rewrite Hs4, Hs3, Hs2, He4, He3, He2 in *.
    exists n. split; [exact Hn|]. rewrite <- Hs5.
    match type of H with
    | ?m w5 = _ => assert (keeps (self w5) m) as K by (unfold when; keeps_all)
    end.
    specialize (K w5 eq_refl). rewrite H in K. exact K.
  - destruct (blind_before_submit [] None w Hsc) as [_ Hself].
    rewrite H in Hself. exact Hself.
Qed.


(** X14. When [before_submit] stops on a missing stock line or a missing
    warehouse, nothing has been written yet: the framework state and the
    repair document are as before.  The Asset in memory, though, already has
    its rows raised by [increase_asset_value]. *)
Theorem before_submit_failed_stock_check (w : @World Env) (a : Asset) :
  repair_status (self w) <> "Pending" ->
  asset_doc w = Some a ->
  stock_consumption (self w) = true ->
  stock_items (self w) = [] \/ truthy (warehouse (self w)) = false ->
  (exists x, (before_submit w).1 = Throw x)
  /\ env (before_submit w).2 = env w
  /\ self (before_submit w).2 = self w
  /\ exists a',
       asset_doc (before_submit w).2 = Some a'
       /\ finance_books a' = finance_books (increase_asset_value (self w) a).
Proof.
  intros Hp Ha Hs Hmiss. apply String.eqb_neq in Hp.
  destruct w as [d ad e]. simpl in *. subst ad.
  unfold before_submit, check_repair_status, check_for_stock_items_and_warehouse,
    set_asset_flag_increase_in_asset_value_due_to_repair.
  run. repeat (first [rewrite Hp | rewrite Hs]; simpl).
  destruct (bool_decide (stock_items d = [])) eqn:Hl; simpl.
  - repeat split; eauto; eexists; (split; [reflexivity|]);
      unfold increase_asset_value; simpl; destruct (calculate_depreciation a); reflexivity.
  - destruct Hmiss as [Hnil|Hw]; [apply bool_decide_eq_false in Hl; contradiction|].
    rewrite Hw. simpl.
    repeat split; eauto; eexists; (split; [reflexivity|]);
      unfold increase_asset_value; simpl; destruct (calculate_depreciation a); reflexivity.
Qed.

(** X15. With neither [stock_consumption] nor [capitalize_repair_cost] set,
    [before_cancel] only reloads the Asset and writes its flag
    [increase_in_asset_value_due_to_repair]: nothing is written to the
    framework, and when the Asset cannot be loaded the error leaves the
    state as it was. *)
Theorem before_cancel_without_flags (w : @World Env) :
  stock_consumption (self w) = false ->
  capitalize_repair_cost (self w) = false ->
  before_cancel w
  = match get_doc_asset (env w) (asset (self w)) with
    | Ok a =>
        (Ok tt,
         mkWorld (self w)
           (Some (set_flags (set_increase_in_asset_value_due_to_repair false (flags a)) a))
           (env w))
    | Throw x => (Throw x, w)
    end.
Proof.
  intros Hs Hc. destruct w as [d ad e]. simpl in *.
  unfold before_cancel, set_asset_flag_increase_in_asset_value_due_to_repair. run.
  destruct (get_doc_asset e (asset d)) as [a|x]; simpl; [|reflexivity].
  rewrite Hs, Hc. reflexivity.
Qed.

End RepairDocument.

Lemma before_submit_repair_document_witness :
  before_submit stocked_repair = (Ok tt, (before_submit stocked_repair).2)
  /\ (stock_entry_insert_and_submit (material_issue (self stocked_repair))
        (env stocked_repair)).1 = Ok "STE-0001"
  /\ stock_entry (self (before_submit stocked_repair).2) = Some "STE-0001"
  /\ exists stock_entry_name,
       (stock_entry_insert_and_submit (material_issue (self stocked_repair))
          (env stocked_repair)).1 = Ok stock_entry_name
       /\ self (before_submit stocked_repair).2
          = set_stock_entry (Some stock_entry_name) (self stocked_repair).
Proof.
  assert (before_submit stocked_repair = (Ok tt, (before_submit stocked_repair).2))
    as H by (vm_compute; reflexivity).
  split; [exact H|]. split; [reflexivity|]. split; [reflexivity|].
  exact (before_submit_repair_document stocked_repair _ H).
Defined.


Lemma before_submit_failed_stock_check_witness :
  truthy (warehouse (self stocked_repair_without_warehouse)) = false
  /\ env (before_submit stocked_repair_without_warehouse).2
     = env stocked_repair_without_warehouse
  /\ exists a',
       asset_doc (before_submit stocked_repair_without_warehouse).2 = Some a'
       /\ value_after_depreciation <$> finance_books a' = [(of_Z 1000 + of_Z 15 + of_Z 100)%Qc].
Proof.
  split; [reflexivity|].
  destruct (before_submit_failed_stock_check stocked_repair_without_warehouse
              Site.yearly_machine) as (_ & He & _ & a' & Ha' & Hfb);
    [discriminate|reflexivity|reflexivity|right; reflexivity|].
  split; [exact He|]. exists a'. split; [exact Ha'|].
  rewrite Hfb. simpl. f_equal; apply Qc_is_canon; reflexivity.
Defined.

Lemma before_cancel_without_flags_witness :
  stock_consumption (self (Site.loaded (Site.repair "Completed" 100 false false [] None 0)
                             Site.yearly_machine None)) = false
  /\ env (before_cancel (Site.loaded (Site.repair "Completed" 100 false false [] None 0)
                           Site.yearly_machine None)).2
     = Site.acme Site.yearly_machine None.
Proof.
  split; [reflexivity|].
  rewrite (before_cancel_without_flags
             (Site.loaded (Site.repair "Completed" 100 false false [] None 0)
                Site.yearly_machine None) eq_refl eq_refl).
  reflexivity.
Defined.

(** ** Further properties: downtime *)

Lemma round_half_even_lower (x : Q) :
  (x - (1 # 2) <= inject_Z (round_half_even x))%Q.
Proof.
  unfold round_half_even.
  pose proof (Qlt_floor x) as Hf. rewrite inject_Z_plus in Hf.
  change (inject_Z 1) with 1%Q in Hf.
  destruct (Qcompare_spec (x - inject_Z (Qfloor x)) (1 # 2)) as [H|H|H].
  - destruct (Z.even _); [lra|].
    rewrite inject_Z_plus. change (inject_Z 1) with 1%Q. lra.
  - lra.
  - rewrite inject_Z_plus. change (inject_Z 1) with 1%Q. lra.
Qed.

Lemma round_half_even_comp (x y : Q) : (x == y)%Q -> round_half_even x = round_half_even y.
Proof.
  intros E. unfold round_half_even. rewrite (Qfloor_comp _ _ E).
  assert (Qcompare (x - inject_Z (Qfloor y)) (1 # 2)
          = Qcompare (y - inject_Z (Qfloor y)) (1 # 2)) as -> by (rewrite E; reflexivity).
  reflexivity.
Qed.

Lemma round_half_even_integer (k : Z) : round_half_even (inject_Z k) = k.
Proof.
  unfold round_half_even. rewrite Qfloor_Z.
  assert (Qcompare (inject_Z k - inject_Z k) (1 # 2) = Lt) as ->; [|reflexivity].
  apply (proj1 (Qlt_alt _ _)). lra.
Qed.

(** Rounding a whole number to any number of decimals gives it back. *)
Lemma round_integer (k : Z) (n : nat) : round (of_Z k) n = of_Z k.
Proof.
  pose proof (scale_pos n) as Hs.
  unfold round.
  rewrite (round_half_even_comp _ (inject_Z (k * 10 ^ Z.of_nat n))).
  - rewrite round_half_even_integer. apply Qc_is_canon.
    unfold of_Z, Q2Qc. cbn [this]. rewrite !Qred_correct, inject_Z_mult.
    field. lra.
  - unfold of_Z, Q2Qc. cbn [this]. rewrite Qred_correct, inject_Z_mult. reflexivity.
Qed.

(** The value [round(x, n)] returns is within half a unit of the last
    decimal of [x]. *)
Lemma round_spec (x : Qc) (n : nat) :
  exists z : Z,
    (round x n == inject_Z z / inject_Z (10 ^ Z.of_nat n))%Q
    /\ (inject_Z z <= x * inject_Z (10 ^ Z.of_nat n) + (1 # 2))%Q
    /\ (x * inject_Z (10 ^ Z.of_nat n) - (1 # 2) <= inject_Z z)%Q.
Proof.
  exists (round_half_even (x * inject_Z (10 ^ Z.of_nat n))). split; [|split].
  - unfold round, Q2Qc. cbn [this]. apply Qred_correct.
  - apply round_half_even_upper.
  - apply round_half_even_lower.
Qed.

Lemma round_nonneg (x : Qc) (n : nat) : (0 <= x)%Qc -> (0 <= round x n)%Qc.
Proof.
  intros Hx. unfold Qcle in *. cbn [this Q2Qc] in *. change (Qred 0) with 0%Q in *.
  pose proof (scale_pos n) as Hs.
  destruct (round_spec x n) as (z & -> & _ & Hlow).
  assert (0 <= x * inject_Z (10 ^ Z.of_nat n))%Q as Hxs
    by (apply Qmult_le_0_compat; [exact Hx|lra]).
  assert (inject_Z (-1) < inject_Z z)%Q as Hz
    by (change (inject_Z (-1)) with (-1 # 1)%Q; lra).
  rewrite <- Zlt_Qlt in Hz.
  apply Qle_shift_div_l; [exact Hs|]. rewrite Qmult_0_l.
  change 0%Q with (inject_Z 0). rewrite <- Zle_Qle. lia.
Qed.

(** X16. A downtime of a whole number of hours is returned exactly: the two
    roundings do not touch it.  In particular equal dates give 0. *)
Theorem get_downtime_whole_hours (failure_date : datetime) (h : Z) :
  get_downtime failure_date (failure_date + h * 3600000000) = of_Z h.
Proof.
  unfold get_downtime, time_diff_in_hours.
  replace (failure_date + h * 3600000000 - failure_date) with (h * 3600000000) by lia.
  assert ((of_Z (h * 3600000000) / of_Z 1000000 / of_Z 3600)%Qc = of_Z h) as ->.
  { apply Qc_is_canon. rewrite hours_value.
    unfold of_Z, Q2Qc. cbn [this]. rewrite Qred_correct, inject_Z_mult.
    change (inject_Z 3600000000) with (3600000000 # 1)%Q. field. }
  rewrite !round_integer. reflexivity.
Qed.

(** X18. When [completion_date] is not earlier than [failure_date], the
    downtime returned is not negative. *)
Theorem get_downtime_ordered_dates (failure_date completion_date : datetime) :
  failure_date <= completion_date ->
  (0 <= get_downtime failure_date completion_date)%Qc.
Proof.
  intros Hle. unfold get_downtime, time_diff_in_hours.
  apply round_nonneg, round_nonneg.
  unfold Qcle. cbn [this Q2Qc]. change (Qred 0) with 0%Q. rewrite hours_value.
  assert (inject_Z 0 <= inject_Z (completion_date - failure_date))%Q as Hd
    by (rewrite <- Zle_Qle; lia).
  change (inject_Z 0) with 0%Q in Hd. lra.
Qed.

Lemma get_downtime_ordered_dates_witness :
  1700000000000000 <= 1700005400000000
  /\ (0 <= get_downtime 1700000000000000 1700005400000000)%Qc.
Proof.
  split; [lia|].
  apply (get_downtime_ordered_dates 1700000000000000 1700005400000000). lia.
Defined.

(** ** Binary floating point: the rounding to the nearest double *)

Lemma pow2_pos (k : Z) : (0 < Double.pow2 k)%Q.
Proof. apply Qpower_0_lt. reflexivity. Qed.

Lemma Qdiv_le_cross (a b c d : Z) :
  0 < b -> 0 < d -> a * d <= c * b ->
  (inject_Z a / inject_Z b <= inject_Z c / inject_Z d)%Q.
Proof.
  intros Hb Hd H.
  assert (0 < inject_Z b)%Q as Hb' by (change 0%Q with (inject_Z 0); rewrite <- Zlt_Qlt; lia).
  assert (0 < inject_Z d)%Q as Hd' by (change 0%Q with (inject_Z 0); rewrite <- Zlt_Qlt; lia).
  apply Qle_shift_div_r; [exact Hb'|].
  assert (inject_Z c / inject_Z d * inject_Z b == inject_Z c * inject_Z b / inject_Z d)%Q as ->
    by (field; lra).
  apply Qle_shift_div_l; [exact Hd'|].
  rewrite <- !inject_Z_mult, <- Zle_Qle. exact H.
Qed.

(** [ilog2 x] is not above the binary logarithm of [x]. *)
Lemma ilog2_lower (x : Q) : (0 < x)%Q -> (Double.pow2 (Double.ilog2 x) <= x)%Q.
Proof.
  intros Hx. unfold Double.ilog2.
  destruct (Qle_bool _ x) eqn:E; [apply Qle_bool_iff, E|].
  destruct x as [n d]. cbn [Qnum Qden].
  assert (0 < n) as Hn by (unfold Qlt in Hx; simpl in Hx; lia).
  destruct (Z.log2_spec n Hn) as [Hn1 _].
  destruct (Z.log2_spec (Zpos d) (Pos2Z.is_pos d)) as [_ Hd2].
  pose proof (Z.log2_nonneg n) as Ha. pose proof (Z.log2_nonneg (Zpos d)) as Hb.
  set (a := Z.log2 n) in *. set (b := Z.log2 (Zpos d)) in *.
  replace (a - b - 1) with (a - (b + 1)) by lia.
  unfold Double.pow2. rewrite Qpower_minus by discriminate.
  change 2%Q with (inject_Z 2). rewrite <- !Zpower_Qpower by lia.
  rewrite (Qmake_Qdiv n d).
  apply Qdiv_le_cross; [apply Z.pow_pos_nonneg; lia|lia|].
  replace (Z.succ b) with (b + 1) in Hd2 by lia. nia.
Qed.

(** A rounding moves [x] by at most [|x| * 2^-53]. *)
Lemma rnd_bounds (x : Q) :
  (x - Qabs x * Double.eps <= Double.rnd x /\ Double.rnd x <= x + Qabs x * Double.eps)%Q.
Proof.
  unfold Double.rnd. destruct (Qeq_bool x 0) eqn:E.
  - apply Qeq_bool_iff in E. rewrite E. split; vm_compute; discriminate.
  - assert (~ x == 0)%Q as Hx by (intros H; apply Qeq_bool_iff in H; congruence).
    assert (0 < Qabs x)%Q as Ha.
    { destruct (Qlt_le_dec 0 x) as [H|H].
      - rewrite Qabs_pos; lra.
      - rewrite Qabs_neg; lra. }
    pose proof (ilog2_lower _ Ha) as Hk.
    set (k := Double.ilog2 (Qabs x)) in *.
    pose proof (pow2_pos (k - 52)) as HP.
    assert (Double.pow2 (k - 52) == Double.pow2 k * (1 # 4503599627370496))%Q as HPk.
    { unfold Double.pow2. rewrite Qpower_minus by discriminate.
      assert (2 ^ 52 == 4503599627370496 # 1)%Q as -> by reflexivity.
      field. }
    set (P := Double.pow2 (k - 52)) in *. set (K := Double.pow2 k) in *.
    pose proof (round_half_even_upper (x / P)) as Hu.
    pose proof (round_half_even_lower (x / P)) as Hl.
    set (z := inject_Z (round_half_even (x / P))) in *.
    assert (z * P <= (x / P + (1 # 2)) * P)%Q as Hu'
      by (apply Qmult_le_compat_r; lra).
    assert ((x / P - (1 # 2)) * P <= z * P)%Q as Hl'
      by (apply Qmult_le_compat_r; lra).
    assert ((x / P + (1 # 2)) * P == x + P * (1 # 2))%Q as E1 by (field; lra).
    assert ((x / P - (1 # 2)) * P == x - P * (1 # 2))%Q as E2 by (field; lra).
    rewrite E1 in Hu'. rewrite E2 in Hl'.
    set (zP := (z * P)%Q) in *. set (A := Qabs x) in *.
    unfold Double.eps. split; lra.
Qed.

Lemma this_rnd64 (x : Qc) : (Double.rnd64 x == Double.rnd x)%Q.
Proof. unfold Double.rnd64, Q2Qc. cbn [this]. apply Qred_correct. Qed.

Lemma this_Qcdiv (a b : Qc) : ((a / b)%Qc == a / b)%Q.
Proof.
  unfold Qcdiv, Qcmult, Qcinv, Q2Qc. cbn [this]. rewrite !Qred_correct. reflexivity.
Qed.

Lemma this_of_Z (z : Z) : (of_Z z == inject_Z z)%Q.
Proof. unfold of_Z, Q2Qc. cbn [this]. apply Qred_correct. Qed.

Lemma this_Qcplus (a b : Qc) : ((a + b)%Qc == a + b)%Q.
Proof. unfold Qcplus, Q2Qc. cbn [this]. apply Qred_correct. Qed.

Lemma this_Qcminus (a b : Qc) : ((a - b)%Qc == a - b)%Q.
Proof.
  unfold Qcminus, Qcplus, Qcopp, Q2Qc. cbn [this]. rewrite !Qred_correct. reflexivity.
Qed.

Lemma this_round (x : Qc) (n : nat) :
  (Py.round x n == inject_Z (round_half_even (x * inject_Z (10 ^ Z.of_nat n)))
                   / inject_Z (10 ^ Z.of_nat n))%Q.
Proof. unfold Py.round, Q2Qc. cbn [this]. apply Qred_correct. Qed.

Lemma rnd64_nonpos_bounds (x : Qc) :
  (x <= 0)%Q -> (x * (1 + Double.eps) <= Double.rnd64 x /\ Double.rnd64 x <= x * (1 - Double.eps))%Q.
Proof.
  intros H. rewrite this_rnd64. destruct (rnd_bounds x) as [Hl Hu].
  rewrite (Qabs_neg x H) in Hl, Hu. unfold Double.eps in *. split; lra.
Qed.

(** The same for a value known up to [==], of size at most [B]. *)
Lemma rnd64_within (x : Qc) (q B : Q) :
  (x == q)%Q -> (- B <= q)%Q -> (q <= B)%Q ->
  (q - B * Double.eps <= Double.rnd64 x /\ Double.rnd64 x <= q + B * Double.eps)%Q.
Proof.
  intros E Hl Hu. rewrite this_rnd64. destruct (rnd_bounds x) as [L U].
  assert (Qabs x <= B)%Q as Ha by (apply Qabs_Qle_condition; rewrite E; split; assumption).
  assert (Qabs x * Double.eps <= B * Double.eps)%Q as Hb
    by (apply Qmult_le_compat_r; [exact Ha|discriminate]).
  set (r := Double.rnd x) in *. set (A := Qabs x) in *. split; lra.
Qed.

Lemma abs_bounds (x : Q) : (- Qabs x <= x /\ x <= Qabs x /\ 0 <= Qabs x)%Q.
Proof.
  pose proof (Qabs_nonneg x). pose proof (Qle_Qabs x).
  pose proof (Qle_Qabs (- x)) as H1. rewrite Qabs_opp in H1.
  repeat split; lra.
Qed.

Lemma pow2_nonneg_Z (j : Z) : 0 <= j -> (Double.pow2 j == inject_Z (2 ^ j))%Q.
Proof.
  intros H. unfold Double.pow2. change 2%Q with (inject_Z 2). symmetry. apply Zpower_Qpower, H.
Qed.

(** Whole numbers up to [2^53] are doubles: operations on whole amounts
    whose results stay in that range do not round. *)
Lemma rnd_integer (z : Z) : Z.abs z <= 2 ^ 53 -> (Double.rnd (inject_Z z) == inject_Z z)%Q.
Proof.
  intros Hz. unfold Double.rnd. destruct (Qeq_bool (inject_Z z) 0) eqn:E.
  - apply Qeq_bool_iff in E. rewrite E. reflexivity.
  - assert (z <> 0) as Hnz by (intros ->; discriminate).
    assert (0 < Qabs (inject_Z z))%Q as Ha.
    { change (Qabs (inject_Z z)) with (inject_Z (Z.abs z)).
      change 0%Q with (inject_Z 0). rewrite <- Zlt_Qlt. lia. }
    pose proof (ilog2_lower _ Ha) as Hk.
    set (k := Double.ilog2 (Qabs (inject_Z z))) in *.
    assert (k <= 53) as Hk53.
    { apply (Qpower_le_compat_l_inv 2); [|reflexivity].
      fold (Double.pow2 k). fold (Double.pow2 53). rewrite (pow2_nonneg_Z 53) by lia.
      eapply Qle_trans; [exact Hk|].
      change (Qabs (inject_Z z)) with (inject_Z (Z.abs z)).
      rewrite <- Zle_Qle. exact Hz. }
    destruct (Z.eq_dec k 53) as [->|Hne].
    + (* |z| = 2^53 *)
      assert (Z.abs z = 2 ^ 53) as Habs.
      { apply Z.le_antisymm; [exact Hz|].
        rewrite (pow2_nonneg_Z 53) in Hk by lia.
        change (Qabs (inject_Z z)) with (inject_Z (Z.abs z)) in Hk.
        rewrite <- Zle_Qle in Hk. exact Hk. }
      assert (z = 2 ^ 53 \/ z = - 2 ^ 53) as [->| ->] by lia; vm_compute; reflexivity.
    + assert (0 <= 52 - k) as Hj by lia.
      assert (Double.pow2 (k - 52) * inject_Z (2 ^ (52 - k)) == 1)%Q as Hinv.
      { rewrite <- pow2_nonneg_Z by lia. unfold Double.pow2.
        rewrite <- Qpower_plus by discriminate.
        replace (k - 52 + (52 - k)) with 0 by lia. reflexivity. }
      pose proof (pow2_pos (k - 52)) as HP.
      set (P := Double.pow2 (k - 52)) in *.
      assert (inject_Z z / P == inject_Z (z * 2 ^ (52 - k)))%Q as Hm.
      { rewrite inject_Z_mult. set (J := inject_Z (2 ^ (52 - k))) in *.
        apply Qeq_sym. apply Qeq_sym. 
        assert (inject_Z z / P == inject_Z z * (P * J) / P)%Q as -> by (rewrite Hinv; field; lra).
        field. lra. }
      rewrite (round_half_even_comp _ _ Hm), round_half_even_integer.
      rewrite inject_Z_mult.
      set (J := inject_Z (2 ^ (52 - k))) in *.
      assert (inject_Z z * J * P == inject_Z z * (P * J))%Q as -> by ring.
      rewrite Hinv. ring.
Qed.

Lemma representable_of_Z (z : Z) : Z.abs z <= 2 ^ 53 -> Double.representable (of_Z z).
Proof.
  intros Hz. unfold Double.representable, Double.rnd64, of_Z.
  apply Qc_is_canon. cbn [this Q2Qc]. rewrite Qred_correct.
  assert (Qred (inject_Z z) = inject_Z z) as ->; [|apply rnd_integer, Hz].
  apply Qred_identity. simpl. apply Z.gcd_1_r.
Qed.

Lemma representable_by_computation (x : Qc) :
  Qeq_bool (Double.rnd x) x = true -> Double.representable x.
Proof.
  intros H. apply Qeq_bool_iff in H. unfold Double.representable, Double.rnd64.
  apply Qc_is_canon. cbn [this Q2Qc]. rewrite Qred_correct. exact H.
Qed.

(** ** The asset value on doubles *)

(** When nothing rounds, subtracting what was added gives the row back. *)
Lemma increase_then_decrease_row (d : AssetRepair) (row : AssetFinanceBook) :
  Double.exact_round_trip d row ->
  let s := Double.get_total_value_of_stock_consumed d in
  let up (row : AssetFinanceBook) :=
    let row := set_value_after_depreciation
                 (Double.add (value_after_depreciation row) s) row in
    if capitalize_repair_cost d then
      set_value_after_depreciation
        (Double.add (value_after_depreciation row) (repair_cost d)) row
    else row in
  let down (row : AssetFinanceBook) :=
    let row := set_value_after_depreciation
                 (Double.sub (value_after_depreciation row) s) row in
    if capitalize_repair_cost d then
      set_value_after_depreciation
        (Double.sub (value_after_depreciation row) (repair_cost d)) row
    else row in
  down (up row) = row.
Proof.
  intros (Hv & Hs & Hc) s up down. subst up down. fold s in Hs, Hc.
  unfold Double.representable in *.
  destruct row as [fb dm v n fr st ev]. cbn [value_after_depreciation] in *.
  destruct (capitalize_repair_cost d); unfold Double.add, Double.sub; simpl.
  - destruct (Hc eq_refl) as [Hsr Hr].
    rewrite Hs, Hsr.
    replace (v + s + repair_cost d - s)%Qc with (v + repair_cost d)%Qc by ring.
    rewrite Hr.
    replace (v + repair_cost d - repair_cost d)%Qc with v by ring.
    rewrite Hv. reflexivity.
  - rewrite Hs. replace (v + s - s)%Qc with v by ring. rewrite Hv. reflexivity.
Qed.

(** Adding and subtracting the stock value: two roundings. *)
Lemma round_trip_without_cost (v s : Qc) (Ar : Q) :
  (0 <= Ar)%Q ->
  (Qabs (Double.sub (Double.add v s) s - v)
   <= (Qabs v + Qabs s + Ar) * (1 # 1125899906842624))%Q.
Proof.
  intros HA.
  destruct (abs_bounds v) as (Hv1 & Hv2 & Hv0). destruct (abs_bounds s) as (Hs1 & Hs2 & Hs0).
  set (Av := Qabs v) in *. set (As := Qabs s) in *.
  unfold Double.add, Double.sub.
  destruct (rnd64_within (v + s)%Qc (v + s)%Q (Av + As)%Q (this_Qcplus v s))
    as [L1 U1]; [lra|lra|].
  set (v1 := Double.rnd64 (v + s)) in *. unfold Double.eps in *.
  destruct (rnd64_within (v1 - s)%Qc (v1 - s)%Q ((Av + As) * (1 + Double.eps) + As)%Q
              (this_Qcminus v1 s)) as [L2 U2]; unfold Double.eps in *; [lra|lra|].
  set (w := Double.rnd64 (v1 - s)) in *.
  apply Qabs_Qle_condition. split; lra.
Qed.

(** Adding the stock value and the repair cost, then subtracting them:
    four roundings. *)
Lemma round_trip_with_cost (v s r : Qc) :
  (Qabs (Double.sub (Double.sub (Double.add (Double.add v s) r) s) r - v)
   <= (Qabs v + Qabs s + Qabs r) * (1 # 1125899906842624))%Q.
Proof.
  destruct (abs_bounds v) as (Hv1 & Hv2 & Hv0). destruct (abs_bounds s) as (Hs1 & Hs2 & Hs0).
  destruct (abs_bounds r) as (Hr1 & Hr2 & Hr0).
  set (Av := Qabs v) in *. set (As := Qabs s) in *. set (Ar := Qabs r) in *.
  unfold Double.add, Double.sub.
  destruct (rnd64_within (v + s)%Qc (v + s)%Q (Av + As)%Q (this_Qcplus v s))
    as [L1 U1]; [lra|lra|].
  set (v1 := Double.rnd64 (v + s)) in *. unfold Double.eps in *.
  destruct (rnd64_within (v1 + r)%Qc (v1 + r)%Q ((Av + As) * (1 + Double.eps) + Ar)%Q
              (this_Qcplus v1 r)) as [L2 U2]; unfold Double.eps in *; [lra|lra|].
  set (v2 := Double.rnd64 (v1 + r)) in *.
  destruct (rnd64_within (v2 - s)%Qc (v2 - s)%Q
              (((Av + As) * (1 + Double.eps) + Ar) * (1 + Double.eps) + As)%Q
              (this_Qcminus v2 s)) as [L3 U3]; unfold Double.eps in *; [lra|lra|].
  set (w1 := Double.rnd64 (v2 - s)) in *.
  destruct (rnd64_within (w1 - r)%Qc (w1 - r)%Q
              ((((Av + As) * (1 + Double.eps) + Ar) * (1 + Double.eps) + As) * (1 + Double.eps) + Ar)%Q
              (this_Qcminus w1 r)) as [L4 U4]; unfold Double.eps in *; [lra|lra|].
  set (w2 := Double.rnd64 (w1 - r)) in *.
  apply Qabs_Qle_condition. split; lra.
Qed.

Lemma same_book_refl (row : AssetFinanceBook) : Double.same_book row row.
Proof. unfold Double.same_book. repeat split. Qed.

Lemma amounts_nonneg (d : AssetRepair) (row : AssetFinanceBook) :
  (0 <= Double.amounts d row)%Q.
Proof.
  unfold Double.amounts.
  destruct (abs_bounds (value_after_depreciation row)) as (_ & _ & H1).
  destruct (abs_bounds (Double.get_total_value_of_stock_consumed d)) as (_ & _ & H2).
  destruct (abs_bounds (repair_cost d)) as (_ & _ & H3).
  lra.
Qed.

Lemma restored_refl (d : AssetRepair) (row : AssetFinanceBook) :
  Double.restored_up_to_rounding d row row.
Proof.
  split; [apply same_book_refl|].
  pose proof (amounts_nonneg d row) as H.
  apply Qabs_Qle_condition. split; lra.
Qed.

(** C3, as amended.  On floats, [decrease_asset_value] after
    [increase_asset_value] restores [value_after_depreciation] of every
    finance book row up to the rounding of the additions and subtractions:
    the value that comes back is within [2^-50] times the sizes of the
    amounts at play (the value, the stock consumed, the repair cost) of the
    value before, and it is that very value whenever no operation rounds
    (the value and the sums formed on the way are doubles, as with whole
    amounts).  Nothing else of the Asset changes. *)
Theorem decrease_after_increase_restores (d : AssetRepair) (a : Asset) :
  let a' := Double.decrease_asset_value d (Double.increase_asset_value d a) in
  (Forall (Double.exact_round_trip d) (finance_books a) -> a' = a)
  /\ Forall2 (Double.restored_up_to_rounding d) (finance_books a) (finance_books a')
  /\ asset_name a' = asset_name a
  /\ status a' = status a
  /\ calculate_depreciation a' = calculate_depreciation a
  /\ number_of_depreciations_booked a' = number_of_depreciations_booked a
  /\ flags a' = flags a
  /\ to_date a' = to_date a.
Proof.
  unfold Double.increase_asset_value, Double.decrease_asset_value. cbv zeta.
  destruct a as [an st calc booked fbs fl td].
  cbn [calculate_depreciation finance_books].
  destruct calc; unfold set_finance_books;
    cbn [calculate_depreciation finance_books asset_name status
           number_of_depreciations_booked flags to_date].
  - split; [|split; [|repeat split; reflexivity]].
    + intros H. f_equal. rewrite map_map.
      induction H as [|row l Hrow _ IH]; [reflexivity|].
      cbn [map]. f_equal; [|exact IH].
      exact (increase_then_decrease_row d row Hrow).
    + rewrite map_map. induction fbs as [|row l IH]; constructor; [|exact IH].
      destruct row as [fb dm v n fr sd ev].
      unfold Double.restored_up_to_rounding, Double.same_book, Double.amounts.
      destruct (capitalize_repair_cost d);
        cbn [set_value_after_depreciation value_after_depreciation finance_book
               depreciation_method total_number_of_depreciations
               frequency_of_depreciation depreciation_start_date
               expected_value_after_useful_life];
        (split; [repeat split|]).
      * apply round_trip_with_cost.
      * apply round_trip_without_cost. apply Qabs_nonneg.
  - split; [reflexivity|]. split; [|repeat split; reflexivity].
    induction fbs as [|row l IH]; constructor; [apply restored_refl|exact IH].
Qed.

Lemma decrease_after_increase_restores_witness :
  Forall (Double.exact_round_trip validated_repair) (finance_books Site.yearly_machine)
  /\ Double.decrease_asset_value validated_repair
       (Double.increase_asset_value validated_repair Site.yearly_machine)
     = Site.yearly_machine.
Proof.
  assert (Forall (Double.exact_round_trip validated_repair)
            (finance_books Site.yearly_machine)) as H.
  { constructor; [|constructor].
    split; [|split; [|intros _; split]];
      apply representable_by_computation; vm_compute; reflexivity. }
  split; [exact H|].
  exact (proj1 (decrease_after_increase_restores validated_repair Site.yearly_machine) H).
Defined.

(** C3, as stated, fails: a row worth 0.1, raised by a stock value of 0.2
    and lowered by it again, is worth 0.10000000000000003. *)
Lemma decrease_after_increase_a_tenth :
  (fun row => this (value_after_depreciation row)) <$> finance_books small_machine
  = [(3602879701896397 # 36028797018963968)%Q]
  /\ (fun row => this (value_after_depreciation row))
       <$> finance_books
             (Double.decrease_asset_value oil_change
                (Double.increase_asset_value oil_change small_machine))
     = [(1801439850948199 # 18014398509481984)%Q]
  /\ Double.decrease_asset_value oil_change
       (Double.increase_asset_value oil_change small_machine)
     <> small_machine.
Proof.
  assert ((fun row => this (value_after_depreciation row)) <$> finance_books small_machine
          = [(3602879701896397 # 36028797018963968)%Q]) as H1
    by (vm_compute; reflexivity).
  assert ((fun row => this (value_after_depreciation row))
            <$> finance_books
                  (Double.decrease_asset_value oil_change
                     (Double.increase_asset_value oil_change small_machine))
          = [(1801439850948199 # 18014398509481984)%Q]) as H2
    by (vm_compute; reflexivity).
  split; [exact H1|]. split; [exact H2|].
  intros E.
  apply (f_equal (fun a => (fun row => this (value_after_depreciation row))
                             <$> finance_books a)) in E.
  pose proof (eq_trans (eq_sym H2) (eq_trans E H1)) as H3.
  discriminate H3.
Qed.

(** Adding the stock value: one rounding. *)
Lemma raise_without_cost (v s : Qc) (Ar : Q) :
  (0 <= Ar)%Q ->
  (Qabs (Double.add v s - (v + s + 0%Qc))
   <= (Qabs v + Qabs s + Ar) * (1 # 2251799813685248))%Q.
Proof.
  intros HA. change (this 0%Qc) with 0%Q.
  destruct (abs_bounds v) as (Hv1 & Hv2 & Hv0). destruct (abs_bounds s) as (Hs1 & Hs2 & Hs0).
  set (Av := Qabs v) in *. set (As := Qabs s) in *.
  unfold Double.add.
  destruct (rnd64_within (v + s)%Qc (v + s)%Q (Av + As)%Q (this_Qcplus v s))
    as [L1 U1]; [lra|lra|].
  set (v1 := Double.rnd64 (v + s)) in *. unfold Double.eps in *.
  apply Qabs_Qle_condition. split; lra.
Qed.

(** Adding the stock value, then the repair cost: two roundings. *)
Lemma raise_with_cost (v s r : Qc) :
  (Qabs (Double.add (Double.add v s) r - (v + s + r))
   <= (Qabs v + Qabs s + Qabs r) * (1 # 2251799813685248))%Q.
Proof.
  destruct (abs_bounds v) as (Hv1 & Hv2 & Hv0). destruct (abs_bounds s) as (Hs1 & Hs2 & Hs0).
  destruct (abs_bounds r) as (Hr1 & Hr2 & Hr0).
  set (Av := Qabs v) in *. set (As := Qabs s) in *. set (Ar := Qabs r) in *.
  unfold Double.add.
  destruct (rnd64_within (v + s)%Qc (v + s)%Q (Av + As)%Q (this_Qcplus v s))
    as [L1 U1]; [lra|lra|].
  set (v1 := Double.rnd64 (v + s)) in *. unfold Double.eps in *.
  destruct (rnd64_within (v1 + r)%Qc (v1 + r)%Q ((Av + As) * (1 + Double.eps) + Ar)%Q
              (this_Qcplus v1 r)) as [L2 U2]; unfold Double.eps in *; [lra|lra|].
  set (v2 := Double.rnd64 (v1 + r)) in *.
  apply Qabs_Qle_condition. split; lra.
Qed.

(** X2. On an Asset with [calculate_depreciation], [increase_asset_value]
    raises [value_after_depreciation] of every finance book row by the value
    of the stock consumed, and by [repair_cost] too when
    [capitalize_repair_cost] is set, up to the rounding of the two float
    additions (at most [2^-51] times the sizes of the amounts at play); the
    rows keep their number, their order and their other fields, and so does
    the Asset its own. *)
Theorem increase_asset_value_amount (d : AssetRepair) (a : Asset) :
  calculate_depreciation a = true ->
  Forall2 (Double.raised_up_to_rounding d)
    (finance_books a) (finance_books (Double.increase_asset_value d a))
  /\ asset_name (Double.increase_asset_value d a) = asset_name a
  /\ status (Double.increase_asset_value d a) = status a
  /\ calculate_depreciation (Double.increase_asset_value d a) = true
  /\ number_of_depreciations_booked (Double.increase_asset_value d a)
     = number_of_depreciations_booked a
  /\ flags (Double.increase_asset_value d a) = flags a
  /\ to_date (Double.increase_asset_value d a) = to_date a.
Proof.
  intros Hc. unfold Double.increase_asset_value. cbv zeta. rewrite Hc.
  destruct a as [an st calc booked fbs fl td]. unfold set_finance_books.
  cbn [calculate_depreciation finance_books asset_name status
         number_of_depreciations_booked flags to_date] in *.
  split; [|subst calc; repeat split; reflexivity].
  induction fbs as [|row l IH]; constructor; [|exact IH].
  destruct row as [fb dm v n fr sd ev].
  unfold Double.raised_up_to_rounding, Double.same_book, Double.amounts.
  destruct (capitalize_repair_cost d);
    cbn [set_value_after_depreciation value_after_depreciation finance_book
           depreciation_method total_number_of_depreciations
           frequency_of_depreciation depreciation_start_date
           expected_value_after_useful_life];
    (split; [repeat split|]).
  - apply raise_with_cost.
  - apply raise_without_cost. apply Qabs_nonneg.
Qed.

Lemma increase_asset_value_amount_witness :
  calculate_depreciation small_machine = true
  /\ Forall2 (Double.raised_up_to_rounding oil_change)
       (finance_books small_machine)
       (finance_books (Double.increase_asset_value oil_change small_machine)).
Proof.
  split; [reflexivity|].
  exact (proj1 (increase_asset_value_amount oil_change small_machine eq_refl)).
Defined.

(** ** Downtime on doubles *)

Lemma round_half_even_above (x : Q) (k : Z) :
  (inject_Z k - (1 # 2) < x)%Q -> k <= round_half_even x.
Proof.
  intros H. pose proof (round_half_even_lower x) as Hl.
  assert (inject_Z (k - 1) < inject_Z (round_half_even x))%Q as Hlt.
  { replace (k - 1) with (k + -1) by lia. rewrite inject_Z_plus.
    change (inject_Z (-1)) with (-1 # 1)%Q. lra. }
  rewrite <- Zlt_Qlt in Hlt. lia.
Qed.

(** The hours between the dates, as computed: two rounded divisions. *)
Lemma hours_bounds (d : Z) :
  d <= 0 ->
  let h := Double.truediv (Double.truediv (of_Z d) (of_Z 1000000)) (of_Z 3600) in
  (inject_Z d * (1 # 3600000000) * ((1 + Double.eps) * (1 + Double.eps)) <= h
   /\ h <= inject_Z d * (1 # 3600000000) * ((1 - Double.eps) * (1 - Double.eps)))%Q.
Proof.
  intros Hd h. subst h. unfold Double.truediv.
  assert (inject_Z d <= 0)%Q as Hd' by (change 0%Q with (inject_Z 0); rewrite <- Zle_Qle; exact Hd).
  set (x0 := (of_Z d / of_Z 1000000)%Qc).
  assert (x0 == inject_Z d * (1 # 1000000))%Q as E0.
  { subst x0. rewrite this_Qcdiv, !this_of_Z.
    change (inject_Z 1000000) with (1000000 # 1)%Q. field. }
  assert (x0 <= 0)%Q as N0 by lra.
  destruct (rnd64_nonpos_bounds x0 N0) as [L0 U0].
  set (ts := Double.rnd64 x0) in *.
  set (x1 := (ts / of_Z 3600)%Qc).
  assert (x1 == ts * (1 # 3600))%Q as E1.
  { subst x1. rewrite this_Qcdiv, !this_of_Z.
    change (inject_Z 3600) with (3600 # 1)%Q. field. }
  unfold Double.eps in *.
  assert (x1 <= 0)%Q as N1 by lra.
  destruct (rnd64_nonpos_bounds x1 N1) as [L1 U1].
  unfold Double.eps in *. split; lra.
Qed.

(** From the hours to the downtime, through the two decimal roundings:
    below -0.0049995 hours the downtime is negative. *)
Lemma downtime_negative (h : Qc) :
  (h * (1000000 # 1) < (-4999 # 1) - (1 # 2))%Q ->
  (Double.round (Double.round h 6) 2 < 0)%Qc.
Proof.
  intros H.
  assert (round_half_even (h * inject_Z (10 ^ Z.of_nat 6)) <= -5000) as Hk.
  { apply round_half_even_below. change (inject_Z (10 ^ Z.of_nat 6)) with (1000000 # 1)%Q.
    change (inject_Z (-5000)) with (-5000 # 1)%Q. lra. }
  destruct (Z.eq_dec (round_half_even (h * inject_Z (10 ^ Z.of_nat 6))) (-5000)) as [E|E].
  - unfold Double.round at 2. unfold Py.round. rewrite E. vm_compute. reflexivity.
  - assert (round_half_even (h * inject_Z (10 ^ Z.of_nat 6)) <= -5001) as Hk' by lia.
    clear Hk E. unfold Double.round.
    pose proof (this_round h 6) as Ey.
    set (k := round_half_even _) in *.
    assert (inject_Z k <= -5001 # 1)%Q as Hkq
      by (change (-5001 # 1)%Q with (inject_Z (-5001)); rewrite <- Zle_Qle; exact Hk').
    change (inject_Z (10 ^ Z.of_nat 6)) with (1000000 # 1)%Q in Ey.
    set (y' := Py.round h 6) in *.
    assert (y' == inject_Z k * (1 # 1000000))%Q as Ey' by (rewrite Ey; field).
    assert (y' <= 0)%Q as Ny by lra.
    destruct (rnd64_nonpos_bounds y' Ny) as [_ Uy]. unfold Double.eps in Uy.
    set (y := Double.rnd64 y') in *.
    assert (round_half_even (y * inject_Z (10 ^ Z.of_nat 2)) <= -1) as Hz.
    { apply round_half_even_below. change (inject_Z (10 ^ Z.of_nat 2)) with (100 # 1)%Q.
      change (inject_Z (-1)) with (-1 # 1)%Q. lra. }
    pose proof (this_round y 2) as Er.
    set (z := round_half_even (y * _)) in *.
    assert (inject_Z z <= -1 # 1)%Q as Hzq
      by (change (-1 # 1)%Q with (inject_Z (-1)); rewrite <- Zle_Qle; exact Hz).
    change (inject_Z (10 ^ Z.of_nat 2)) with (100 # 1)%Q in Er.
    set (r' := Py.round y 2) in *.
    assert (r' == inject_Z z * (1 # 100))%Q as Er' by (rewrite Er; field).
    assert (r' <= 0)%Q as Nr by lra.
    destruct (rnd64_nonpos_bounds r' Nr) as [_ Ur]. unfold Double.eps in Ur.
    unfold Qclt. change (this 0%Qc) with 0%Q. lra.
Qed.

(** Above -0.0049995 hours it is zero. *)
Lemma downtime_zero (h : Qc) :
  (h <= 0)%Q ->
  ((-4999 # 1) - (1 # 2) < h * (1000000 # 1))%Q ->
  Double.round (Double.round h 6) 2 = 0%Qc.
Proof.
  intros Hh H.
  assert (-4999 <= round_half_even (h * inject_Z (10 ^ Z.of_nat 6))) as Hk.
  { apply round_half_even_above. change (inject_Z (10 ^ Z.of_nat 6)) with (1000000 # 1)%Q.
    change (inject_Z (-4999)) with (-4999 # 1)%Q. lra. }
  assert (round_half_even (h * inject_Z (10 ^ Z.of_nat 6)) <= 0) as Hk0.
  { apply round_half_even_below. change (inject_Z (10 ^ Z.of_nat 6)) with (1000000 # 1)%Q.
    change (inject_Z 0) with 0%Q. lra. }
  unfold Double.round.
  pose proof (this_round h 6) as Ey.
  set (k := round_half_even _) in *.
  assert (-4999 # 1 <= inject_Z k)%Q as Hkq
    by (change (-4999 # 1)%Q with (inject_Z (-4999)); rewrite <- Zle_Qle; exact Hk).
  assert (inject_Z k <= 0)%Q as Hkq0
    by (change 0%Q with (inject_Z 0); rewrite <- Zle_Qle; exact Hk0).
  change (inject_Z (10 ^ Z.of_nat 6)) with (1000000 # 1)%Q in Ey.
  set (y' := Py.round h 6) in *.
  assert (y' == inject_Z k * (1 # 1000000))%Q as Ey' by (rewrite Ey; field).
  assert (y' <= 0)%Q as Ny by lra.
  destruct (rnd64_nonpos_bounds y' Ny) as [Ly Uy]. unfold Double.eps in Ly, Uy.
  set (y := Double.rnd64 y') in *.
  assert (round_half_even (y * inject_Z (10 ^ Z.of_nat 2)) = 0) as Hz.
  { apply Z.le_antisymm.
    - apply round_half_even_below. change (inject_Z (10 ^ Z.of_nat 2)) with (100 # 1)%Q.
      change (inject_Z 0) with 0%Q. lra.
    - apply round_half_even_above. change (inject_Z (10 ^ Z.of_nat 2)) with (100 # 1)%Q.
      change (inject_Z 0) with 0%Q. lra. }
  unfold Py.round at 1. rewrite Hz. apply Qc_is_canon. reflexivity.
Qed.

(** C10, as amended.  [get_downtime] does not compare its two dates.  When
    [completion_date] is earlier than [failure_date] it returns a number of
    hours that is never positive, and that is negative exactly when the two
    are at least 17.9982 seconds apart; closer than that, the two decimal
    roundings bring it to zero. *)
Theorem get_downtime_reversed_dates (failure_date completion_date : datetime) :
  completion_date < failure_date ->
  (Double.get_downtime failure_date completion_date <= 0)%Qc
  /\ ((Double.get_downtime failure_date completion_date < 0)%Qc
      <-> 17998200 <= failure_date - completion_date).
Proof.
  intros Hlt. unfold Double.get_downtime, Double.time_diff_in_hours.
  set (d := completion_date - failure_date).
  assert (d <= 0) as Hd by lia.
  destruct (hours_bounds d Hd) as [Lh Uh]. unfold Double.eps in Lh, Uh.
  set (h := Double.truediv (Double.truediv (of_Z d) (of_Z 1000000)) (of_Z 3600)) in *.
  assert (inject_Z d <= 0)%Q as Hd'
    by (change 0%Q with (inject_Z 0); rewrite <- Zle_Qle; exact Hd).
  assert (h <= 0)%Q as Nh by lra.
  destruct (Z_lt_le_dec 17998200 (failure_date - completion_date)) as [Hbig|Hsmall].
  - assert (inject_Z d <= -17998201 # 1)%Q as Hq
      by (change (-17998201 # 1)%Q with (inject_Z (-17998201)); rewrite <- Zle_Qle; lia).
    assert (Double.round (Double.round h 6) 2 < 0)%Qc as Hneg
      by (apply downtime_negative; lra).
    split; [apply Qclt_le_weak, Hneg|]. split; [lia|intros _; exact Hneg].
  - destruct (Z.eq_dec (failure_date - completion_date) 17998200) as [E|E].
    + assert (d = -17998200) as Ed by lia.
      subst h. rewrite Ed.
      assert (Double.round (Double.round
                (Double.truediv (Double.truediv (of_Z (-17998200)) (of_Z 1000000)) (of_Z 3600)) 6) 2 < 0)%Qc
        as Hneg by (vm_compute; reflexivity).
      split; [apply Qclt_le_weak, Hneg|]. split; [lia|intros _; exact Hneg].
    + assert (-17998199 # 1 <= inject_Z d)%Q as Hq
        by (change (-17998199 # 1)%Q with (inject_Z (-17998199)); rewrite <- Zle_Qle; lia).
      rewrite (downtime_zero h Nh) by lra.
      split; [apply Qcle_refl|]. split; [|lia].
      intros H. exfalso. unfold Qclt in H. exact (Qlt_irrefl _ H).
Qed.

Lemma get_downtime_reversed_dates_witness :
  1700000000000000 < 1700000018000000
  /\ (Double.get_downtime 1700000018000000%Z 1700000000000000%Z < 0)%Qc.
Proof.
  split; [lia|].
  destruct (get_downtime_reversed_dates 1700000018000000 1700000000000000)
    as [_ [_ H]]; [lia|].
  apply H. lia.
Defined.

(** C10, as stated, fails: with a completion ten seconds before the
    failure, the downtime is zero, not negative. *)
Lemma get_downtime_ten_seconds_early :
  1700000000000000 < 1700000010000000
  /\ Double.get_downtime 1700000010000000%Z 1700000000000000%Z = 0%Qc
  /\ ~ (Double.get_downtime 1700000010000000%Z 1700000000000000%Z < 0)%Qc.
Proof.
  assert (Double.get_downtime 1700000010000000%Z 1700000000000000%Z = 0%Qc) as E
    by (apply Qc_is_canon; vm_compute; reflexivity).
  split; [lia|]. split; [exact E|].
  rewrite E. intros H. unfold Qclt in H. exact (Qlt_irrefl _ H).
Qed.

(** X17. The downtime returned differs from the exact number of hours
    between the two dates by at most 0.0050005 (half a hundredth for the
    rounding to two decimals, half a millionth for the rounding to six that
    precedes it) plus the rounding of the float operations, itself at most
    [2^-50] times the exact hours plus one. *)
Theorem get_downtime_accuracy (failure_date completion_date : datetime) :
  (Qabs (Double.get_downtime failure_date completion_date
         - exact_hours failure_date completion_date)
   <= (10001 # 2000000)
      + (Qabs (exact_hours failure_date completion_date) + 1) * (1 # 1125899906842624))%Q.
Proof.
  unfold Double.get_downtime, Double.time_diff_in_hours, exact_hours, Double.truediv.
  set (d := completion_date - failure_date).
  set (E := (inject_Z d * (1 # 3600000000))%Q).
  destruct (abs_bounds E) as (HE1 & HE2 & HE0). set (A := Qabs E) in *.
  set (x0 := (of_Z d / of_Z 1000000)%Qc).
  assert (x0 == E * (3600 # 1))%Q as E0.
  { subst x0 E. rewrite this_Qcdiv, !this_of_Z.
    change (inject_Z 1000000) with (1000000 # 1)%Q. field. }
  destruct (rnd64_within x0 _ (A * (3600 # 1))%Q E0) as [L0 U0]; [lra|lra|].
  unfold Double.eps in *.
  set (ts := Double.rnd64 x0) in *.
  set (x1 := (ts / of_Z 3600)%Qc).
  assert (x1 == ts * (1 # 3600))%Q as E1.
  { subst x1. rewrite this_Qcdiv, !this_of_Z.
    change (inject_Z 3600) with (3600 # 1)%Q. field. }
  destruct (rnd64_within x1 _ (A * (1 + Double.eps))%Q E1) as [L1 U1];
    unfold Double.eps in *; [lra|lra|].
  set (h := Double.rnd64 x1) in *.
  unfold Double.round.
  destruct (round_spec h 6) as (z6 & E6 & Hu6 & Hl6).
  change (inject_Z (10 ^ Z.of_nat 6)) with (1000000 # 1)%Q in *.
  set (y' := Py.round h 6) in *.
  assert (y' == inject_Z z6 * (1 # 1000000))%Q as E6' by (rewrite E6; field).
  destruct (rnd64_within y' _ (A * ((1 + Double.eps) * (1 + Double.eps)) + (1 # 1000000))%Q E6') as [L2 U2];
    unfold Double.eps in *; [lra|lra|].
  set (y := Double.rnd64 y') in *.
  destruct (round_spec y 2) as (z2 & E2 & Hu2 & Hl2).
  change (inject_Z (10 ^ Z.of_nat 2)) with (100 # 1)%Q in *.
  set (r' := Py.round y 2) in *.
  assert (r' == inject_Z z2 * (1 # 100))%Q as E2' by (rewrite E2; field).
  destruct (rnd64_within r' _
              ((A * ((1 + Double.eps) * (1 + Double.eps)) + (1 # 1000000)) * (1 + Double.eps) + (1 # 100))%Q E2')
    as [L3 U3]; unfold Double.eps in *; [lra|lra|].
  set (r := Double.rnd64 r') in *.
  apply Qabs_Qle_condition. split; lra.
Qed.

(** ** Downtime: the exact reading and the doubles agree *)

Lemma rnd64_nonneg (x : Qc) : (0 <= x)%Qc -> (0 <= Double.rnd64 x)%Qc.
Proof.
  intros H. unfold Qcle in *. change (this 0%Qc) with 0%Q in *.
  destruct (rnd64_within x x x (Qeq_refl x)) as [L _]; [lra|lra|].
  unfold Double.eps in L. lra.
Qed.

Lemma truediv_nonneg (a b : Qc) :
  (0 <= a)%Qc -> (0 < b)%Qc -> (0 <= Double.truediv a b)%Qc.
Proof.
  intros Ha Hb. apply rnd64_nonneg. unfold Qcle, Qclt in *.
  change (this 0%Qc) with 0%Q in *. rewrite this_Qcdiv.
  apply Qle_shift_div_l; [exact Hb|]. lra.
Qed.

(** When [completion_date] is not earlier than [failure_date], the downtime
    computed on doubles is not negative either. *)
Lemma get_downtime_ordered_dates_on_doubles (failure_date completion_date : datetime) :
  failure_date <= completion_date ->
  (0 <= Double.get_downtime failure_date completion_date)%Qc.
Proof.
  intros H. unfold Double.get_downtime, Double.time_diff_in_hours, Double.round.
  apply rnd64_nonneg, round_nonneg, rnd64_nonneg, round_nonneg.
  apply truediv_nonneg; [|reflexivity].
  apply truediv_nonneg; [|reflexivity].
  unfold Qcle. change (this 0%Qc) with 0%Q. rewrite this_of_Z.
  change 0%Q with (inject_Z 0). rewrite <- Zle_Qle. lia.
Qed.

(** A downtime of a whole number of hours is returned exactly on doubles
    too, in the range where the seconds are counted exactly. *)
Lemma get_downtime_whole_hours_on_doubles (failure_date : datetime) (h : Z) :
  Z.abs h * 3600 <= 2 ^ 53 ->
  Double.get_downtime failure_date (failure_date + h * 3600000000) = of_Z h.
Proof.
  intros Hh. unfold Double.get_downtime, Double.time_diff_in_hours, Double.round,
    Double.truediv.
  replace (failure_date + h * 3600000000 - failure_date) with (h * 3600000000) by lia.
  assert ((of_Z (h * 3600000000) / of_Z 1000000)%Qc = of_Z (h * 3600)) as ->.
  { apply Qc_is_canon. rewrite this_Qcdiv, !this_of_Z, !inject_Z_mult.
    change (inject_Z 3600000000) with (3600000000 # 1)%Q.
    change (inject_Z 1000000) with (1000000 # 1)%Q.
    change (inject_Z 3600) with (3600 # 1)%Q. field. }
  rewrite (representable_of_Z (h * 3600)) by lia.
  assert ((of_Z (h * 3600) / of_Z 3600)%Qc = of_Z h) as ->.
  { apply Qc_is_canon. rewrite this_Qcdiv, !this_of_Z, !inject_Z_mult.
    change (inject_Z 3600) with (3600 # 1)%Q. field. }
  assert (Double.rnd64 (of_Z h) = of_Z h) as E by (apply representable_of_Z; lia).
  rewrite E, round_integer, E, round_integer, E. reflexivity.
Qed.
